(** * FLAN protocol server: the kitchen engine of [app.py]

    A shallow embedding of the state of [CuisineFlan], of the handlers
    [prechauffage], [commander], [historique], [events_stream] and of the
    background task [simuler_cuisson], followed by the properties of the
    oven pool, of the order pipeline and of the event log.

    Conventions of the embedding:
    - Python dictionaries whose iteration order is used ([cuisine.fours])
      are association lists; [cuisine.commandes] and the constant
      [cuisine.recettes] are finite maps;
    - an order is a Python dict shared by reference between
      [cuisine.commandes] and the local variable [commande] of its task:
      the objects live in a store [objets] and [commandes] maps an order
      id to the address of its object;
    - [time.time()] reads the field [horloge]; times and sleep durations
      are counted in milliseconds;
    - a handler or a task is a value of type [prog]: a sequence of
      statements on the shared state, of sleeps and of thread starts;
      a statement that touches local variables only is no step of its
      own; the server has no lock, so its executions interleave the
      threads statement by statement ([executer]); the executions in
      which a scheduled thread runs alone up to its next sleep
      ([executer_seq]) are the ones in which requests and tasks do not
      overlap;
    - a method of [CuisineFlan] is embedded twice: as a function on the
      state, which is the method run alone, and as the sequence of its
      statements ([appel_nouvelle_commande_id],
      [appel_trouver_four_disponible], [appel_ajouter_event]), which is
      what the handlers and the task run; run alone, the statements do
      what the function does;
    - in the body of a request the keys [recette] and [four_id] are
      strings, [portions] and [options] are any JSON value. *)

From Stdlib Require Import ZArith Decimal DecimalString DecimalNat.
From stdpp Require Import base gmap list strings fin_maps.

Open Scope Z_scope.

(** ** Formatting of integers in f-strings *)

Definition decimal (n : nat) : string :=
  NilEmpty.string_of_uint (Nat.to_uint n).

Definition decimal_Z (z : Z) : string :=
  NilEmpty.string_of_int (Z.to_int z).

Fixpoint zeros (k : nat) (d : uint) : uint :=
  match k with
  | O => d
  | S k' => D0 (zeros k' d)
  end.

(** [f"{n:04d}"]: decimal digits, padded on the left with zeros up to
    four characters. *)
Definition format_04d (n : nat) : string :=
  let d := Nat.to_uint n in
  NilEmpty.string_of_uint (zeros (4 - nb_digits d) d).

(** ** Python slices *)

(** [l[start:]] for an integer [start]: a negative [start] counts from
    the end and is clamped to the beginning of the list. *)
Definition tranche_depuis {A} (start : Z) (l : list A) : list A :=
  if start <? 0
  then drop (Z.to_nat (Z.max 0 (Z.of_nat (length l) + start))) l
  else drop (Z.to_nat start) l.

(** ** Data *)

(** JSON-like values carried by requests, events and responses;
    [VOpaque] stands for a value computed outside the model (an MD5
    digest, the length of a JSON text, a formatted date). *)
#[local] Set Warnings "-register-all".
Inductive valeur : Type :=
| VNone
| VBool (b : bool)
| VInt (n : Z)
| VStr (s : string)
| VDict (d : list (string * valeur))
| VListe (l : list valeur)
| VOpaque (etiquette : string).

#[local] Set Warnings "register-all".

Abbreviation dict := (list (string * valeur)).

(** [FlanStatus] *)
Inductive FlanStatus : Type :=
| FLAN_PARFAIT | FLAN_CREE | MOULE_VIDE
| DEMENAGEMENT | FOUR_OCCUPE
| MAUVAISE_RECETTE | CUISINE_INTERDITE | RECETTE_SECRETE | FLAN_INTROUVABLE
| CUISSON_TIMEOUT | FLAN_TROP_GROS | JE_SUIS_THEIERE | TROP_DE_COMMANDES
| FOUR_EN_PANNE | MAUVAIS_FOUR | CUISINE_FERMEE | FOUR_TIMEOUT.

Definition code (s : FlanStatus) : Z :=
  match s with
  | FLAN_PARFAIT => 200 | FLAN_CREE => 201 | MOULE_VIDE => 204
  | DEMENAGEMENT => 301 | FOUR_OCCUPE => 302
  | MAUVAISE_RECETTE => 400 | CUISINE_INTERDITE => 401
  | RECETTE_SECRETE => 403 | FLAN_INTROUVABLE => 404
  | CUISSON_TIMEOUT => 408 | FLAN_TROP_GROS => 413
  | JE_SUIS_THEIERE => 418 | TROP_DE_COMMANDES => 429
  | FOUR_EN_PANNE => 500 | MAUVAIS_FOUR => 502
  | CUISINE_FERMEE => 503 | FOUR_TIMEOUT => 504
  end.

(** An entry of [cuisine.recettes]. *)
Record Recette := {
  r_nom : string;
  r_ingredients : dict;
  r_cuisson : dict;
  r_emoji : string
}.

(** An entry of [cuisine.fours]. *)
Record four := {
  f_id : string;
  f_statut : string;
  f_temperature : Z;
  f_commande_en_cours : option string
}.

(** An element of [commande["etapes"]]. *)
Record etape := {
  et_id : string;
  et_description : string;
  et_timestamp : Z
}.

(** An order, as built by [commander]; [c_fin] is the key ["fin"], absent
    until the pipeline ends. *)
Record commande := {
  c_id : string;
  c_recette : string;
  c_details : Recette;
  c_portions : valeur;
  c_options : valeur;
  c_four_id : string;
  c_statut : string;
  c_progression : Z;
  c_etapes : list etape;
  c_debut : Z;
  c_fin : option Z
}.

(** An event, as built by [ajouter_event]. *)
Record event := {
  e_type : string;
  e_data : dict;
  e_timestamp : Z
}.

(** The state of the server: the fields of [CuisineFlan], the store of
    the order objects and the clock. *)
Record CuisineFlan := {
  fours : list (string * four);
  commandes : gmap string nat;
  objets : list commande;
  historique : list event;
  events_queue : list event;
  compteur_commandes : nat;
  horloge : Z
}.

Definition avec_fours (x : list (string * four)) (c : CuisineFlan) :=
  {| fours := x; commandes := commandes c; objets := objets c;
     historique := historique c; events_queue := events_queue c;
     compteur_commandes := compteur_commandes c; horloge := horloge c |}.

Definition avec_commandes (x : gmap string nat) (c : CuisineFlan) :=
  {| fours := fours c; commandes := x; objets := objets c;
     historique := historique c; events_queue := events_queue c;
     compteur_commandes := compteur_commandes c; horloge := horloge c |}.

Definition avec_objets (x : list commande) (c : CuisineFlan) :=
  {| fours := fours c; commandes := commandes c; objets := x;
     historique := historique c; events_queue := events_queue c;
     compteur_commandes := compteur_commandes c; horloge := horloge c |}.

Definition avec_historique (x : list event) (c : CuisineFlan) :=
  {| fours := fours c; commandes := commandes c; objets := objets c;
     historique := x; events_queue := events_queue c;
     compteur_commandes := compteur_commandes c; horloge := horloge c |}.

Definition avec_events_queue (x : list event) (c : CuisineFlan) :=
  {| fours := fours c; commandes := commandes c; objets := objets c;
     historique := historique c; events_queue := x;
     compteur_commandes := compteur_commandes c; horloge := horloge c |}.

Definition avec_compteur (x : nat) (c : CuisineFlan) :=
  {| fours := fours c; commandes := commandes c; objets := objets c;
     historique := historique c; events_queue := events_queue c;
     compteur_commandes := x; horloge := horloge c |}.

Definition avec_horloge (x : Z) (c : CuisineFlan) :=
  {| fours := fours c; commandes := commandes c; objets := objets c;
     historique := historique c; events_queue := events_queue c;
     compteur_commandes := compteur_commandes c; horloge := x |}.

(** ** [CuisineFlan.__init__] *)

Definition recettes : gmap string Recette :=
  list_to_map [
    ("flan_vanille",
     {| r_nom := "Flan à la Vanille";
        r_ingredients := [("oeufs", VInt 4); ("lait", VStr "500mL");
                          ("sucre", VStr "100g"); ("vanille", VStr "1 gousse")];
        r_cuisson := [("mode", VStr "bain-marie"); ("temperature", VInt 150);
                      ("duree", VStr "40min")];
        r_emoji := "🍮" |});
    ("flan_orange",
     {| r_nom := "Flan à l'Orange";
        r_ingredients := [("oeufs", VInt 4); ("lait", VStr "500mL");
                          ("sucre", VStr "100g"); ("oranges", VInt 2);
                          ("vanille", VStr "1 gousse")];
        r_cuisson := [("mode", VStr "bain-marie"); ("temperature", VInt 150);
                      ("duree", VStr "45min")];
        r_emoji := "🍊" |});
    ("flan_chocolat",
     {| r_nom := "Flan au Chocolat";
        r_ingredients := [("oeufs", VInt 4); ("lait", VStr "500mL");
                          ("sucre", VStr "80g"); ("chocolat", VStr "150g")];
        r_cuisson := [("mode", VStr "bain-marie"); ("temperature", VInt 160);
                      ("duree", VStr "50min")];
        r_emoji := "🍫" |});
    ("flan_caramel",
     {| r_nom := "Flan au Caramel";
        r_ingredients := [("oeufs", VInt 6); ("lait", VStr "750mL");
                          ("sucre", VStr "150g"); ("caramel", VStr "100g")];
        r_cuisson := [("mode", VStr "bain-marie"); ("temperature", VInt 150);
                      ("duree", VStr "55min")];
        r_emoji := "🥧" |})
  ].

(** [for i in range(1, 4): self.fours[f"four_{i}"] = {...}] *)
Definition four_initial (i : nat) : string * four :=
  let id := "four_" +:+ decimal i in
  (id, {| f_id := id; f_statut := "disponible"; f_temperature := 0;
          f_commande_en_cours := None |}).

Definition cuisine_init : CuisineFlan :=
  {| fours := map four_initial [1%nat; 2%nat; 3%nat];
     commandes := ∅;
     objets := [];
     historique := [];
     events_queue := [];
     compteur_commandes := 0;
     horloge := 0 |}.

(** ** Access to the ovens and to the order objects *)

(** [cuisine.fours[four_id]] *)
Fixpoint chercher_four (four_id : string) (l : list (string * four)) : option four :=
  match l with
  | [] => None
  | (k, f) :: l' => if String.eqb k four_id then Some f else chercher_four four_id l'
  end.

(** [four_id in cuisine.fours] *)
Definition dans_fours (four_id : string) (c : CuisineFlan) : bool :=
  bool_decide (is_Some (chercher_four four_id (fours c))).

(** In-place update of the dict [cuisine.fours[four_id]]. *)
Fixpoint modifier_four (four_id : string) (g : four -> four)
    (l : list (string * four)) : list (string * four) :=
  match l with
  | [] => []
  | (k, f) :: l' =>
      if String.eqb k four_id then (k, g f) :: l'
      else (k, f) :: modifier_four four_id g l'
  end.

Definition poser_statut_four (s : string) (f : four) : four :=
  {| f_id := f_id f; f_statut := s; f_temperature := f_temperature f;
     f_commande_en_cours := f_commande_en_cours f |}.

Definition poser_temperature (t : Z) (f : four) : four :=
  {| f_id := f_id f; f_statut := f_statut f; f_temperature := t;
     f_commande_en_cours := f_commande_en_cours f |}.

Definition poser_commande_en_cours (o : option string) (f : four) : four :=
  {| f_id := f_id f; f_statut := f_statut f; f_temperature := f_temperature f;
     f_commande_en_cours := o |}.

(** [cuisine.fours[four_id][...] = ...] *)
Definition ecrire_four (four_id : string) (g : four -> four) (c : CuisineFlan) : CuisineFlan :=
  avec_fours (modifier_four four_id g (fours c)) c.

(** [cuisine.fours[four_id]["statut"]]; the key is present wherever the
    source reads it, the empty string stands for the missing case. *)
Definition statut_du_four (four_id : string) (c : CuisineFlan) : string :=
  match chercher_four four_id (fours c) with
  | Some f => f_statut f
  | None => ""
  end.

Definition commande_vide : commande :=
  {| c_id := ""; c_recette := "";
     c_details := {| r_nom := ""; r_ingredients := []; r_cuisson := []; r_emoji := "" |};
     c_portions := VNone; c_options := VNone; c_four_id := ""; c_statut := "";
     c_progression := 0; c_etapes := []; c_debut := 0; c_fin := None |}.

#[global] Instance commande_inhabited : Inhabited commande := populate commande_vide.

(** The dict an address refers to. *)
Definition objet (a : nat) (c : CuisineFlan) : commande := objets c !!! a.

Definition poser_statut (s : string) (o : commande) : commande :=
  {| c_id := c_id o; c_recette := c_recette o; c_details := c_details o;
     c_portions := c_portions o; c_options := c_options o; c_four_id := c_four_id o;
     c_statut := s; c_progression := c_progression o; c_etapes := c_etapes o;
     c_debut := c_debut o; c_fin := c_fin o |}.

Definition poser_progression (p : Z) (o : commande) : commande :=
  {| c_id := c_id o; c_recette := c_recette o; c_details := c_details o;
     c_portions := c_portions o; c_options := c_options o; c_four_id := c_four_id o;
     c_statut := c_statut o; c_progression := p; c_etapes := c_etapes o;
     c_debut := c_debut o; c_fin := c_fin o |}.

Definition ajouter_etape (e : etape) (o : commande) : commande :=
  {| c_id := c_id o; c_recette := c_recette o; c_details := c_details o;
     c_portions := c_portions o; c_options := c_options o; c_four_id := c_four_id o;
     c_statut := c_statut o; c_progression := c_progression o;
     c_etapes := c_etapes o ++ [e];
     c_debut := c_debut o; c_fin := c_fin o |}.

Definition poser_fin (t : Z) (o : commande) : commande :=
  {| c_id := c_id o; c_recette := c_recette o; c_details := c_details o;
     c_portions := c_portions o; c_options := c_options o; c_four_id := c_four_id o;
     c_statut := c_statut o; c_progression := c_progression o; c_etapes := c_etapes o;
     c_debut := c_debut o; c_fin := Some t |}.

(** [commande[...] = ...] through the reference [a]. *)
Definition ecrire_objet (a : nat) (g : commande -> commande) (c : CuisineFlan) : CuisineFlan :=
  avec_objets (alter g a (objets c)) c.

(** ** Methods of [CuisineFlan] *)

Definition nouvelle_commande_id (c : CuisineFlan) : string * CuisineFlan :=
  let n := S (compteur_commandes c) in
  ("CMD-" +:+ format_04d n, avec_compteur n c).

Fixpoint premier_disponible (l : list (string * four)) : option string :=
  match l with
  | [] => None
  | (four_id, f) :: l' =>
      if String.eqb (f_statut f) "disponible" then Some four_id
      else premier_disponible l'
  end.

Definition trouver_four_disponible (c : CuisineFlan) : option string * CuisineFlan :=
  (premier_disponible (fours c), c).

Definition ajouter_event (event_type : string) (data : dict) (c : CuisineFlan) : CuisineFlan :=
  let event := {| e_type := event_type; e_data := data; e_timestamp := horloge c |} in
  let c1 := avec_events_queue (events_queue c ++ [event]) c in
  let c2 := avec_historique (historique c1 ++ [event]) c1 in
  if (100 <? length (historique c2))%nat
  then avec_historique (tranche_depuis (-100) (historique c2)) c2
  else c2.

(** Dictionary lookup [d.get(key)]. *)
Fixpoint dict_get (key : string) (d : dict) : option valeur :=
  match d with
  | [] => None
  | (k, v) :: d' => if String.eqb k key then Some v else dict_get key d'
  end.

(** ** Requests and responses *)

(** The JSON body of [POST /api/flan/commander]; [None] is a missing
    key.  [options] is any JSON value: the handler stores it as it is
    and calls its method [get] at line 412. *)
Record requete_commander := {
  rq_recette : option string;
  rq_portions : option valeur;
  rq_four_id : option string;
  rq_options : option valeur
}.

(** The JSON body of [POST /api/flan/prechauffage] and the peer address. *)
Record requete_prechauffage := {
  rp_temperature : option Z;
  rp_moule : option string;
  rp_remote_addr : option string
}.

(** [creer_reponse_flan(status, data, message)], without its timestamps. *)
Record reponse := {
  rep_statut : FlanStatus;
  rep_donnees : option dict;
  rep_message : option string
}.

Definition creer_reponse_flan (status : FlanStatus) (data : option dict)
    (message : option string) : reponse :=
  {| rep_statut := status; rep_donnees := data;
     rep_message := match message with
                    | Some "" => None
                    | m => m
                    end |}.

(** How a handler or a task ends: a response with its HTTP code, the plain
    [return] of a task, or an exception. *)
Inductive issue : Type :=
| Reponse (r : reponse) (http : Z)
| Fin
| Exception (nom : string).

(** ** Programs *)

(** A handler or a task: [Instr op k] runs one statement [op] on the
    shared state and goes on with [k] on its result; [Sommeil d k] is
    [time.sleep(d)]; [Lancer t k] starts the thread [t]. *)
Inductive prog : Type :=
| Retour (r : issue)
| Instr {A : Type} (op : CuisineFlan -> A * CuisineFlan) (k : A -> prog)
| Sommeil (d : Z) (k : prog)
| Lancer (t : prog) (k : prog).

Notation "x <- op 'puis' k" := (Instr op (fun x => k))
  (at level 20, op at level 100, k at level 200,
   format "'[v' x  <-  op  'puis'  '/' k ']'").
Notation "'faire' g 'puis' k" := (Instr (fun c => (tt, g c)) (fun _ => k))
  (at level 20, g at level 100, k at level 200,
   format "'[v' 'faire'  g  'puis'  '/' k ']'").

(** A statement that only reads the state. *)
Definition lire {A} (e : CuisineFlan -> A) : CuisineFlan -> A * CuisineFlan :=
  fun c => (e c, c).

(** Python truth value of an optional string: [None] and [""] are false. *)
Definition vrai (o : option string) : bool :=
  match o with
  | None => false
  | Some s => negb (String.eqb s "")
  end.

(** *** The methods of [CuisineFlan], statement by statement *)

(** [cuisine.nouvelle_commande_id()]: line 219 adds one to the counter,
    line 220 reads it and formats the id. *)
Definition appel_nouvelle_commande_id (k : string -> prog) : prog :=
  faire (fun c => avec_compteur (S (compteur_commandes c)) c) puis
  commande_id <- lire (fun c => "CMD-" +:+ format_04d (compteur_commandes c)) puis
  k commande_id.

(** The loop of [trouver_four_disponible] over the ovens at the
    positions [indices]: each turn reads one oven. *)
Fixpoint parcourir_fours (indices : list nat) (k : option string -> prog) : prog :=
  match indices with
  | [] => k None
  | i :: reste =>
      x <- lire (fun c => fours c !! i) puis
      match x with
      | Some (four_id, four) =>
          if String.eqb (f_statut four) "disponible" then k (Some four_id)
          else parcourir_fours reste k
      | None => k None
      end
  end.

(** [cuisine.trouver_four_disponible()]: [self.fours.items()], then the
    loop. *)
Definition appel_trouver_four_disponible (k : option string -> prog) : prog :=
  n <- lire (fun c => length (fours c)) puis
  parcourir_fours (seq 0 n) k.

(** [cuisine.ajouter_event(event_type, data)]: the event is built with
    the time (lines 229-233), put in the queue (line 234), appended to
    the history (line 235); the length of the history is tested (line
    237) and the history cut to its last 100 events (line 238). *)
Definition appel_ajouter_event (event_type : string) (data : dict) (k : prog) : prog :=
  event <- lire (fun c => {| e_type := event_type; e_data := data;
                             e_timestamp := horloge c |}) puis
  faire (fun c => avec_events_queue (events_queue c ++ [event]) c) puis
  faire (fun c => avec_historique (historique c ++ [event]) c) puis
  trop <- lire (fun c => (100 <? length (historique c))%nat) puis
  if trop
  then faire (fun c => avec_historique (tranche_depuis (-100) (historique c)) c) puis k
  else k.

#[global] Arguments appel_nouvelle_commande_id : simpl never.
#[global] Arguments appel_trouver_four_disponible : simpl never.
#[global] Arguments appel_ajouter_event : simpl never.

(** [PaquetFlan(...).to_dict()] *)
Definition paquet_dict (type_requete moule recette_id : string) (temperature : valeur)
    (source_four : string) (corps garniture : dict) (timestamp : Z) : valeur :=
  VDict [
    ("entete", VDict [
       ("version", VStr "1.0"); ("type_requete", VStr type_requete);
       ("taille_ml", VOpaque "len(json.dumps(corps))");
       ("moule", VStr moule); ("recette_id", VStr recette_id);
       ("portion", VStr "1/1"); ("temperature", temperature);
       ("ttl_minutes", VInt 30); ("source_four", VStr source_four);
       ("dest_assiette", VStr "127.0.0.1");
       ("checksum", VOpaque "md5") ]);
    ("corps", VDict corps);
    ("garniture", VDict garniture);
    ("timestamp", VInt timestamp);
    ("timestamp_lisible", VOpaque "isoformat") ].

Definition corps_flan (action recette : string) (ingredients cuisson : dict) : dict :=
  [("action", VStr action); ("recette", VStr recette);
   ("ingredients", VDict ingredients); ("cuisson", VDict cuisson);
   ("donnees", VNone)].

Definition garniture_flan (priorite : valeur) (donnees_supplementaires : dict) : dict :=
  [("priorite", priorite); ("compression", VBool false);
   ("donnees_supplementaires", VDict donnees_supplementaires);
   ("certificat", VNone)].

(** *** [simuler_cuisson] *)

(** The list [etapes]: stage id, description, progress, sleep (ms). *)
Definition etapes_cuisson : list (string * string * Z * Z) :=
  [ ("rassemblement_ingredients", "📦 Rassemblement des ingrédients", 10, 500);
    ("caramelisation", "🍯 Caramélisation du moule", 25, 800);
    ("melange_appareil", "🥣 Mélange de l'appareil", 50, 600);
    ("versement", "🫗 Versement dans le moule", 60, 300);
    ("cuisson", "🔥 Cuisson au bain-marie", 85, 1500);
    ("refroidissement", "❄️ Refroidissement", 95, 700);
    ("demoulage", "🍽️ Démoulage", 100, 400) ].

Definition dans_commandes (commande_id : string) (c : CuisineFlan) : bool :=
  bool_decide (is_Some (commandes c !! commande_id)).

(** The data of the event ["termine"], read from the order. *)
Definition donnees_termine (commande_id : string) (commande : nat)
    (c : CuisineFlan) : dict :=
  let o := objet commande c in
  [("commande_id", VStr commande_id);
   ("duree_totale", VInt (default 0 (c_fin o) - c_debut o));
   ("recette", VStr (c_recette o))].

(** The last statement of the task: the event ["termine"]. *)
Definition publier_termine (commande_id : string) (commande : nat) : prog :=
  data <- lire (donnees_termine commande_id commande) puis
  appel_ajouter_event "termine" data (Retour Fin).

(** The statements after the loop; [commande] is the address held by the
    local variable of the same name. *)
Definition fin_cuisson (commande_id : string) (commande : nat) : prog :=
  faire (ecrire_objet commande (poser_statut "termine")) puis
  faire (ecrire_objet commande (poser_progression 100)) puis
  faire (fun c => ecrire_objet commande (poser_fin (horloge c)) c) puis
  four_id <- lire (fun c => c_four_id (objet commande c)) puis
  present <- lire (dans_fours four_id) puis
  if present then
    faire (ecrire_four four_id (poser_statut_four "disponible")) puis
    faire (ecrire_four four_id (poser_commande_en_cours None)) puis
    publier_termine commande_id commande
  else publier_termine commande_id commande.

(** The [for] loop over the stages that are left. *)
Fixpoint boucle_etapes (commande_id : string) (commande : nat)
    (etapes : list (string * string * Z * Z)) : prog :=
  match etapes with
  | [] => fin_cuisson commande_id commande
  | (etape_id, description, progression, duree) :: reste =>
      present <- lire (dans_commandes commande_id) puis
      if negb present then Retour Fin
      else
        faire (ecrire_objet commande (poser_statut etape_id)) puis
        faire (ecrire_objet commande (poser_progression progression)) puis
        faire (fun c => ecrire_objet commande
                 (ajouter_etape {| et_id := etape_id; et_description := description;
                                   et_timestamp := horloge c |}) c) puis
        appel_ajouter_event "progression"
          [("commande_id", VStr commande_id); ("etape", VStr etape_id);
           ("description", VStr description);
           ("progression", VInt progression)]
          (Sommeil duree (boucle_etapes commande_id commande reste))
  end.

Definition simuler_cuisson (commande_id : string) : prog :=
  present <- lire (dans_commandes commande_id) puis
  if negb present then Retour Fin
  else
    commande <- lire (fun c => commandes c !! commande_id) puis
    match commande with
    | None => Retour (Exception "KeyError")
    | Some commande => boucle_etapes commande_id commande etapes_cuisson
    end.

(** *** [prechauffage] *)

(** Line 320 and the response, after the sleep. *)
Definition prechauffage_fin (four_id : string) (temperature : Z) : prog :=
  faire (ecrire_four four_id (poser_statut_four "pret")) puis
  Retour (Reponse
    (creer_reponse_flan FLAN_PARFAIT
       (Some [("four_id", VStr four_id); ("temperature", VInt temperature);
              ("statut", VStr "FOUR_PRET");
              ("message", VStr ("🔥 Four " +:+ four_id +:+ " préchauffé à "
                                +:+ decimal_Z temperature +:+ "°C"));
              ("paquet_syn_ack",
               VDict [("type", VStr "SYN-ACK"); ("four_id", VStr four_id);
                      ("capacite", VStr "disponible")])])
       None) 200).

(** The packet SYN of lines 300-309. *)
Definition paquet_prechauffage (req : requete_prechauffage) (c : CuisineFlan) : valeur :=
  let temperature := default 180 (rp_temperature req) in
  let moule := default "INDIVIDUEL" (rp_moule req) in
  let source := match rp_remote_addr req with
                | Some "" | None => "127.0.0.1"
                | Some a => a
                end in
  paquet_dict "SYN" moule "0x00" (VInt temperature) source
    (corps_flan "PRECHAUFFAGE" "" [] [])
    (garniture_flan (VStr "NORMAL") []) (horloge c).

(** The data of the event published by [prechauffage] when it reserves
    an oven. *)
Definition donnees_prechauffage (req : requete_prechauffage) (four_id : string)
    (paquet : valeur) : dict :=
  [("four_id", VStr four_id);
   ("temperature", VInt (default 180 (rp_temperature req)));
   ("paquet", paquet)].

(** What the publication of this event does when nothing runs between
    the making of the packet and the end of [ajouter_event]. *)
Definition publier_prechauffage (req : requete_prechauffage) (four_id : string)
    (c : CuisineFlan) : CuisineFlan :=
  ajouter_event "prechauffage"
    (donnees_prechauffage req four_id (paquet_prechauffage req c)) c.

Definition prechauffage (req : requete_prechauffage) : prog :=
  let temperature := default 180 (rp_temperature req) in
  appel_trouver_four_disponible (fun four_id =>
  if negb (vrai four_id) then
    appel_ajouter_event "erreur"
      [("phase", VStr "prechauffage");
       ("erreur", VStr "Tous les fours sont occupés")]
      (Retour (Reponse
         (creer_reponse_flan FOUR_OCCUPE None
            (Some "🔥 Tous les fours sont occupés, veuillez patienter")) 302))
  else
    let four_id := default "" four_id in
    faire (ecrire_four four_id (poser_statut_four "prechauffage")) puis
    faire (ecrire_four four_id (poser_temperature temperature)) puis
    paquet <- lire (paquet_prechauffage req) puis
    appel_ajouter_event "prechauffage" (donnees_prechauffage req four_id paquet)
      (Sommeil 300 (prechauffage_fin four_id temperature))).

(** *** [commander] *)

(** The order built at lines 381-392, at the time [debut], and stored at
    line 394: a new dict, reachable from the other threads once it is in
    [cuisine.commandes]. *)
Definition creer_commande (commande_id recette : string) (recette_details : Recette)
    (portions options : valeur) (four_id : string) (debut : Z)
    (c : CuisineFlan) : nat * CuisineFlan :=
  let commande :=
    {| c_id := commande_id; c_recette := recette; c_details := recette_details;
       c_portions := portions; c_options := options; c_four_id := four_id;
       c_statut := "en_preparation"; c_progression := 0; c_etapes := [];
       c_debut := debut; c_fin := None |} in
  let a := length (objets c) in
  (a, avec_commandes (<[commande_id := a]> (commandes c))
        (avec_objets (objets c ++ [commande]) c)).

(** The packet DATA of lines 399-416, for options that are a dict. *)
Definition paquet_commande (commande_id recette : string) (recette_details : Recette)
    (options : dict) (c : CuisineFlan) : valeur :=
  paquet_dict "DATA" "INDIVIDUEL" commande_id
    (default VNone (dict_get "temperature" (r_cuisson recette_details)))
    "127.0.0.1"
    (corps_flan "PREPARER" recette (r_ingredients recette_details)
       (r_cuisson recette_details))
    (garniture_flan (default (VStr "NORMAL") (dict_get "priorite" options)) options)
    (horloge c).

(** Lines 377-438, once the oven [four_id] is chosen.  The order is
    recorded and the oven is bound before the packet is made: when
    [options] is not a dict, [options.get] raises at line 412 and the
    handler ends there, its task not started. *)
Definition passer_commande (recette : string) (recette_details : Recette)
    (portions options : valeur) (four_id : string) : prog :=
  appel_nouvelle_commande_id (fun commande_id =>
  debut <- lire horloge puis
  commande <- creer_commande commande_id recette recette_details portions options
                four_id debut puis
  faire (ecrire_four four_id (poser_statut_four "cuisson")) puis
  faire (ecrire_four four_id (poser_commande_en_cours (Some commande_id))) puis
  match options with
  | VDict d =>
      paquet <- lire (paquet_commande commande_id recette recette_details d) puis
      appel_ajouter_event "commande"
        [("commande_id", VStr commande_id); ("recette", VStr recette);
         ("paquet", paquet)]
        (Lancer (simuler_cuisson commande_id)
           (Retour (Reponse
             (creer_reponse_flan FLAN_CREE
                (Some [("commande_id", VStr commande_id);
                       ("recette", VStr (r_nom recette_details));
                       ("emoji", VStr (r_emoji recette_details));
                       ("four_id", VStr four_id);
                       ("statut", VStr "PREPARATION_EN_COURS");
                       ("message", VStr ("👨‍🍳 Commande " +:+ commande_id +:+ " en préparation"))])
                None) 201)))
  | _ => Retour (Exception "AttributeError")
  end).

(** Lines 371-375: the oven must be ready or free. *)
Definition verifier_four (recette : string) (recette_details : Recette)
    (portions options : valeur) (four_id : string) : prog :=
  statut <- lire (statut_du_four four_id) puis
  if negb (String.eqb statut "pret" || String.eqb statut "disponible") then
    Retour (Reponse
      (creer_reponse_flan FOUR_OCCUPE None
         (Some ("🔥 Le four " +:+ four_id +:+ " n'est pas prêt"))) 302)
  else passer_commande recette recette_details portions options four_id.

(** [data.get('recette', 'flan_vanille')] *)
Definition recette_demandee (req : requete_commander) : string :=
  default "flan_vanille" (rq_recette req).

Definition commander (req : requete_commander) : prog :=
  let recette := recette_demandee req in
  let portions := default (VInt 1) (rq_portions req) in
  let four_id := rq_four_id req in
  let options := default (VDict []) (rq_options req) in
  match recettes !! recette with
  | None =>
      appel_ajouter_event "erreur"
        [("phase", VStr "commande");
         ("erreur", VStr ("Recette inconnue: " +:+ recette))]
        (Retour (Reponse
           (creer_reponse_flan FLAN_INTROUVABLE None
              (Some ("📖 Recette '" +:+ recette +:+ "' introuvable dans le livre de recettes")))
           404))
  | Some recette_details =>
      absent <- lire (fun c => negb (vrai four_id) || negb (dans_fours (default "" four_id) c)) puis
      if absent then
        appel_trouver_four_disponible (fun four_id =>
        if negb (vrai four_id) then
          Retour (Reponse
            (creer_reponse_flan CUISINE_FERMEE None (Some "👨‍🍳 Aucun four disponible")) 503)
        else verifier_four recette recette_details portions options (default "" four_id))
      else verifier_four recette recette_details portions options (default "" four_id)
  end.

(** *** Read-only handlers *)

(** [GET /api/flan/historique]: [limit] is the query parameter, [None]
    when it is missing or is not an integer (then 50 is used). *)
Definition evenements_recents (limit : option Z) (c : CuisineFlan) : list event :=
  tranche_depuis (- default 50 limit) (historique c).

Definition historique_api (limit : option Z) (c : CuisineFlan) : list event * nat :=
  (evenements_recents limit c, length (historique c)).

(** [GET /api/flan/fours]: the ovens, and how many are free. *)
Definition liste_fours (c : CuisineFlan) : list (string * four) * nat * nat :=
  (fours c,
   length (filter (fun kf => f_statut kf.2 = "disponible") (fours c)),
   length (fours c)).

(** What [GET /api/flan/commande/<id>] shows of an order. *)
Inductive vue_commande : Type :=
| Introuvable
| FlanPret (etapes_completees : nat)
| EnCours (progression : Z) (etape_actuelle : option etape).

Definition statut_commande (commande_id : string) (c : CuisineFlan) : vue_commande :=
  match commandes c !! commande_id with
  | None => Introuvable
  | Some a =>
      let commande := objet a c in
      if String.eqb (c_statut commande) "termine"
      then FlanPret (length (c_etapes commande))
      else EnCours (c_progression commande) (last (c_etapes commande))
  end.

(** *** [events_stream] *)

(** What the generator yields. *)
Inductive sortie : Type :=
| Donnee (e : event)
| Heartbeat (timestamp : Z).

(** One turn of the loop of [generate]: [events_queue.get(timeout=30)]
    takes the head of the queue; on an empty queue the wait ends with the
    exception and the heartbeat is sent. *)
Definition generate (c : CuisineFlan) : sortie * CuisineFlan :=
  match events_queue c with
  | e :: q => (Donnee e, avec_events_queue q c)
  | [] => (Heartbeat (horloge c), c)
  end.

(** ** Executions *)

(** Runs a thread up to its next sleep or to its end, without any other
    thread in between: the state reached, the threads started on the way
    and what is left to run. *)
Fixpoint segment (p : prog) (c : CuisineFlan) : CuisineFlan * list prog * prog :=
  match p with
  | Retour r => (c, [], Retour r)
  | Instr op k => let '(a, c') := op c in segment (k a) c'
  | Sommeil d k => (c, [], Sommeil d k)
  | Lancer t k => let '(c', l, p') := segment k c in (c', t :: l, p')
  end.

(** A thread that sleeps goes on with what follows the sleep. *)
Definition reprendre (p : prog) : prog :=
  match p with
  | Sommeil _ k => k
  | _ => p
  end.

(** One statement of a thread (or the end of its sleep). *)
Definition un_pas (p : prog) (c : CuisineFlan) : CuisineFlan * list prog * prog :=
  match p with
  | Retour r => (c, [], Retour r)
  | Instr op k => let '(a, c') := op c in (c', [], k a)
  | Sommeil d k => (c, [], k)
  | Lancer t k => (c, [t], k)
  end.

(** The server: the shared state and the threads, finished ones
    included, in the order of their creation. *)
Record serveur := {
  etat : CuisineFlan;
  taches : list prog
}.

Definition serveur_init : serveur := {| etat := cuisine_init; taches := [] |}.

(** What comes from outside: a request (Flask starts a thread for it),
    the passing of time, a subscriber of the event stream taking the head
    of the queue. *)
Inductive exterieur : Type :=
| PostCommander (req : requete_commander)
| PostPrechauffage (req : requete_prechauffage)
| Tic (dt : nat)
| Abonne.

Definition pas_exterieur (e : exterieur) (s : serveur) : serveur :=
  match e with
  | PostCommander req => {| etat := etat s; taches := taches s ++ [commander req] |}
  | PostPrechauffage req => {| etat := etat s; taches := taches s ++ [prechauffage req] |}
  | Tic dt => {| etat := avec_horloge (horloge (etat s) + Z.of_nat dt) (etat s);
                 taches := taches s |}
  | Abonne => {| etat := (generate (etat s)).2; taches := taches s |}
  end.

(** Thread [i] runs [f] on the state; the threads it starts join the pool. *)
Definition avancer (f : prog -> CuisineFlan -> CuisineFlan * list prog * prog)
    (i : nat) (s : serveur) : serveur :=
  match taches s !! i with
  | None => s
  | Some p =>
      let '(c', nouvelles, p') := f p (etat s) in
      {| etat := c'; taches := <[i := p']> (taches s) ++ nouvelles |}
  end.

(** Interleaved executions: the threads are scheduled statement by
    statement. *)
Inductive action : Type :=
| Ext (e : exterieur)
| Pas (i : nat).

Definition pas (a : action) (s : serveur) : serveur :=
  match a with
  | Ext e => pas_exterieur e s
  | Pas i => avancer un_pas i s
  end.

Definition executer (l : list action) (s : serveur) : serveur :=
  foldl (fun s a => pas a s) s l.

(** Serialised executions: a scheduled thread runs alone up to its next
    sleep or to its end. *)
Inductive action_seq : Type :=
| ExtS (e : exterieur)
| Segment (i : nat).

Definition pas_seq (a : action_seq) (s : serveur) : serveur :=
  match a with
  | ExtS e => pas_exterieur e s
  | Segment i => avancer (fun p => segment (reprendre p)) i s
  end.

Definition executer_seq (l : list action_seq) (s : serveur) : serveur :=
  foldl (fun s a => pas_seq a s) s l.

(** ** The event bus alone *)

(** The publisher calls [ajouter_event]; each subscriber runs [generate].
    [publies] records what was published, [flux] what each subscriber
    was sent. *)
Record bus := {
  b_cuisine : CuisineFlan;
  b_publies : list event;
  b_flux : list (list sortie)
}.

Inductive action_bus : Type :=
| Publier (event_type : string) (data : dict)
| Attendre (dt : nat)
| Connecter
| Recevoir (j : nat).

Definition pas_bus (a : action_bus) (b : bus) : bus :=
  match a with
  | Publier event_type data =>
      {| b_cuisine := ajouter_event event_type data (b_cuisine b);
         b_publies := b_publies b ++
           [{| e_type := event_type; e_data := data;
               e_timestamp := horloge (b_cuisine b) |}];
         b_flux := b_flux b |}
  | Attendre dt =>
      {| b_cuisine := avec_horloge (horloge (b_cuisine b) + Z.of_nat dt) (b_cuisine b);
         b_publies := b_publies b; b_flux := b_flux b |}
  | Connecter =>
      {| b_cuisine := b_cuisine b; b_publies := b_publies b;
         b_flux := b_flux b ++ [[]] |}
  | Recevoir j =>
      match b_flux b !! j with
      | None => b
      | Some recu =>
          let '(x, c') := generate (b_cuisine b) in
          {| b_cuisine := c'; b_publies := b_publies b;
             b_flux := <[j := recu ++ [x]]> (b_flux b) |}
      end
  end.

Definition executer_bus (l : list action_bus) (b : bus) : bus :=
  foldl (fun b a => pas_bus a b) b l.

Definition bus_init : bus :=
  {| b_cuisine := cuisine_init; b_publies := []; b_flux := [] |}.

(** The events a subscriber was sent, heartbeats left out. *)
Definition evenements_recus (recu : list sortie) : list event :=
  omap (fun x => match x with Donnee e => Some e | Heartbeat _ => None end) recu.

(** The claim that every subscriber is sent every event published while
    it is connected: subscriber [j] is connected after [avant], and once
    the queue is empty again it has been sent all that [apres] published. *)
Definition diffusion_a_tous : Prop :=
  forall (avant apres : list action_bus) (j : nat) (recu : list sortie),
    let b0 := executer_bus avant bus_init in
    let b1 := executer_bus apres b0 in
    (j < length (b_flux b0))%nat ->
    b_flux b1 !! j = Some recu ->
    events_queue (b_cuisine b1) = [] ->
    forall e, e ∈ drop (length (b_publies b0)) (b_publies b1) ->
              e ∈ evenements_recus recu.


(** The ovens are the three created by [__init__]. *)
Definition cles_fours (c : CuisineFlan) : Prop :=
  (fours c).*1 = ["four_1"; "four_2"; "four_3"].

(** The caller names an oven of the pool. *)
Definition four_nomme (req : requete_commander) (c : CuisineFlan) : bool :=
  vrai (rq_four_id req) && dans_fours (default "" (rq_four_id req)) c.

Definition four_pret (four_id : string) (c : CuisineFlan) : bool :=
  String.eqb (statut_du_four four_id c) "pret"
  || String.eqb (statut_du_four four_id c) "disponible".

(** The claim that a named oven which is neither ready nor free makes
    the order fail with 302 and creates no order. *)
Definition four_nomme_exige_pret : Prop :=
  forall (c : CuisineFlan) (req : requete_commander) (four_id : string),
    cles_fours c ->
    is_Some (recettes !! recette_demandee req) ->
    rq_four_id req = Some four_id -> four_id <> "" ->
    four_pret four_id c = false ->
    let '(c', nouvelles, p) := segment (commander req) c in
    (exists r, p = Retour (Reponse r 302)) /\ commandes c' = commandes c.

(** The outcome of [commander] when an order is placed on [four_id]:
    the response 201, the order recorded in its first state and bound to
    the oven, the oven cooking, the task started. *)
Definition commande_passee (c c' : CuisineFlan) (nouvelles : list prog) (p : prog)
    (four_id : string) : Prop :=
  let commande_id := (nouvelle_commande_id c).1 in
  let a := length (objets c) in
  (exists r, p = Retour (Reponse r 201) /\ rep_statut r = FLAN_CREE)
  /\ nouvelles = [simuler_cuisson commande_id]
  /\ commandes c' = <[commande_id := a]> (commandes c)
  /\ (exists o, objets c' = objets c ++ [o] /\ c_id o = commande_id
               /\ c_four_id o = four_id /\ c_statut o = "en_preparation"
               /\ c_progression o = 0 /\ c_etapes o = [])
  /\ (exists f, chercher_four four_id (fours c') = Some f
               /\ f_statut f = "cuisson"
               /\ f_commande_en_cours f = Some commande_id).

(** [options] is a dict: it has the method [get] of line 412. *)
Definition est_dict (v : valeur) : bool :=
  match v with
  | VDict _ => true
  | _ => false
  end.

(** The outcome of [commander] when an order is placed on [four_id] and
    its options are not a dict: the order is recorded in its first state
    and bound to the oven, the oven cooking, as above; then line 412
    raises, and no task is started. *)
Definition commande_sans_tache (c c' : CuisineFlan) (nouvelles : list prog) (p : prog)
    (four_id : string) : Prop :=
  let commande_id := (nouvelle_commande_id c).1 in
  let a := length (objets c) in
  p = Retour (Exception "AttributeError")
  /\ nouvelles = []
  /\ commandes c' = <[commande_id := a]> (commandes c)
  /\ (exists o, objets c' = objets c ++ [o] /\ c_id o = commande_id
               /\ c_four_id o = four_id /\ c_statut o = "en_preparation"
               /\ c_progression o = 0 /\ c_etapes o = [])
  /\ (exists f, chercher_four four_id (fours c') = Some f
               /\ f_statut f = "cuisson"
               /\ f_commande_en_cours f = Some commande_id).

(** The outcome of [commander] when an order is placed on [four_id],
    for any value of [options]. *)
Definition commande_placee (options : valeur) (c c' : CuisineFlan)
    (nouvelles : list prog) (p : prog) (four_id : string) : Prop :=
  if est_dict options
  then commande_passee c c' nouvelles p four_id
  else commande_sans_tache c c' nouvelles p four_id.

(** The outcome of [commander] when it refuses: the response, and nothing
    changed nor started. *)
Definition commande_refusee (c c' : CuisineFlan) (nouvelles : list prog) (p : prog)
    (status : FlanStatus) (http : Z) : Prop :=
  (exists r, p = Retour (Reponse r http) /\ rep_statut r = status)
  /\ nouvelles = [] /\ c' = c.

(** ** The pipeline of an order *)

(** What one turn of the loop of [simuler_cuisson] does to the state. *)
Definition appliquer_etape (commande_id : string) (commande : nat)
    (e : string * string * Z * Z) (c : CuisineFlan) : CuisineFlan :=
  let '(etape_id, description, progression, _) := e in
  let c1 := ecrire_objet commande (poser_statut etape_id) c in
  let c2 := ecrire_objet commande (poser_progression progression) c1 in
  let c3 := ecrire_objet commande
              (ajouter_etape {| et_id := etape_id; et_description := description;
                                et_timestamp := horloge c2 |}) c2 in
  ajouter_event "progression"
    [("commande_id", VStr commande_id); ("etape", VStr etape_id);
     ("description", VStr description); ("progression", VInt progression)] c3.

(** Runs a thread alone to its end, through its sleeps: the state at each
    sleep with the duration of the sleep, and the final state. *)
Fixpoint derouler (p : prog) (c : CuisineFlan) : list (CuisineFlan * Z) * CuisineFlan :=
  match p with
  | Retour _ => ([], c)
  | Instr op k => let '(a, c') := op c in derouler (k a) c'
  | Sommeil d k => let '(l, cf) := derouler k c in ((c, d) :: l, cf)
  | Lancer _ k => derouler k c
  end.

(** What is seen of the order at address [a] when its task sleeps:
    its status, its progress, the stages it lists, and the duration of
    the sleep. *)
Definition vue_etape (a : nat) (x : CuisineFlan * Z) : string * Z * list string * Z :=
  (c_statut (objet a x.1), c_progression (objet a x.1),
   et_id <$> c_etapes (objet a x.1), x.2).

Definition ids_etapes : list string := (fun e => e.1.1.1) <$> etapes_cuisson.

(** What the statements after the loop do to the state. *)
Definition terminer (commande_id : string) (commande : nat) (c : CuisineFlan) : CuisineFlan :=
  let c1 := ecrire_objet commande (poser_statut "termine") c in
  let c2 := ecrire_objet commande (poser_progression 100) c1 in
  let c3 := ecrire_objet commande (poser_fin (horloge c2)) c2 in
  let four_id := c_four_id (objet commande c3) in
  let c4 := if dans_fours four_id c3
            then ecrire_four four_id (poser_commande_en_cours None)
                   (ecrire_four four_id (poser_statut_four "disponible") c3)
            else c3 in
  let o := objet commande c4 in
  ajouter_event "termine"
    [("commande_id", VStr commande_id);
     ("duree_totale", VInt (default 0 (c_fin o) - c_debut o));
     ("recette", VStr (c_recette o))] c4.

(** The views expected at the sleeps of the stages [reste], for an order
    that already lists the stages [deja]. *)
Fixpoint vues_attendues (deja : list string) (reste : list (string * string * Z * Z))
    : list (string * Z * list string * Z) :=
  match reste with
  | [] => []
  | (etape_id, _, progression, duree) :: reste' =>
      (etape_id, progression, deja ++ [etape_id], duree)
      :: vues_attendues (deja ++ [etape_id]) reste'
  end.

(** The claim that the sleep of each stage is an entry of the stage table
    ([cuisson]) of the recipe of the order: [VInt d] stands for the
    number of milliseconds [d]. *)
Definition durees_de_la_recette : Prop :=
  forall (commande_id : string) (a : nat) (c : CuisineFlan) (x : CuisineFlan * Z),
    commandes c !! commande_id = Some a ->
    (a < length (objets c))%nat ->
    x ∈ (derouler (simuler_cuisson commande_id) c).1 ->
    exists cle, dict_get cle (r_cuisson (c_details (objet a c))) = Some (VInt x.2).

(** ** Serialised executions: what each thread is doing *)

(** The thread of the task of an order once [k] stages are done: not yet
    started for [k = 0], in the sleep of stage [k] otherwise. *)
Definition tache_cuisson (commande_id : string) (a : nat) (k : nat) : prog :=
  match k with
  | O => simuler_cuisson commande_id
  | S k' =>
      match etapes_cuisson !! k' with
      | Some e => Sommeil e.2 (boucle_etapes commande_id a (drop k etapes_cuisson))
      | None => Retour Fin
      end
  end.

(** Between two segments a thread is a request that has not started, a
    handler or a task that has ended, [prechauffage] in its sleep with an
    oven reserved, or the task of an order. *)
Inductive role : Type :=
| RNeuve
| RFinie
| RPrechauffe (four_id : string)
| RCuisson (commande_id : string) (a : nat) (k : nat).

Definition joue (p : prog) (r : role) : Prop :=
  match r with
  | RNeuve => (exists req, p = commander req) \/ (exists req, p = prechauffage req)
  | RFinie => exists r, p = Retour r
  | RPrechauffe four_id =>
      exists temperature, p = Sommeil 300 (prechauffage_fin four_id temperature)
  | RCuisson commande_id a k => p = tache_cuisson commande_id a k
  end.

(** The status and the progress of an order once [k] stages are done
    ([k = 8]: the statements after the loop are done too). *)
Definition etat_au_rang (k : nat) : string * Z :=
  match k with
  | O => ("en_preparation", 0)
  | S k' =>
      match etapes_cuisson !! k' with
      | Some e => (e.1.1.1, e.1.2)
      | None => ("termine", 100)
      end
  end.

Definition au_rang (k : nat) (o : commande) : Prop :=
  (k <= 8)%nat
  /\ (c_statut o, c_progression o) = etat_au_rang k
  /\ et_id <$> c_etapes o = take k ids_etapes.

(** What a thread holds: the id of the order of a task, the oven of a
    preheating. *)
Definition cle_role (r : role) : option (string + string) :=
  match r with
  | RCuisson commande_id _ _ => Some (inl commande_id)
  | RPrechauffe four_id => Some (inr four_id)
  | _ => None
  end.

Definition roles_distincts (R : list role) : Prop :=
  forall i j ri rj x,
    R !! i = Some ri -> R !! j = Some rj ->
    cle_role ri = Some x -> cle_role rj = Some x -> i = j.

Definition en_cours (o : commande) : Prop := c_statut o <> "termine".

(** What a thread relies on in the state. *)
Definition role_fonde (F : list (string * four)) (C : gmap string nat)
    (O : list commande) (r : role) : Prop :=
  match r with
  | RCuisson commande_id a k =>
      (k <= 7)%nat /\ C !! commande_id = Some a
      /\ exists o, O !! a = Some o /\ au_rang k o
  | RPrechauffe four_id =>
      exists f, chercher_four four_id F = Some f /\ f_statut f = "prechauffage"
  | _ => True
  end.

(** The invariant of the serialised executions, on the ovens [F], the
    table of the orders [C], their objects [O], the counter [n] and the
    roles [R] of the threads. *)
Record coherent (F : list (string * four)) (C : gmap string nat)
    (O : list commande) (n : nat) (R : list role) : Prop := {
  co_cles : F.*1 = ["four_1"; "four_2"; "four_3"];
  co_fours : forall k f, chercher_four k F = Some f ->
    (f_statut f = "cuisson" <-> is_Some (f_commande_en_cours f));
  co_porte : forall k f commande_id,
    chercher_four k F = Some f -> f_commande_en_cours f = Some commande_id ->
    exists a o, C !! commande_id = Some a /\ O !! a = Some o
                /\ en_cours o /\ c_four_id o = k;
  co_objets : forall a o, O !! a = Some o -> C !! c_id o = Some a;
  co_commandes : forall commande_id a, C !! commande_id = Some a ->
    exists o, O !! a = Some o /\ c_id o = commande_id;
  co_ids : forall commande_id a, C !! commande_id = Some a ->
    exists m, (m <= n)%nat /\ commande_id = "CMD-" +:+ format_04d m;
  co_rang : forall a o, O !! a = Some o -> exists k, au_rang k o;
  co_lie : forall a o, O !! a = Some o -> en_cours o ->
    exists f, chercher_four (c_four_id o) F = Some f
              /\ f_commande_en_cours f = Some (c_id o);
  co_roles : Forall (role_fonde F C O) R;
  co_distincts : roles_distincts R
}.

Definition invariant (s : serveur) : Prop :=
  exists R : list role,
    Forall2 joue (taches s) R
    /\ coherent (fours (etat s)) (commandes (etat s)) (objets (etat s))
         (compteur_commandes (etat s)) R.

(** From one state to the next an order is left as it is or moves one
    step forward in its pipeline. *)
Definition progres (c c' : CuisineFlan) : Prop :=
  forall a o, objets c !! a = Some o ->
    exists o', objets c' !! a = Some o'
               /\ (o' = o \/ exists k, au_rang k o /\ au_rang (S k) o').

(** The claim that, wherever the threads are in their statements, an oven
    is cooking if and only if it holds an order. *)
Definition four_occupe_ssi_lie_partout : Prop :=
  forall (l : list action) (k : string) (f : four),
    (k, f) ∈ fours (etat (executer l serveur_init)) ->
    (f_statut f = "cuisson" <-> f_commande_en_cours f <> None).

(** The claim that the progress of an order is 100 exactly when its
    status is ["termine"]. *)
Definition cent_ssi_termine : Prop :=
  forall (l : list action) (a : nat) (o : commande),
    objets (etat (executer l serveur_init)) !! a = Some o ->
    (c_progression o = 100 <-> c_statut o = "termine").

(** The claim that, wherever the threads are in their statements, the
    progress of an order never goes back. *)
Definition progression_jamais_decroissante : Prop :=
  forall (l l' : list action) (a : nat) (o o' : commande),
    objets (etat (executer l serveur_init)) !! a = Some o ->
    objets (etat (executer (l ++ l') serveur_init)) !! a = Some o' ->
    c_progression o <= c_progression o'.

(** What the queue guarantees: the published events are those taken so
    far, in the order they were taken, followed by the queue; an event
    taken went to one subscriber only. *)
Definition file_conservee (b : bus) : Prop :=
  exists pris : list event,
    b_publies b = pris ++ events_queue (b_cuisine b)
    /\ pris ≡ₚ concat (map evenements_recus (b_flux b))
    /\ forall j recu, b_flux b !! j = Some recu -> sublist (evenements_recus recu) pris.

(** ** Requests and states used as examples *)

(** An order for a recipe that is not in the book. *)
Definition requete_flan_pistache : requete_commander :=
  {| rq_recette := Some "flan_pistache"; rq_portions := None;
     rq_four_id := Some "four_2"; rq_options := None |}.

(** An order with every field left to its default. *)
Definition requete_vanille : requete_commander :=
  {| rq_recette := None; rq_portions := None; rq_four_id := None; rq_options := None |}.

(** An order is placed and its task has run the first stage; the order
    is then taken out of [cuisine.commandes]. *)
Definition cuisine_sans_commande : CuisineFlan :=
  let s := executer_seq [ExtS (PostCommander requete_vanille); Segment 0; Segment 1]
             serveur_init in
  avec_commandes (delete "CMD-0001" (commandes (etat s))) (etat s).

(** An order that names the first oven. *)
Definition requete_four_1 : requete_commander :=
  {| rq_recette := None; rq_portions := None; rq_four_id := Some "four_1";
     rq_options := None |}.

(** ** The rest of the server *)

(** Runs a handler alone to its end, through its sleeps: how it ends and
    the final state. *)
Fixpoint resultat (p : prog) (c : CuisineFlan) : issue * CuisineFlan :=
  match p with
  | Retour r => (r, c)
  | Instr op k => let '(x, c') := op c in resultat (k x) c'
  | Sommeil _ k => resultat k c
  | Lancer _ k => resultat k c
  end.

(** [GET /api/flan/commande/<id>] with its response: [commande['fin']] is
    read for a finished order and raises [KeyError] when the key is
    missing; the text of [temps_total], the duration with one decimal,
    is formatted outside the model. *)
Definition statut_commande_reponse (commande_id : string) (c : CuisineFlan) : issue :=
  match commandes c !! commande_id with
  | None =>
      Reponse (creer_reponse_flan FLAN_INTROUVABLE None
                 (Some ("🔍 Commande " +:+ commande_id +:+ " introuvable"))) 404
  | Some a =>
      let commande := objet a c in
      let emoji := match recettes !! c_recette commande with
                   | Some recette_details => r_emoji recette_details
                   | None => "🍮"
                   end in
      if String.eqb (c_statut commande) "termine" then
        match c_fin commande with
        | None => Exception "KeyError"
        | Some _ =>
            Reponse (creer_reponse_flan FLAN_PARFAIT
              (Some [("commande_id", VStr commande_id); ("statut", VStr "FLAN_PRET");
                     ("emoji", VStr emoji);
                     ("flan", VDict [("recette", VStr (c_recette commande));
                                     ("texture", VStr "onctueuse");
                                     ("caramel", VStr "brillant");
                                     ("portions", c_portions commande)]);
                     ("metadonnees",
                      VDict [("chef", VStr "Claude");
                             ("temps_total", VOpaque "duree");
                             ("etapes_completees",
                              VInt (Z.of_nat (length (c_etapes commande))))])])
              (Some "🍮 Votre flan est prêt ! Bonne dégustation !")) 200
        end
      else
        Reponse (creer_reponse_flan FLAN_PARFAIT
          (Some [("commande_id", VStr commande_id); ("statut", VStr "EN_COURS");
                 ("progression", VInt (c_progression commande));
                 ("etape_actuelle",
                  match last (c_etapes commande) with
                  | Some e => VDict [("id", VStr (et_id e));
                                     ("description", VStr (et_description e));
                                     ("timestamp", VInt (et_timestamp e))]
                  | None => VNone
                  end);
                 ("emoji", VStr emoji)])
          (Some ("⏳ Cuisson en cours... " +:+ decimal_Z (c_progression commande)
                 +:+ "%"))) 200
  end.

(** The statuses the code gives to an oven. *)
Definition statuts_four : list string :=
  ["disponible"; "prechauffage"; "pret"; "cuisson"].

Definition four_sain (kf : string * four) : Prop :=
  f_id kf.2 = kf.1 /\ f_statut kf.2 ∈ statuts_four.

Definition commande_saine (o : commande) : Prop :=
  recettes !! c_recette o = Some (c_details o)
  /\ c_four_id o ∈ ["four_1"; "four_2"; "four_3"].

(** What every statement of the server keeps: the three ovens with their
    ids and one of the four statuses; orders for recipes of the book
    placed on ovens of the pool; a table whose ids refer to the order
    that carries this id and were drawn from the counter. *)
Definition cuisine_saine (c : CuisineFlan) : Prop :=
  cles_fours c
  /\ Forall four_sain (fours c)
  /\ Forall commande_saine (objets c)
  /\ (forall commande_id a, commandes c !! commande_id = Some a ->
        exists o, objets c !! a = Some o /\ c_id o = commande_id)
  /\ (forall commande_id a, commandes c !! commande_id = Some a ->
        exists m, (m <= compteur_commandes c)%nat
                  /\ commande_id = "CMD-" +:+ format_04d m).

(** Every statement of the thread [p], and of the threads it starts,
    run on a state of [I] whose counter is at least [n], keeps [I] and
    does not lower the counter. *)
Fixpoint preserve (I : CuisineFlan -> Prop) (n : nat) (p : prog) : Prop :=
  match p with
  | Retour _ => True
  | Instr op k =>
      forall c, I c -> (n <= compteur_commandes c)%nat ->
        I (op c).2
        /\ (compteur_commandes c <= compteur_commandes (op c).2)%nat
        /\ preserve I (compteur_commandes (op c).2) (k (op c).1)
  | Sommeil _ k => preserve I n k
  | Lancer t k => preserve I n t /\ preserve I n k
  end.

(** A preheating at 200 degrees, the other fields left to their default. *)
Definition requete_200_degres : requete_prechauffage :=
  {| rp_temperature := Some 200; rp_moule := None; rp_remote_addr := None |}.

(** A state in which no oven is free: three preheatings were started. *)
Definition cuisine_sans_four_libre : CuisineFlan :=
  let req := {| rp_temperature := None; rp_moule := None; rp_remote_addr := None |} in
  etat (executer_seq
          [ExtS (PostPrechauffage req); ExtS (PostPrechauffage req);
           ExtS (PostPrechauffage req); Segment 0; Segment 1; Segment 2]
          serveur_init).

(** [garde I p c]: run alone from [c], the thread [p] is in a state of
    [I] at each of its sleeps and at its end, whatever happened during
    its sleeps that kept [I]; so are the threads it starts. *)
Fixpoint garde (I : CuisineFlan -> Prop) (p : prog) (c : CuisineFlan) : Prop :=
  match p with
  | Retour _ => I c
  | Instr op k => garde I (k (op c).1) (op c).2
  | Sommeil _ k => I c /\ forall c', I c' -> garde I k c'
  | Lancer t k => (forall c', I c' -> garde I (reprendre t) c') /\ garde I k c
  end.

(** Every order marked ["termine"] has its key ["fin"]. *)
Definition fin_ecrite (c : CuisineFlan) : Prop :=
  Forall (fun o => c_statut o = "termine" -> is_Some (c_fin o)) (objets c).

(** What holds when no thread is inside a method or between two writes
    of an order: every order marked ["termine"] has its key ["fin"],
    and the history holds at most 100 events. *)
Definition au_repos (c : CuisineFlan) : Prop :=
  fin_ecrite c /\ (length (historique c) <= 100)%nat.

(** A schedule in which a hundred orders for an unknown recipe are
    refused one after the other, and one more is stopped inside
    [ajouter_event] between the append of line 235 and the test of
    line 237. *)
Definition ordonnancement_101_evenements : list action :=
  flat_map (fun i => Ext (PostCommander requete_flan_pistache) :: replicate 4 (Pas i))
    (seq 0 100)
  ++ Ext (PostCommander requete_flan_pistache) :: replicate 3 (Pas 100).

(** A schedule in which the task of the first order is stopped between
    the statements [commande["statut"] = "termine"] and
    [commande["fin"] = time.time()]. *)
Definition ordonnancement_entre_termine_et_fin : list action :=
  Ext (PostCommander requete_vanille)
  :: replicate 16 (Pas 0) ++ replicate 66 (Pas 1).

(** A schedule in which one order is submitted and [commander] runs to
    its end. *)
Definition ordonnancement_une_commande : list action :=
  Ext (PostCommander requete_vanille) :: replicate 16 (Pas 0).

(** What a subscriber reads of an event: its type, and the order, the
    stage and the progress its data name. *)
Definition vue_event (e : event)
    : string * option valeur * option valeur * option valeur :=
  (e_type e, dict_get "commande_id" (e_data e), dict_get "etape" (e_data e),
   dict_get "progression" (e_data e)).

(** The events the stages [reste] of the order [commande_id] publish. *)
Definition progressions_attendues (commande_id : string)
    (reste : list (string * string * Z * Z))
    : list (string * option valeur * option valeur * option valeur) :=
  (fun e => ("progression", Some (VStr commande_id), Some (VStr e.1.1.1),
             Some (VInt e.1.2))) <$> reste.

(** The state after one order, before its task has run. *)
Definition cuisine_une_commande : CuisineFlan :=
  (segment (commander requete_vanille) cuisine_init).1.1.

(** * Properties *)

(** ** Slices and the bounded history *)

Lemma tranche_depuis_neg {A} (n : nat) (l : list A) :
  (0 < n)%nat -> tranche_depuis (- Z.of_nat n) l = drop (length l - n) l.
Proof.
  intros Hn. unfold tranche_depuis.
  destruct (Z.ltb_spec (- Z.of_nat n) 0) as [_|H]; [|lia].
  f_equal. lia.
Qed.

Lemma tranche_depuis_zero {A} (l : list A) : tranche_depuis 0 l = l.
Proof. reflexivity. Qed.

Section ajouter_event.
Variables (event_type : string) (data : dict) (c : CuisineFlan).

Let event := {| e_type := event_type; e_data := data; e_timestamp := horloge c |}.

Lemma ajouter_event_historique :
  historique (ajouter_event event_type data c) =
  drop (length (historique c ++ [event]) - 100) (historique c ++ [event]).
Proof.
  unfold ajouter_event. cbn [historique avec_historique avec_events_queue].
  fold event.
  destruct (Nat.ltb_spec 100 (length (historique c ++ [event]))) as [H|H].
  - cbn [historique avec_historique].
    apply (tranche_depuis_neg 100). lia.
  - cbn [historique avec_historique avec_events_queue].
    replace (length (historique c ++ [event]) - 100)%nat with 0%nat by lia.
    reflexivity.
Qed.

Lemma ajouter_event_events_queue :
  events_queue (ajouter_event event_type data c) = events_queue c ++ [event].
Proof. unfold ajouter_event. by case_match. Qed.

Lemma ajouter_event_fours :
  fours (ajouter_event event_type data c) = fours c.
Proof. unfold ajouter_event. by case_match. Qed.

Lemma ajouter_event_commandes :
  commandes (ajouter_event event_type data c) = commandes c.
Proof. unfold ajouter_event. by case_match. Qed.

Lemma ajouter_event_objets :
  objets (ajouter_event event_type data c) = objets c.
Proof. unfold ajouter_event. by case_match. Qed.

Lemma ajouter_event_compteur :
  compteur_commandes (ajouter_event event_type data c) = compteur_commandes c.
Proof. unfold ajouter_event. by case_match. Qed.

End ajouter_event.

Lemma executer_bus_snoc l a b :
  executer_bus (l ++ [a]) b = pas_bus a (executer_bus l b).
Proof. unfold executer_bus. by rewrite foldl_app. Qed.




(** One publication, from any state: the history afterwards holds at most
    100 events and is a suffix of the history before followed by the new
    event. *)
Lemma ajouter_event_borne event_type data c :
  (length (historique (ajouter_event event_type data c)) <= 100)%nat
  /\ historique (ajouter_event event_type data c) `suffix_of`
       historique c ++ [{| e_type := event_type; e_data := data;
                           e_timestamp := horloge c |}].
Proof.
  rewrite ajouter_event_historique. split.
  - rewrite length_drop. lia.
  - apply suffix_drop.
Qed.

(** ** The history query *)




(** ** The event stream *)

(** Two subscribers are connected, one event is published, each of them
    reads once: the first is sent the event, the second finds the queue
    empty and is sent a heartbeat. *)
Lemma un_seul_abonne_servi :
  ~ diffusion_a_tous
  /\ (let b := executer_bus [Connecter; Connecter; Publier "termine" [];
                             Recevoir 0; Recevoir 1] bus_init in
      let e := {| e_type := "termine"; e_data := []; e_timestamp := 0 |} in
      b_publies b = [e]
      /\ b_flux b = [[Donnee e]; [Heartbeat 0]]
      /\ events_queue (b_cuisine b) = []).
Proof.
  split; [|by vm_compute].
  intros H.
  specialize (H [Connecter; Connecter] [Publier "termine" []; Recevoir 0; Recevoir 1]
                1%nat [Heartbeat 0]).
  cbn zeta in H.
  specialize (H ltac:(vm_compute; lia) ltac:(by vm_compute) ltac:(by vm_compute)
                {| e_type := "termine"; e_data := []; e_timestamp := 0 |}).
  vm_compute in H.
  specialize (H ltac:(by left)). inversion H.
Qed.

Lemma evenements_recus_snoc recu x :
  evenements_recus (recu ++ [x]) =
  evenements_recus recu ++ match x with Donnee e => [e] | Heartbeat _ => [] end.
Proof.
  unfold evenements_recus. rewrite omap_app. by destruct x.
Qed.

Lemma file_conservee_pas a b : file_conservee b -> file_conservee (pas_bus a b).
Proof.
  intros (pris & Hpub & Hperm & Hsub).
  destruct a as [ty d|dt| |j]; cbn [pas_bus].
  - exists pris. cbn [b_publies b_cuisine b_flux].
    rewrite ajouter_event_events_queue, Hpub, <- (assoc_L (++)). done.
  - exists pris. done.
  - exists pris. cbn [b_publies b_cuisine b_flux]. split_and!; [done| |].
    + rewrite map_app, concat_app. cbn. by rewrite !app_nil_r.
    + intros j recu [H|[_ H]]%lookup_app_Some; [eauto|].
      destruct (j - length (b_flux b))%nat; cbn in H; [|done].
      injection H as <-. apply sublist_nil_l.
  - destruct (b_flux b !! j) as [recu|] eqn:Hj; [|by exists pris].
    unfold generate. destruct (events_queue (b_cuisine b)) as [|e q] eqn:Hq.
    + exists pris. cbn [b_publies b_cuisine b_flux]. rewrite Hq.
      assert (Hrecu : evenements_recus (recu ++ [Heartbeat (horloge (b_cuisine b))])
                      = evenements_recus recu)
        by (by rewrite evenements_recus_snoc, app_nil_r).
      split_and!; [done| |].
      * rewrite Hperm, list_fmap_insert.
        rewrite Hrecu, list_insert_id; [done|].
        by rewrite list_lookup_fmap, Hj.
      * intros j' recu' H.
        destruct (decide (j = j')) as [<-|Hne].
        -- rewrite list_lookup_insert_eq in H by (by eapply lookup_lt_Some).
           injection H as <-. rewrite Hrecu. eauto.
        -- rewrite list_lookup_insert_ne in H by done. eauto.
    + exists (pris ++ [e]). cbn [b_publies b_cuisine b_flux events_queue avec_events_queue].
      split_and!.
      * by rewrite Hpub, <- (assoc_L (++)).
      * rewrite Hperm.
        rewrite <- (take_drop_middle _ _ _ Hj) at 1.
        rewrite insert_take_drop by (by eapply lookup_lt_Some).
        rewrite !map_app, !concat_app. cbn [map concat].
        rewrite evenements_recus_snoc.
        rewrite <- !(assoc_L (++)). do 2 f_equiv.
        apply Permutation_app_comm.
      * intros j' recu' H.
        destruct (decide (j = j')) as [<-|Hne].
        -- rewrite list_lookup_insert_eq in H by (by eapply lookup_lt_Some).
           injection H as <-. rewrite evenements_recus_snoc.
           apply sublist_app; eauto.
        -- rewrite list_lookup_insert_ne in H by done.
           apply sublist_inserts_r. eauto.
Qed.

Lemma file_conservee_bus l : file_conservee (executer_bus l bus_init).
Proof.
  induction l as [|a l IH] using rev_ind.
  - exists []. cbn. split_and!; [done..|]. intros j recu H. by destruct j.
  - rewrite executer_bus_snoc. by apply file_conservee_pas.
Qed.

(** C3, amended: a publication appends the event to the one shared queue,
    whatever the history holds and without waiting for anyone; every
    published event is either still in the queue or was sent to exactly
    one subscriber, the one whose read took it; each subscriber is sent
    events in the order of their publication. *)
Theorem evenement_livre_une_fois (l : list action_bus) :
  let b := executer_bus l bus_init in
  (forall event_type data,
     events_queue (b_cuisine (pas_bus (Publier event_type data) b)) =
     events_queue (b_cuisine b) ++
       [{| e_type := event_type; e_data := data;
           e_timestamp := horloge (b_cuisine b) |}])
  /\ b_publies b ≡ₚ
       concat (map evenements_recus (b_flux b)) ++ events_queue (b_cuisine b)
  /\ (forall j recu, b_flux b !! j = Some recu ->
        sublist (evenements_recus recu) (b_publies b)).
Proof.
  cbn zeta. destruct (file_conservee_bus l) as (pris & Hpub & Hperm & Hsub).
  split_and!.
  - intros. cbn. apply ajouter_event_events_queue.
  - by rewrite Hpub, Hperm.
  - intros j recu H. rewrite Hpub. apply sublist_inserts_r. eauto.
Qed.

(** ** The ovens *)

Lemma chercher_four_modifier_eq k g l :
  chercher_four k (modifier_four k g l) = g <$> chercher_four k l.
Proof.
  induction l as [|[k' f] l IH]; [done|]. cbn.
  destruct (String.eqb_spec k' k) as [->|Hne]; cbn.
  - by rewrite String.eqb_refl.
  - by destruct (String.eqb_spec k' k).
Qed.

Lemma chercher_four_modifier_ne k k' g l :
  k <> k' -> chercher_four k' (modifier_four k g l) = chercher_four k' l.
Proof.
  intros Hne. induction l as [|[k0 f] l IH]; [done|]. cbn.
  destruct (String.eqb_spec k0 k) as [->|H0]; cbn.
  - by destruct (String.eqb_spec k k').
  - by rewrite IH.
Qed.

Lemma modifier_four_cles k g l : (modifier_four k g l).*1 = l.*1.
Proof.
  induction l as [|[k0 f] l IH]; [done|]. cbn.
  destruct (String.eqb k0 k); cbn; by rewrite ?IH.
Qed.

Lemma chercher_four_Some k f l : chercher_four k l = Some f -> (k, f) ∈ l.
Proof.
  induction l as [|[k0 f0] l IH]; [done|]. cbn.
  destruct (String.eqb_spec k0 k) as [->|H0].
  - intros [= ->]. left.
  - intros H. right. auto.
Qed.

Lemma chercher_four_None k l : chercher_four k l = None <-> k ∉ l.*1.
Proof.
  induction l as [|[k0 f0] l IH]; cbn.
  - split; [intros _; apply not_elem_of_nil|done].
  - destruct (String.eqb_spec k0 k) as [->|H0].
    + split; [done|]. intros H. exfalso. apply H. left.
    + rewrite IH, not_elem_of_cons. cbn. split; [by auto|by intros [_ ?]].
Qed.

Lemma chercher_four_elem_of k f l :
  NoDup l.*1 -> (k, f) ∈ l -> chercher_four k l = Some f.
Proof.
  induction l as [|[k0 f0] l IH]; cbn; [by intros _ ?%elem_of_nil|].
  intros [Hk Hnd]%NoDup_cons [[= -> ->]|Hin]%elem_of_cons.
  - by rewrite String.eqb_refl.
  - destruct (String.eqb_spec k0 k) as [->|H0]; [|auto].
    exfalso. apply Hk. apply list_elem_of_fmap. by exists (k, f).
Qed.

Lemma premier_disponible_Some l four_id :
  NoDup l.*1 -> premier_disponible l = Some four_id ->
  exists f, chercher_four four_id l = Some f /\ f_statut f = "disponible".
Proof.
  intros Hnd H. cut (exists f, (four_id, f) ∈ l /\ f_statut f = "disponible").
  { intros (f & Hin & Hf). exists f. split; [by apply chercher_four_elem_of|done]. }
  clear Hnd. induction l as [|[k0 f0] l IH]; [done|]. cbn in H.
  destruct (String.eqb_spec (f_statut f0) "disponible") as [Hs|Hs].
  - injection H as <-. exists f0. split; [left|done].
  - destruct (IH H) as (f & Hin & Hf). exists f. split; [by right|done].
Qed.

Lemma cles_fours_NoDup c : cles_fours c -> NoDup (fours c).*1.
Proof. intros ->. compute_done. Qed.

Lemma cles_fours_non_vide c k : cles_fours c -> k ∈ (fours c).*1 -> k <> "".
Proof.
  intros -> H ->. revert H. compute_done.
Qed.

Lemma vrai_Some four_id : four_id <> "" -> vrai (Some four_id) = true.
Proof. intros H. cbn. by destruct (String.eqb_spec four_id ""). Qed.

(** ** The methods of [CuisineFlan] run alone *)

Lemma segment_instr {A} (op : CuisineFlan -> A * CuisineFlan) (k : A -> prog) c :
  segment (Instr op k) c = segment (k (op c).1) (op c).2.
Proof. cbn. by destruct (op c). Qed.

Lemma derouler_instr {A} (op : CuisineFlan -> A * CuisineFlan) (k : A -> prog) c :
  derouler (Instr op k) c = derouler (k (op c).1) (op c).2.
Proof. cbn. by destruct (op c). Qed.

Lemma resultat_instr {A} (op : CuisineFlan -> A * CuisineFlan) (k : A -> prog) c :
  resultat (Instr op k) c = resultat (k (op c).1) (op c).2.
Proof. cbn. by destruct (op c). Qed.

(** Run without any other thread in between, the statements of a method
    do what the method does as a function on the state: for [segment],
    for [derouler] and for [resultat], which run a thread alone. *)
Section seul.
Context {B : Type} (f : prog -> CuisineFlan -> B).
Hypothesis f_instr :
  forall {A} (op : CuisineFlan -> A * CuisineFlan) (k : A -> prog) c,
    f (Instr op k) c = f (k (op c).1) (op c).2.

Lemma appel_ajouter_event_seul event_type data k c :
  f (appel_ajouter_event event_type data k) c
  = f k (ajouter_event event_type data c).
Proof.
  unfold appel_ajouter_event, ajouter_event. rewrite !f_instr.
  unfold lire. cbn [fst snd]. cbn zeta.
  destruct (_ <? _)%nat; [|done]. by rewrite f_instr.
Qed.

Lemma appel_nouvelle_commande_id_seul k c :
  f (appel_nouvelle_commande_id k) c
  = f (k (nouvelle_commande_id c).1) (nouvelle_commande_id c).2.
Proof. unfold appel_nouvelle_commande_id. by rewrite !f_instr. Qed.

Lemma parcourir_fours_seul m : forall i k c,
  (i + m)%nat = length (fours c) ->
  f (parcourir_fours (seq i m) k) c
  = f (k (premier_disponible (drop i (fours c)))) c.
Proof.
  induction m as [|m IH]; intros i k c Hl; cbn [seq parcourir_fours].
  - by rewrite drop_ge by lia.
  - rewrite f_instr. unfold lire. cbn [fst snd].
    destruct (fours c !! i) as [[four_id four]|] eqn:Hi.
    + rewrite (drop_S _ _ _ Hi). cbn [premier_disponible].
      destruct (String.eqb (f_statut four) "disponible"); [done|].
      apply IH. lia.
    + apply lookup_ge_None in Hi. lia.
Qed.

Lemma appel_trouver_four_disponible_seul k c :
  f (appel_trouver_four_disponible k) c
  = f (k (trouver_four_disponible c).1) c.
Proof.
  unfold appel_trouver_four_disponible. rewrite f_instr.
  unfold lire. cbn [fst snd]. by rewrite parcourir_fours_seul.
Qed.

End seul.

Lemma segment_appel_ajouter_event event_type data k c :
  segment (appel_ajouter_event event_type data k) c
  = segment k (ajouter_event event_type data c).
Proof. apply appel_ajouter_event_seul. intros. apply segment_instr. Qed.

Lemma derouler_appel_ajouter_event event_type data k c :
  derouler (appel_ajouter_event event_type data k) c
  = derouler k (ajouter_event event_type data c).
Proof. apply appel_ajouter_event_seul. intros. apply derouler_instr. Qed.

Lemma resultat_appel_ajouter_event event_type data k c :
  resultat (appel_ajouter_event event_type data k) c
  = resultat k (ajouter_event event_type data c).
Proof. apply appel_ajouter_event_seul. intros. apply resultat_instr. Qed.

Lemma segment_appel_nouvelle_commande_id k c :
  segment (appel_nouvelle_commande_id k) c
  = segment (k (nouvelle_commande_id c).1) (nouvelle_commande_id c).2.
Proof. apply appel_nouvelle_commande_id_seul. intros. apply segment_instr. Qed.

Lemma derouler_appel_nouvelle_commande_id k c :
  derouler (appel_nouvelle_commande_id k) c
  = derouler (k (nouvelle_commande_id c).1) (nouvelle_commande_id c).2.
Proof. apply appel_nouvelle_commande_id_seul. intros. apply derouler_instr. Qed.

Lemma resultat_appel_nouvelle_commande_id k c :
  resultat (appel_nouvelle_commande_id k) c
  = resultat (k (nouvelle_commande_id c).1) (nouvelle_commande_id c).2.
Proof. apply appel_nouvelle_commande_id_seul. intros. apply resultat_instr. Qed.

Lemma segment_appel_trouver_four_disponible k c :
  segment (appel_trouver_four_disponible k) c
  = segment (k (trouver_four_disponible c).1) c.
Proof. apply appel_trouver_four_disponible_seul. intros. apply segment_instr. Qed.

Lemma derouler_appel_trouver_four_disponible k c :
  derouler (appel_trouver_four_disponible k) c
  = derouler (k (trouver_four_disponible c).1) c.
Proof. apply appel_trouver_four_disponible_seul. intros. apply derouler_instr. Qed.

Lemma resultat_appel_trouver_four_disponible k c :
  resultat (appel_trouver_four_disponible k) c
  = resultat (k (trouver_four_disponible c).1) c.
Proof. apply appel_trouver_four_disponible_seul. intros. apply resultat_instr. Qed.

(** The calls of a thread that runs alone are replaced by what the
    methods do. *)
Ltac appels :=
  rewrite ?segment_appel_ajouter_event, ?segment_appel_nouvelle_commande_id,
    ?segment_appel_trouver_four_disponible,
    ?derouler_appel_ajouter_event, ?derouler_appel_nouvelle_commande_id,
    ?derouler_appel_trouver_four_disponible,
    ?resultat_appel_ajouter_event, ?resultat_appel_nouvelle_commande_id,
    ?resultat_appel_trouver_four_disponible.

(** ** [commander] *)

Lemma segment_commander_inconnue req c :
  recettes !! recette_demandee req = None ->
  segment (commander req) c =
  (ajouter_event "erreur"
     [("phase", VStr "commande");
      ("erreur", VStr ("Recette inconnue: " +:+ recette_demandee req))] c,
   [],
   Retour (Reponse
     (creer_reponse_flan FLAN_INTROUVABLE None
        (Some ("📖 Recette '" +:+ recette_demandee req
               +:+ "' introuvable dans le livre de recettes"))) 404)).
Proof.
  intros H. unfold commander. rewrite H. by rewrite segment_appel_ajouter_event.
Qed.

(** C7: an order for a recipe that is not in [recettes] is answered 404
    FLAN_INTROUVABLE; no order is recorded, no id is drawn, no task is
    started and the ovens are left as they were. *)
Theorem recette_inconnue_sans_effet (req : requete_commander) (c : CuisineFlan) :
  recettes !! recette_demandee req = None ->
  let '(c', nouvelles, p) := segment (commander req) c in
  (exists r, p = Retour (Reponse r 404) /\ rep_statut r = FLAN_INTROUVABLE)
  /\ nouvelles = []
  /\ commandes c' = commandes c
  /\ objets c' = objets c
  /\ compteur_commandes c' = compteur_commandes c
  /\ fours c' = fours c.
Proof.
  intros H. rewrite (segment_commander_inconnue _ _ H).
  split_and!; [by eexists|done|..].
  - apply ajouter_event_commandes.
  - apply ajouter_event_objets.
  - apply ajouter_event_compteur.
  - apply ajouter_event_fours.
Qed.

Lemma recette_inconnue_sans_effet_witness :
  let '(c', nouvelles, p) := segment (commander requete_flan_pistache) cuisine_init in
  (exists r, p = Retour (Reponse r 404) /\ rep_statut r = FLAN_INTROUVABLE)
  /\ nouvelles = []
  /\ commandes c' = commandes cuisine_init
  /\ objets c' = objets cuisine_init
  /\ compteur_commandes c' = compteur_commandes cuisine_init
  /\ fours c' = fours cuisine_init.
Proof.
  apply (recette_inconnue_sans_effet requete_flan_pistache cuisine_init).
  vm_compute. reflexivity.
Defined.

Lemma last_drop_snoc {A} (l : list A) x n :
  (n <= length l)%nat -> last (drop n (l ++ [x])) = Some x.
Proof. intros H. rewrite drop_app_le by done. apply last_snoc. Qed.

(** C10: an order for an unknown recipe publishes exactly one event, of
    type ["erreur"], with phase ["commande"] and the name of the recipe:
    it is appended to the queue of the stream and to the history, where
    the history query (with a limit of at least 1) returns it last. *)
Theorem recette_inconnue_publie_erreur (req : requete_commander) (c : CuisineFlan) :
  recettes !! recette_demandee req = None ->
  let c' := (segment (commander req) c).1.1 in
  let e := {| e_type := "erreur";
              e_data := [("phase", VStr "commande");
                         ("erreur", VStr ("Recette inconnue: " +:+ recette_demandee req))];
              e_timestamp := horloge c |} in
  events_queue c' = events_queue c ++ [e]
  /\ historique c' = drop (length (historique c ++ [e]) - 100) (historique c ++ [e])
  /\ (forall limit, 1 <= default 50 limit ->
        last (evenements_recents limit c') = Some e).
Proof.
  intros H. rewrite (segment_commander_inconnue _ _ H). cbn zeta. cbn [fst].
  split_and!.
  - apply ajouter_event_events_queue.
  - apply ajouter_event_historique.
  - intros limit Hl. unfold evenements_recents.
    replace (- default 50 limit) with (- Z.of_nat (Z.to_nat (default 50 limit))) by lia.
    rewrite tranche_depuis_neg by lia.
    rewrite ajouter_event_historique, drop_drop.
    apply last_drop_snoc. rewrite length_drop, !length_app. cbn [length]. lia.
Qed.

Lemma recette_inconnue_publie_erreur_witness :
  let c' := (segment (commander requete_flan_pistache) cuisine_init).1.1 in
  let e := {| e_type := "erreur";
              e_data := [("phase", VStr "commande");
                         ("erreur", VStr "Recette inconnue: flan_pistache")];
              e_timestamp := 0 |} in
  events_queue c' = [e]
  /\ historique c' = [e]
  /\ (forall limit, 1 <= default 50 limit ->
        last (evenements_recents limit c') = Some e).
Proof.
  apply (recette_inconnue_publie_erreur requete_flan_pistache cuisine_init).
  vm_compute. reflexivity.
Defined.

Lemma passer_commande_passee recette recette_details portions d four_id c f0 :
  chercher_four four_id (fours c) = Some f0 ->
  let '(c', nouvelles, p) :=
    segment (passer_commande recette recette_details portions (VDict d) four_id) c in
  commande_passee c c' nouvelles p four_id.
Proof.
  intros Hf. unfold passer_commande.
  rewrite segment_appel_nouvelle_commande_id. cbn -[ajouter_event].
  rewrite segment_appel_ajouter_event. cbn -[ajouter_event].
  unfold commande_passee.
  rewrite ajouter_event_commandes, ajouter_event_objets, ajouter_event_fours.
  cbn. split_and!; [by eexists|done|done|by eexists|].
  rewrite !chercher_four_modifier_eq, Hf. cbn. by eexists.
Qed.

Lemma passer_commande_sans_tache recette recette_details portions options four_id c f0 :
  est_dict options = false ->
  chercher_four four_id (fours c) = Some f0 ->
  let '(c', nouvelles, p) :=
    segment (passer_commande recette recette_details portions options four_id) c in
  commande_sans_tache c c' nouvelles p four_id.
Proof.
  intros Ho Hf. unfold passer_commande.
  rewrite segment_appel_nouvelle_commande_id.
  destruct options as [| | | |d| |]; try discriminate Ho;
    cbn; unfold commande_sans_tache; cbn;
    (split_and!; [done|done|done|by eexists|]);
    rewrite !chercher_four_modifier_eq, Hf; cbn; by eexists.
Qed.

Lemma passer_commande_placee recette recette_details portions options four_id c f0 :
  chercher_four four_id (fours c) = Some f0 ->
  let '(c', nouvelles, p) :=
    segment (passer_commande recette recette_details portions options four_id) c in
  commande_placee options c c' nouvelles p four_id.
Proof.
  intros Hf. unfold commande_placee.
  destruct (est_dict options) eqn:Ho.
  - destruct options; try discriminate Ho. by eapply passer_commande_passee.
  - by eapply passer_commande_sans_tache.
Qed.

Lemma segment_verifier_four recette recette_details portions options four_id c :
  segment (verifier_four recette recette_details portions options four_id) c =
  if four_pret four_id c
  then segment (passer_commande recette recette_details portions options four_id) c
  else (c, [],
        Retour (Reponse
          (creer_reponse_flan FOUR_OCCUPE None
             (Some ("🔥 Le four " +:+ four_id +:+ " n'est pas prêt"))) 302)).
Proof.
  unfold verifier_four, four_pret. cbn -[passer_commande].
  by destruct (_ || _).
Qed.

Lemma segment_commander_connue req c recette_details :
  recettes !! recette_demandee req = Some recette_details ->
  segment (commander req) c =
  let suite := verifier_four (recette_demandee req) recette_details
                 (default (VInt 1) (rq_portions req))
                 (default (VDict []) (rq_options req)) in
  if four_nomme req c
  then segment (suite (default "" (rq_four_id req))) c
  else match premier_disponible (fours c) with
       | Some four_id =>
           if String.eqb four_id ""
           then (c, [], Retour (Reponse
                  (creer_reponse_flan CUISINE_FERMEE None
                     (Some "👨‍🍳 Aucun four disponible")) 503))
           else segment (suite four_id) c
       | None => (c, [], Retour (Reponse
                  (creer_reponse_flan CUISINE_FERMEE None
                     (Some "👨‍🍳 Aucun four disponible")) 503))
       end.
Proof.
  intros H. unfold commander, four_nomme. rewrite H.
  cbn -[verifier_four vrai]. rewrite <- negb_andb.
  destruct (vrai (rq_four_id req) && _); cbn -[verifier_four]; [done|].
  rewrite segment_appel_trouver_four_disponible. cbn -[verifier_four].
  destruct (premier_disponible (fours c)) as [k|]; cbn -[verifier_four]; [|done].
  by destruct (String.eqb k "").
Qed.

(** An order for a known recipe that names the oven ["four_9"], which is
    not in the pool, is not refused: it is placed on the first free
    oven. *)
Lemma four_inconnu_remplace :
  ~ four_nomme_exige_pret
  /\ (let req := {| rq_recette := None; rq_portions := None;
                    rq_four_id := Some "four_9"; rq_options := None |} in
      let '(c', nouvelles, p) := segment (commander req) cuisine_init in
      commande_passee cuisine_init c' nouvelles p "four_1").
Proof.
  split.
  - intros H.
    specialize (H cuisine_init
                  {| rq_recette := None; rq_portions := None;
                     rq_four_id := Some "four_9"; rq_options := None |}
                  "four_9" eq_refl).
    destruct H as [(r & Hr) _]; [by eexists|done|done|done|].
    vm_compute in Hr. discriminate Hr.
  - cbn zeta. erewrite segment_commander_connue by (vm_compute; reflexivity).
    cbn -[segment verifier_four].
    change (dans_fours "four_9" cuisine_init) with false.
    cbn -[segment verifier_four]. rewrite segment_verifier_four.
    change (four_pret _ cuisine_init) with true.
    cbn -[segment passer_commande].
    by eapply passer_commande_passee.
Qed.

(** C5, amended: for a known recipe, when the caller names an oven of
    the pool, the order is placed on it if its status is ["pret"] or
    ["disponible"], and is refused otherwise with 302 FOUR_OCCUPE,
    nothing being created; when the caller names no oven, or one that is
    not in the pool, the order is placed on the first oven whose status
    is ["disponible"], and is refused with 503 CUISINE_FERMEE, nothing
    being created, when there is none.  An order that is placed is
    recorded and bound to its oven; it is answered 201 and its task is
    started when its options are a dict or are missing; otherwise the
    handler raises after it has recorded the order, and starts no
    task. *)
Theorem commander_choix_du_four (req : requete_commander) (c : CuisineFlan) :
  cles_fours c ->
  is_Some (recettes !! recette_demandee req) ->
  let options := default (VDict []) (rq_options req) in
  let '(c', nouvelles, p) := segment (commander req) c in
  if four_nomme req c then
    if four_pret (default "" (rq_four_id req)) c
    then commande_placee options c c' nouvelles p (default "" (rq_four_id req))
    else commande_refusee c c' nouvelles p FOUR_OCCUPE 302
  else
    match premier_disponible (fours c) with
    | Some four_id => commande_placee options c c' nouvelles p four_id
    | None => commande_refusee c c' nouvelles p CUISINE_FERMEE 503
    end.
Proof.
  intros Hk [rd Hrd]. rewrite (segment_commander_connue _ _ _ Hrd). cbn zeta.
  destruct (four_nomme req c) eqn:Hn.
  - rewrite segment_verifier_four.
    destruct (four_pret _ c); [|by repeat split; eexists].
    apply andb_prop in Hn as [_ Hd]. unfold dans_fours in Hd.
    apply bool_decide_eq_true in Hd as [f0 Hf0].
    by eapply passer_commande_placee.
  - destruct (premier_disponible (fours c)) as [k|] eqn:Hp;
      [|by repeat split; eexists].
    destruct (premier_disponible_Some _ _ (cles_fours_NoDup _ Hk) Hp) as (f & Hf & Hs).
    assert (Hne : k <> "").
    { eapply cles_fours_non_vide; [done|].
      apply list_elem_of_fmap. exists (k, f). split; [done|].
      by apply chercher_four_Some. }
    destruct (String.eqb_spec k ""); [done|].
    rewrite segment_verifier_four.
    unfold four_pret, statut_du_four. rewrite Hf, Hs. cbn -[segment passer_commande].
    by eapply passer_commande_placee.
Qed.

Lemma commander_choix_du_four_witness :
  let req := {| rq_recette := Some "flan_caramel"; rq_portions := None;
                rq_four_id := Some "four_2"; rq_options := None |} in
  let '(c', nouvelles, p) := segment (commander req) cuisine_init in
  commande_passee cuisine_init c' nouvelles p "four_2".
Proof.
  apply (commander_choix_du_four
           {| rq_recette := Some "flan_caramel"; rq_portions := None;
              rq_four_id := Some "four_2"; rq_options := None |} cuisine_init).
  - reflexivity.
  - vm_compute. eexists. reflexivity.
Defined.

(** ** [simuler_cuisson] *)

Lemma dans_commandes_None id c :
  commandes c !! id = None -> dans_commandes id c = false.
Proof.
  intros H. unfold dans_commandes. rewrite H.
  apply bool_decide_eq_false. by intros [? ?].
Qed.

Lemma dans_commandes_Some id a c :
  commandes c !! id = Some a -> dans_commandes id c = true.
Proof.
  intros H. unfold dans_commandes. rewrite H.
  apply bool_decide_eq_true. by eexists.
Qed.

Lemma segment_boucle_etapes id a e reste c :
  segment (boucle_etapes id a (e :: reste)) c =
  if dans_commandes id c
  then (appliquer_etape id a e c, [], Sommeil e.2 (boucle_etapes id a reste))
  else (c, [], Retour Fin).
Proof.
  destruct e as [[[etape_id description] progression] duree].
  cbn -[ajouter_event]. destruct (dans_commandes id c); cbn -[ajouter_event]; [|done].
  by rewrite segment_appel_ajouter_event.
Qed.

Lemma segment_simuler_cuisson id c :
  segment (simuler_cuisson id) c =
  match commandes c !! id with
  | Some a => segment (boucle_etapes id a etapes_cuisson) c
  | None => (c, [], Retour Fin)
  end.
Proof.
  unfold simuler_cuisson.
  destruct (commandes c !! id) as [a|] eqn:H.
  - cbn -[boucle_etapes etapes_cuisson].
    rewrite (dans_commandes_Some _ _ _ H). cbn -[boucle_etapes etapes_cuisson].
    by rewrite H.
  - cbn -[boucle_etapes etapes_cuisson].
    by rewrite (dans_commandes_None _ _ H).
Qed.

(** C9: when the order is no longer in [cuisine.commandes] at one of the
    checks of its task (on entry, and before each stage after the sleep
    of the previous one), the task ends there: the state is left as it
    is (no event, no write to the order, no change to the oven), no
    thread is started and nothing is left to run. *)
Theorem commande_retiree_sortie_silencieuse (commande_id : string) (c : CuisineFlan) :
  commandes c !! commande_id = None ->
  segment (simuler_cuisson commande_id) c = (c, [], Retour Fin)
  /\ (forall a d e reste,
        segment (reprendre (Sommeil d (boucle_etapes commande_id a (e :: reste)))) c
        = (c, [], Retour Fin))
  /\ (forall c', segment (Retour Fin) c' = (c', [], Retour Fin)).
Proof.
  intros H. split_and!.
  - by rewrite segment_simuler_cuisson, H.
  - intros. cbn [reprendre].
    by rewrite segment_boucle_etapes, (dans_commandes_None _ _ H).
  - done.
Qed.

Lemma commande_retiree_sortie_silencieuse_witness :
  segment (simuler_cuisson "CMD-0001") cuisine_sans_commande
  = (cuisine_sans_commande, [], Retour Fin)
  /\ (forall a d e reste,
        segment (reprendre (Sommeil d (boucle_etapes "CMD-0001" a (e :: reste))))
          cuisine_sans_commande
        = (cuisine_sans_commande, [], Retour Fin))
  /\ (forall c', segment (Retour Fin) c' = (c', [], Retour Fin)).
Proof.
  apply (commande_retiree_sortie_silencieuse "CMD-0001" cuisine_sans_commande).
  vm_compute. reflexivity.
Defined.

(** After the sleep of the last stage the task does not look the order
    up again: the statements after the loop run on the object it holds,
    free the oven and publish the event ["termine"]. *)
Lemma fin_cuisson_sans_verification :
  let s := executer_seq
             (ExtS (PostCommander requete_vanille) :: Segment 0
              :: replicate 7 (Segment 1)) serveur_init in
  let c := avec_commandes (delete "CMD-0001" (commandes (etat s))) (etat s) in
  let c' := (segment (reprendre (Sommeil 400 (boucle_etapes "CMD-0001" 0 []))) c).1.1 in
  commandes c !! "CMD-0001" = None
  /\ statut_du_four "four_1" c = "cuisson"
  /\ statut_du_four "four_1" c' = "disponible"
  /\ c_statut (objet 0 c') = "termine"
  /\ e_type <$> last (events_queue c') = Some "termine".
Proof. by vm_compute. Qed.

Lemma segment_fin_cuisson id a c :
  segment (fin_cuisson id a) c = (terminer id a c, [], Retour Fin).
Proof.
  unfold fin_cuisson, terminer, publier_termine, donnees_termine.
  cbn -[ajouter_event].
  destruct (dans_fours _ _); cbn -[ajouter_event];
    by rewrite segment_appel_ajouter_event.
Qed.

Lemma objets_appliquer_etape id a etape_id description progression duree c :
  objets (appliquer_etape id a (etape_id, description, progression, duree) c) =
  alter (fun o => ajouter_etape {| et_id := etape_id; et_description := description;
                                   et_timestamp := horloge c |}
                    (poser_progression progression (poser_statut etape_id o)))
        a (objets c).
Proof.
  unfold appliquer_etape. rewrite ajouter_event_objets. cbn.
  by rewrite !list_alter_alter_eq.
Qed.

Lemma commandes_appliquer_etape id a e c :
  commandes (appliquer_etape id a e c) = commandes c.
Proof.
  destruct e as [[[? ?] ?] ?]. unfold appliquer_etape.
  by rewrite ajouter_event_commandes.
Qed.

Lemma fours_appliquer_etape id a e c :
  fours (appliquer_etape id a e c) = fours c.
Proof.
  destruct e as [[[? ?] ?] ?]. unfold appliquer_etape.
  by rewrite ajouter_event_fours.
Qed.

Lemma compteur_appliquer_etape id a e c :
  compteur_commandes (appliquer_etape id a e c) = compteur_commandes c.
Proof.
  destruct e as [[[? ?] ?] ?]. unfold appliquer_etape.
  by rewrite ajouter_event_compteur.
Qed.

Lemma objets_terminer id a c :
  objets (terminer id a c) =
  alter (fun o => poser_fin (horloge c) (poser_progression 100 (poser_statut "termine" o)))
        a (objets c).
Proof.
  unfold terminer. rewrite ajouter_event_objets.
  destruct (dans_fours _ _); cbn; by rewrite !list_alter_alter_eq.
Qed.

Lemma commandes_terminer id a c : commandes (terminer id a c) = commandes c.
Proof.
  unfold terminer. rewrite ajouter_event_commandes. by destruct (dans_fours _ _).
Qed.

Lemma compteur_terminer id a c :
  compteur_commandes (terminer id a c) = compteur_commandes c.
Proof.
  unfold terminer. rewrite ajouter_event_compteur. by destruct (dans_fours _ _).
Qed.

Lemma derouler_segment p c :
  derouler p c =
  let '(c', _, p') := segment p c in
  match p' with
  | Sommeil d k => let '(l, cf) := derouler k c' in ((c', d) :: l, cf)
  | _ => ([], c')
  end.
Proof.
  revert c. induction p as [r|A op k IH|d k IH|t _ k IH]; intros c; cbn.
  - done.
  - destruct (op c) as [x c']. apply IH.
  - done.
  - rewrite IH. by destruct (segment k c) as [[c' l] p'].
Qed.

Lemma derouler_boucle_etapes id a reste c :
  commandes c !! id = Some a -> (a < length (objets c))%nat ->
  let '(l, cf) := derouler (boucle_etapes id a reste) c in
  vue_etape a <$> l = vues_attendues (et_id <$> c_etapes (objet a c)) reste
  /\ c_statut (objet a cf) = "termine"
  /\ c_progression (objet a cf) = 100
  /\ et_id <$> c_etapes (objet a cf) =
     (et_id <$> c_etapes (objet a c)) ++ ((fun e => e.1.1.1) <$> reste).
Proof.
  revert c. induction reste as [|[[[etape_id description] progression] duree] reste IH];
    intros c Hid Ha.
  - rewrite derouler_segment. cbn [boucle_etapes]. rewrite segment_fin_cuisson.
    unfold objet. rewrite objets_terminer, list_lookup_total_alter_eq by done.
    cbn. by rewrite app_nil_r.
  - rewrite derouler_segment, segment_boucle_etapes, (dans_commandes_Some _ _ _ Hid).
    set (c1 := appliquer_etape _ _ _ c).
    specialize (IH c1).
    destruct (derouler (boucle_etapes id a reste) c1) as [l cf].
    assert (Ho : objet a c1 =
                 ajouter_etape {| et_id := etape_id; et_description := description;
                                  et_timestamp := horloge c |}
                   (poser_progression progression (poser_statut etape_id (objet a c)))).
    { unfold objet, c1.
      by rewrite objets_appliquer_etape, list_lookup_total_alter_eq. }
    destruct IH as (Hl & Hs & Hp & He).
    { unfold c1. by rewrite commandes_appliquer_etape. }
    { unfold c1. by rewrite objets_appliquer_etape, length_alter. }
    rewrite Ho in Hl, He. cbn in Hl, He. rewrite fmap_app in Hl, He.
    split_and!; [|done|done|].
    + cbn [fmap list_fmap vues_attendues]. f_equal; [|done].
      unfold vue_etape. cbn [fst snd]. rewrite Ho. cbn. by rewrite fmap_app.
    + rewrite He. cbn. by rewrite <- (assoc_L (++)).
Qed.

(** The sleeps of the task are those of the list [etapes] of
    [simuler_cuisson]: 0.5 s for the first stage, where the stage table
    of the recipe ["flan_vanille"] holds a mode, a temperature and
    ["40min"]. *)
Lemma durees_hors_recette :
  ~ durees_de_la_recette
  /\ (let c := (segment (commander requete_vanille) cuisine_init).1.1 in
      (derouler (simuler_cuisson "CMD-0001") c).1.*2
        = [500; 800; 600; 300; 1500; 700; 400]
      /\ r_cuisson (c_details (objet 0 c))
        = [("mode", VStr "bain-marie"); ("temperature", VInt 150);
           ("duree", VStr "40min")]).
Proof.
  split; [|by vm_compute].
  intros H.
  set (c := (segment (commander requete_vanille) cuisine_init).1.1).
  destruct (H "CMD-0001" 0%nat c
              ((segment (simuler_cuisson "CMD-0001") c).1.1, 500))
    as [cle Hcle].
  - by vm_compute.
  - vm_compute. lia.
  - vm_compute. left.
  - vm_compute in Hcle.
    repeat (case_match; try discriminate).
Qed.

(** C6, amended: from any state in which the order is recorded, its task
    goes through the seven stages of the fixed list, each once and in
    order, sets at each stage the progress 10, 25, 50, 60, 85, 95, 100
    and appends the stage to the stages of the order, then sleeps for
    the duration the list gives for the stage (0.5, 0.8, 0.6, 0.3, 1.5,
    0.7, 0.4 s), the same for every recipe; it ends with the status
    ["termine"] and the progress 100. *)
Theorem pipeline_etapes_fixes (commande_id : string) (a : nat) (c : CuisineFlan) :
  commandes c !! commande_id = Some a ->
  (a < length (objets c))%nat ->
  let '(l, cf) := derouler (simuler_cuisson commande_id) c in
  let deja := et_id <$> c_etapes (objet a c) in
  vue_etape a <$> l =
    [ ("rassemblement_ingredients", 10,
       deja ++ ["rassemblement_ingredients"], 500);
      ("caramelisation", 25,
       deja ++ ["rassemblement_ingredients"; "caramelisation"], 800);
      ("melange_appareil", 50,
       deja ++ ["rassemblement_ingredients"; "caramelisation"; "melange_appareil"], 600);
      ("versement", 60,
       deja ++ ["rassemblement_ingredients"; "caramelisation"; "melange_appareil";
                "versement"], 300);
      ("cuisson", 85,
       deja ++ ["rassemblement_ingredients"; "caramelisation"; "melange_appareil";
                "versement"; "cuisson"], 1500);
      ("refroidissement", 95,
       deja ++ ["rassemblement_ingredients"; "caramelisation"; "melange_appareil";
                "versement"; "cuisson"; "refroidissement"], 700);
      ("demoulage", 100,
       deja ++ ["rassemblement_ingredients"; "caramelisation"; "melange_appareil";
                "versement"; "cuisson"; "refroidissement"; "demoulage"], 400) ]
  /\ c_statut (objet a cf) = "termine"
  /\ c_progression (objet a cf) = 100
  /\ et_id <$> c_etapes (objet a cf) =
     deja ++ ["rassemblement_ingredients"; "caramelisation"; "melange_appareil";
              "versement"; "cuisson"; "refroidissement"; "demoulage"].
Proof.
  intros Hid Ha.
  pose proof (derouler_boucle_etapes commande_id a etapes_cuisson c Hid Ha) as H.
  assert (Hd : derouler (simuler_cuisson commande_id) c
               = derouler (boucle_etapes commande_id a etapes_cuisson) c).
  { unfold simuler_cuisson. cbn -[boucle_etapes etapes_cuisson].
    rewrite (dans_commandes_Some _ _ _ Hid). cbn -[boucle_etapes etapes_cuisson].
    by rewrite Hid. }
  rewrite Hd. destruct (derouler _ c) as [l cf].
  destruct H as (Hl & Hs & Hp & He). cbn zeta.
  split_and!; [|done|done|done].
  rewrite Hl. cbn. by rewrite <- !(assoc_L (++)).
Qed.

Lemma pipeline_etapes_fixes_witness :
  let c := (segment (commander requete_vanille) cuisine_init).1.1 in
  let '(l, cf) := derouler (simuler_cuisson "CMD-0001") c in
  (vue_etape 0 <$> l).*1.*1.*1 =
    ["rassemblement_ingredients"; "caramelisation"; "melange_appareil";
     "versement"; "cuisson"; "refroidissement"; "demoulage"]
  /\ c_statut (objet 0 cf) = "termine".
Proof.
  pose proof (pipeline_etapes_fixes "CMD-0001" 0
                (segment (commander requete_vanille) cuisine_init).1.1
                ltac:(vm_compute; reflexivity) ltac:(vm_compute; lia)) as H.
  cbn zeta.
  destruct (derouler _ _) as [l cf]. destruct H as (Hl & Hs & _).
  split; [|exact Hs]. rewrite Hl. reflexivity.
Defined.

(** ** Order ids *)

Lemma of_uint_zeros k d : Nat.of_uint (zeros k d) = Nat.of_uint d.
Proof. induction k as [|k IH]; [done|]. cbn [zeros]. by rewrite <- IH. Qed.

Lemma format_04d_inj n m : format_04d n = format_04d m -> n = m.
Proof.
  unfold format_04d. intros H.
  apply (f_equal NilEmpty.uint_of_string) in H.
  rewrite !NilEmpty.usu in H. injection H as H.
  apply (f_equal Nat.of_uint) in H.
  by rewrite !of_uint_zeros, !DecimalNat.Unsigned.of_to in H.
Qed.

Lemma commande_id_inj n m :
  "CMD-" +:+ format_04d n = "CMD-" +:+ format_04d m -> n = m.
Proof. intros H. apply format_04d_inj. by injection H. Qed.

(** ** The invariant of the serialised executions *)

Lemma chercher_four_modifier k k0 g F :
  chercher_four k (modifier_four k0 g F) =
  if decide (k0 = k) then g <$> chercher_four k F else chercher_four k F.
Proof.
  case_decide as H.
  - subst. apply chercher_four_modifier_eq.
  - by apply chercher_four_modifier_ne.
Qed.

Lemma roles_distincts_insert R i r' :
  roles_distincts R ->
  (forall j rj x, j <> i -> R !! j = Some rj -> cle_role rj = Some x ->
                  cle_role r' <> Some x) ->
  roles_distincts (<[i := r']> R).
Proof.
  intros HR Hn a b ra rb x Ha Hb Hca Hcb.
  apply list_lookup_insert_Some in Ha as [(<- & <- & _)|[Hai Ha]];
    apply list_lookup_insert_Some in Hb as [(<- & <- & _)|[Hbi Hb]]; try done.
  - by destruct (Hn b rb x).
  - by destruct (Hn a ra x).
  - eauto.
Qed.

Lemma roles_distincts_snoc R r' :
  roles_distincts R ->
  (forall j rj x, R !! j = Some rj -> cle_role rj = Some x -> cle_role r' <> Some x) ->
  roles_distincts (R ++ [r']).
Proof.
  intros HR Hn a b ra rb x Ha Hb Hca Hcb.
  apply lookup_snoc_Some in Ha as [[Hla Ha]|[-> <-]];
    apply lookup_snoc_Some in Hb as [[Hlb Hb]|[-> <-]]; try done.
  - eauto.
  - by destruct (Hn a ra x).
  - by destruct (Hn b rb x).
Qed.

Lemma etape_pas_termine k e :
  etapes_cuisson !! k = Some e -> e.1.1.1 <> "termine" /\ (k < 7)%nat.
Proof.
  intros H. split; [|by apply lookup_lt_Some in H].
  do 7 (destruct k as [|k]; [by injection H as <-|]). done.
Qed.

Lemma au_rang_en_cours k o : (k <= 7)%nat -> au_rang k o -> en_cours o.
Proof.
  intros Hk (_ & Hs & _). unfold en_cours.
  destruct k as [|k]; [by injection Hs as -> _|].
  unfold etat_au_rang in Hs.
  destruct (etapes_cuisson !! k) as [e|] eqn:He.
  - injection Hs as -> _. by apply etape_pas_termine in He as [? _].
  - apply lookup_ge_None in He. cbn in He. lia.
Qed.

Section transitions.
Context (F : list (string * four)) (C : gmap string nat)
        (O : list commande) (n : nat) (R : list role).
Hypothesis Hco : coherent F C O n R.

Lemma coherent_NoDup : NoDup F.*1.
Proof. rewrite (co_cles _ _ _ _ _ Hco). compute_done. Qed.

Lemma coherent_adresse id id' a :
  C !! id = Some a -> C !! id' = Some a -> id = id'.
Proof.
  intros H H'.
  destruct (co_commandes _ _ _ _ _ Hco _ _ H) as (o & Ho & <-).
  destruct (co_commandes _ _ _ _ _ Hco _ _ H') as (o' & Ho' & <-).
  congruence.
Qed.

Lemma coherent_libre k f :
  chercher_four k F = Some f -> f_statut f <> "cuisson" ->
  f_commande_en_cours f = None.
Proof.
  intros Hk Hs. destruct (f_commande_en_cours f) eqn:Hc; [|done].
  destruct Hs. apply (co_fours _ _ _ _ _ Hco _ _ Hk). by rewrite Hc.
Qed.

Lemma coherent_fini i : coherent F C O n (<[i := RFinie]> R).
Proof.
  destruct Hco. split; try done.
  - by apply Forall_insert.
  - apply roles_distincts_insert; [done|]. by intros.
Qed.

Lemma coherent_neuve : coherent F C O n (R ++ [RNeuve]).
Proof.
  destruct Hco. split; try done.
  - apply Forall_app. split; [done|]. by apply Forall_singleton.
  - apply roles_distincts_snoc; [done|]. by intros.
Qed.
End transitions.

Section etape.
Context (F : list (string * four)) (C : gmap string nat)
        (O : list commande) (n : nat) (R : list role).
Hypothesis Hco : coherent F C O n R.
Context (i : nat) (id : string) (a k : nat) (e : string * string * Z * Z) (t : Z).
Hypothesis Hi : R !! i = Some (RCuisson id a k).
Hypothesis He : etapes_cuisson !! k = Some e.

Let G (o : commande) : commande :=
  ajouter_etape {| et_id := e.1.1.1; et_description := e.1.1.2; et_timestamp := t |}
    (poser_progression e.1.2 (poser_statut e.1.1.1 o)).

Lemma etape_role : (k <= 7)%nat /\ C !! id = Some a
                   /\ exists o, O !! a = Some o /\ au_rang k o.
Proof.
  pose proof (co_roles _ _ _ _ _ Hco) as H.
  rewrite Forall_lookup in H. exact (H _ _ Hi).
Qed.

Lemma etape_au_rang o : au_rang k o -> au_rang (S k) (G o).
Proof.
  intros (Hk & Hs & Hl). destruct (etape_pas_termine _ _ He) as [_ Hk7].
  split_and!; [lia| |].
  - cbn [G c_statut c_progression ajouter_etape poser_progression poser_statut
         etat_au_rang]. by rewrite He.
  - cbn [G c_etapes ajouter_etape poser_progression poser_statut].
    rewrite fmap_app, Hl. cbn [fmap list_fmap et_id].
    symmetry. apply take_S_r. unfold ids_etapes.
    by rewrite list_lookup_fmap, He.
Qed.

Lemma etape_autre_tache j id' a' k' :
  j <> i -> R !! j = Some (RCuisson id' a' k') -> C !! id' = Some a' -> a' <> a.
Proof.
  intros Hj Hr Hc ->. destruct etape_role as (_ & Hc' & _).
  pose proof (coherent_adresse _ _ _ _ _ Hco _ _ _ Hc Hc') as ->.
  by destruct Hj; eapply (co_distincts _ _ _ _ _ Hco j i).
Qed.

Lemma coherent_etape :
  coherent F C (alter G a O) n (<[i := RCuisson id a (S k)]> R).
Proof.
  destruct etape_role as (Hk & Hc & o & Ho & Hr).
  destruct (etape_pas_termine _ _ He) as [Hnt Hk7].
  split.
  - apply Hco.
  - apply Hco.
  - intros k0 f id0 Hf Hcec.
    destruct (co_porte _ _ _ _ _ Hco _ _ _ Hf Hcec) as (a0 & o0 & Hc0 & Ho0 & Hen & H4).
    destruct (decide (a0 = a)) as [->|Hne].
    + exists a, (G o0). rewrite list_lookup_alter_eq, Ho0. by split_and!.
    + exists a0, o0. by rewrite list_lookup_alter_ne.
  - intros b o'. rewrite list_lookup_alter. case_decide as Hb.
    + subst b. rewrite Ho. intros [= <-]. exact (co_objets _ _ _ _ _ Hco _ _ Ho).
    + by apply Hco.
  - intros id0 b Hb. destruct (co_commandes _ _ _ _ _ Hco _ _ Hb) as (o0 & Ho0 & Hid0).
    rewrite list_lookup_alter. case_decide as Hab.
    + subst b. exists (G o0). by rewrite Ho0.
    + by exists o0.
  - apply Hco.
  - intros b o'. rewrite list_lookup_alter. case_decide as Hb.
    + subst b. rewrite Ho. intros [= <-]. exists (S k). by apply etape_au_rang.
    + by apply Hco.
  - intros b o'. rewrite list_lookup_alter. case_decide as Hb.
    + subst b. rewrite Ho. intros [= <-] _.
      apply (co_lie _ _ _ _ _ Hco _ _ Ho). by eapply (au_rang_en_cours k).
    + by apply Hco.
  - apply Forall_lookup. intros j rj Hj.
    apply list_lookup_insert_Some in Hj as [(<- & <- & _)|[Hji Hj]].
    + split_and!; [lia|done|]. exists (G o).
      rewrite list_lookup_alter_eq, Ho. split; [done|]. by apply etape_au_rang.
    + pose proof (co_roles _ _ _ _ _ Hco) as H. rewrite Forall_lookup in H.
      specialize (H _ _ Hj). destruct rj as [| |f'|id' a' k']; try done.
      destruct H as (Hk' & Hc' & o' & Ho' & Hr').
      split_and!; [done..|]. exists o'. split; [|done].
      rewrite list_lookup_alter_ne; [done|].
      intros <-. by eapply (etape_autre_tache j id' a k').
  - apply roles_distincts_insert; [apply Hco|].
    intros j rj x Hj Hrj Hx [= <-]. destruct Hj.
    by eapply (co_distincts _ _ _ _ _ Hco j i).
Qed.

Lemma progres_etape b o :
  O !! b = Some o ->
  exists o', alter G a O !! b = Some o'
             /\ (o' = o \/ exists k, au_rang k o /\ au_rang (S k) o').
Proof.
  intros Hb. destruct etape_role as (Hk & Hc & o0 & Ho & Hr).
  rewrite list_lookup_alter. case_decide as Hab.
  - subst b. rewrite Ho. exists (G o0). split; [done|]. right. exists k.
    assert (o = o0) as -> by congruence. split; [done|]. by apply etape_au_rang.
  - exists o. by split; [|left].
Qed.
End etape.

Section terminer.
Context (F : list (string * four)) (C : gmap string nat)
        (O : list commande) (n : nat) (R : list role).
Hypothesis Hco : coherent F C O n R.
Context (i : nat) (id : string) (a : nat) (o : commande) (t : Z).
Hypothesis Hi : R !! i = Some (RCuisson id a 7).
Hypothesis Ho : O !! a = Some o.

Let T (o : commande) : commande :=
  poser_fin t (poser_progression 100 (poser_statut "termine" o)).

Let F' : list (string * four) :=
  modifier_four (c_four_id o) (poser_commande_en_cours None)
    (modifier_four (c_four_id o) (poser_statut_four "disponible") F).

Lemma terminer_role : C !! id = Some a /\ au_rang 7 o /\ c_id o = id.
Proof.
  pose proof (co_roles _ _ _ _ _ Hco) as H.
  rewrite Forall_lookup in H. destruct (H _ _ Hi) as (_ & Hc & o' & Ho' & Hr).
  assert (o' = o) as -> by congruence. split_and!; [done..|].
  destruct (co_commandes _ _ _ _ _ Hco _ _ Hc) as (o' & Ho'' & <-). congruence.
Qed.

Lemma terminer_four :
  exists f, chercher_four (c_four_id o) F = Some f
            /\ f_commande_en_cours f = Some id /\ f_statut f = "cuisson".
Proof.
  destruct terminer_role as (Hc & Hr & Hid).
  destruct (co_lie _ _ _ _ _ Hco _ _ Ho) as (f & Hf & Hcec).
  { by eapply (au_rang_en_cours 7). }
  exists f. rewrite <- Hid. split_and!; [done..|].
  apply (co_fours _ _ _ _ _ Hco _ _ Hf). by rewrite Hcec.
Qed.

Lemma terminer_au_rang : au_rang 8 (T o).
Proof.
  destruct terminer_role as (_ & (_ & _ & Hl) & _).
  split_and!; [done..|]. exact Hl.
Qed.

Lemma terminer_chercher k :
  chercher_four k F' =
  if decide (c_four_id o = k)
  then (fun f => poser_commande_en_cours None (poser_statut_four "disponible" f))
         <$> chercher_four k F
  else chercher_four k F.
Proof.
  unfold F'. rewrite !chercher_four_modifier. case_decide; [|done].
  by destruct (chercher_four k F).
Qed.

Lemma terminer_autre b o' :
  O !! b = Some o' -> en_cours o' -> c_four_id o' = c_four_id o -> b = a.
Proof.
  intros Hb Hen H4. destruct terminer_role as (Hc & _ & Hid).
  destruct terminer_four as (f & Hf & Hcec & _).
  destruct (co_lie _ _ _ _ _ Hco _ _ Hb Hen) as (f' & Hf' & Hcec').
  rewrite H4, Hf in Hf'. injection Hf' as <-.
  pose proof (co_objets _ _ _ _ _ Hco _ _ Hb) as Hcb. congruence.
Qed.

Lemma coherent_terminer : coherent F' C (alter T a O) n (<[i := RFinie]> R).
Proof.
  destruct terminer_role as (Hc & Hr & Hid).
  destruct terminer_four as (f & Hf & Hcec & Hst).
  split.
  - unfold F'. rewrite !modifier_four_cles. apply Hco.
  - intros k0 f0. rewrite terminer_chercher. case_decide as Hk.
    + subst k0. rewrite Hf. intros [= <-]. cbn. split; [done|by intros [? ?]].
    + apply Hco.
  - intros k0 f0 id0. rewrite terminer_chercher. case_decide as Hk.
    + subst k0. rewrite Hf. by intros [= <-].
    + intros Hf0 Hcec0.
      destruct (co_porte _ _ _ _ _ Hco _ _ _ Hf0 Hcec0)
        as (a0 & o0 & Hc0 & Ho0 & Hen & H4).
      exists a0, o0. split_and!; [done| |done..].
      rewrite list_lookup_alter_ne; [done|]. intros <-. congruence.
  - intros b o'. rewrite list_lookup_alter. case_decide as Hb.
    + subst b. rewrite Ho. intros [= <-]. exact (co_objets _ _ _ _ _ Hco _ _ Ho).
    + by apply Hco.
  - intros id0 b Hb.
    destruct (co_commandes _ _ _ _ _ Hco _ _ Hb) as (o0 & Ho0 & Hid0).
    rewrite list_lookup_alter. case_decide as Hab.
    + subst b. exists (T o0). by rewrite Ho0.
    + by exists o0.
  - apply Hco.
  - intros b o'. rewrite list_lookup_alter. case_decide as Hb.
    + subst b. rewrite Ho. intros [= <-]. exists 8%nat. apply terminer_au_rang.
    + by apply Hco.
  - intros b o'. rewrite list_lookup_alter. case_decide as Hb.
    + subst b. rewrite Ho. by intros [= <-] [].
    + intros Hb' Hen.
      destruct (co_lie _ _ _ _ _ Hco _ _ Hb' Hen) as (f' & Hf' & Hcec').
      exists f'. split; [|done]. rewrite terminer_chercher.
      case_decide as H4; [|done].
      destruct Hb. symmetry. by eapply terminer_autre.
  - apply Forall_lookup. intros j rj Hj.
    apply list_lookup_insert_Some in Hj as [(<- & <- & _)|[Hji Hj]]; [done|].
    pose proof (co_roles _ _ _ _ _ Hco) as H. rewrite Forall_lookup in H.
    specialize (H _ _ Hj). destruct rj as [| |f'|id' a' k']; try done.
    + destruct H as (x & Hx & Hxs). exists x. split; [|done].
      rewrite terminer_chercher. case_decide as H4; [|done].
      subst f'. congruence.
    + destruct H as (Hk' & Hc' & o' & Ho' & Hr').
      split_and!; [done..|]. exists o'. split; [|done].
      rewrite list_lookup_alter_ne; [done|]. intros <-.
      pose proof (coherent_adresse _ _ _ _ _ Hco _ _ _ Hc Hc') as <-.
      destruct Hji. by eapply (co_distincts _ _ _ _ _ Hco i j).
  - apply roles_distincts_insert; [apply Hco|]. by intros.
Qed.

Lemma progres_terminer b o0 :
  O !! b = Some o0 ->
  exists o', alter T a O !! b = Some o'
             /\ (o' = o0 \/ exists k, au_rang k o0 /\ au_rang (S k) o').
Proof.
  intros Hb. destruct terminer_role as (Hc & Hr & Hid).
  rewrite list_lookup_alter. case_decide as Hab.
  - subst b. rewrite Ho. exists (T o). split; [done|]. right. exists 7%nat.
    assert (o0 = o) as -> by congruence. split; [done|]. apply terminer_au_rang.
  - exists o0. by split; [|left].
Qed.
End terminer.

Section four_libre.
Context (F : list (string * four)) (C : gmap string nat)
        (O : list commande) (n : nat) (R : list role).
Hypothesis Hco : coherent F C O n R.
Context (k0 : string) (f0 : four) (g : four -> four).
Hypothesis Hf0 : chercher_four k0 F = Some f0.
Hypothesis Hlibre : f_commande_en_cours f0 = None.
Hypothesis Hg_statut : f_statut (g f0) <> "cuisson".
Hypothesis Hg_commande : f_commande_en_cours (g f0) = None.

(** An oven that holds no order gets a status other than ["cuisson"]:
    what the state says of the orders is kept. *)
Lemma coherent_four_libre (R' : list role) :
  Forall (role_fonde (modifier_four k0 g F) C O) R' ->
  roles_distincts R' ->
  coherent (modifier_four k0 g F) C O n R'.
Proof.
  intros HR' Hd. split; try apply Hco; try done.
  - rewrite modifier_four_cles. apply Hco.
  - intros k f. rewrite chercher_four_modifier. case_decide as Hk.
    + subst k. rewrite Hf0. intros [= <-]. rewrite Hg_commande.
      split; [done|by intros [? ?]].
    + apply Hco.
  - intros k f id. rewrite chercher_four_modifier. case_decide as Hk.
    + subst k. rewrite Hf0. intros [= <-]. by rewrite Hg_commande.
    + apply Hco.
  - intros b o Hb Hen.
    destruct (co_lie _ _ _ _ _ Hco _ _ Hb Hen) as (f & Hf & Hcec).
    exists f. split; [|done]. rewrite chercher_four_modifier.
    case_decide as Hk; [|done]. rewrite <- Hk, Hf0 in Hf. congruence.
Qed.

End four_libre.

Lemma role_fonde_four_libre F C O k0 g r :
  cle_role r <> Some (inr k0) ->
  role_fonde F C O r -> role_fonde (modifier_four k0 g F) C O r.
Proof.
  destruct r as [| |f|id a k]; try done.
  intros Hk (x & Hx & Hs). exists x. split; [|done].
  rewrite chercher_four_modifier. case_decide; [|done]. subst. by destruct Hk.
Qed.

Section prechauffage.
Context (F : list (string * four)) (C : gmap string nat)
        (O : list commande) (n : nat) (R : list role).
Hypothesis Hco : coherent F C O n R.

Lemma coherent_prechauffage_debut i k0 t :
  premier_disponible F = Some k0 ->
  coherent (modifier_four k0 (poser_temperature t)
              (modifier_four k0 (poser_statut_four "prechauffage") F))
           C O n (<[i := RPrechauffe k0]> R).
Proof.
  intros Hp.
  destruct (premier_disponible_Some _ _ (coherent_NoDup _ _ _ _ _ Hco) Hp)
    as (f0 & Hf0 & Hs0).
  assert (Hlibre : f_commande_en_cours f0 = None).
  { eapply coherent_libre; [done..|]. by rewrite Hs0. }
  assert (Hautres : forall j rj, R !! j = Some rj -> cle_role rj <> Some (inr k0)).
  { intros j rj Hj Hk. destruct rj as [| |f|? ? ?]; try done.
    injection Hk as ->.
    pose proof (co_roles _ _ _ _ _ Hco) as H. rewrite Forall_lookup in H.
    destruct (H _ _ Hj) as (x & Hx & Hxs). congruence. }
  assert (H1 : coherent (modifier_four k0 (poser_statut_four "prechauffage") F)
                 C O n (<[i := RPrechauffe k0]> R)).
  { eapply coherent_four_libre; [done..| |].
    - apply Forall_lookup. intros j rj Hj.
      apply list_lookup_insert_Some in Hj as [(<- & <- & _)|[Hji Hj]].
      + eexists. rewrite chercher_four_modifier_eq, Hf0. done.
      + apply role_fonde_four_libre; [by eapply Hautres|].
        pose proof (co_roles _ _ _ _ _ Hco) as H. rewrite Forall_lookup in H. eauto.
    - apply roles_distincts_insert; [apply Hco|].
      intros j rj x _ Hj Hx [= <-]. by eapply Hautres. }
  eapply (coherent_four_libre _ _ _ _ _ H1 k0 _ (poser_temperature t)).
  - by rewrite chercher_four_modifier_eq, Hf0.
  - done.
  - done.
  - done.
  - apply Forall_lookup. intros j rj Hj.
    pose proof (co_roles _ _ _ _ _ H1) as H. rewrite Forall_lookup in H.
    specialize (H _ _ Hj).
    destruct rj as [| |f|? ? ?]; try done.
    destruct H as (x & Hx & Hxs).
    destruct (decide (k0 = f)) as [->|Hk].
    + exists (poser_temperature t x). by rewrite chercher_four_modifier_eq, Hx.
    + exists x. by rewrite chercher_four_modifier_ne.
  - apply H1.
Qed.

Lemma coherent_prechauffage_fin i k0 :
  R !! i = Some (RPrechauffe k0) ->
  coherent (modifier_four k0 (poser_statut_four "pret") F) C O n
           (<[i := RFinie]> R).
Proof.
  intros Hi.
  pose proof (co_roles _ _ _ _ _ Hco) as HR. rewrite Forall_lookup in HR.
  destruct (HR _ _ Hi) as (f0 & Hf0 & Hs0).
  assert (Hlibre : f_commande_en_cours f0 = None).
  { eapply coherent_libre; [done..|]. by rewrite Hs0. }
  eapply coherent_four_libre; [done..| |].
  - apply Forall_lookup. intros j rj Hj.
    apply list_lookup_insert_Some in Hj as [(<- & <- & _)|[Hji Hj]]; [done|].
    apply role_fonde_four_libre; [|by eauto].
    intros Hk. destruct Hji.
    by eapply (co_distincts _ _ _ _ _ Hco i j).
  - apply roles_distincts_insert; [apply Hco|]. by intros.
Qed.
End prechauffage.

Section commande.
Context (F : list (string * four)) (C : gmap string nat)
        (O : list commande) (n : nat) (R : list role).
Hypothesis Hco : coherent F C O n R.
Context (i : nat) (k0 : string) (f0 : four) (o : commande).
Hypothesis Hf0 : chercher_four k0 F = Some f0.
Hypothesis Hpret : f_statut f0 = "pret" \/ f_statut f0 = "disponible".

Let id : string := "CMD-" +:+ format_04d (S n).
Hypothesis Hid : c_id o = id.
Hypothesis Hfour : c_four_id o = k0.
Hypothesis Hrang : au_rang 0 o.

Let F' : list (string * four) :=
  modifier_four k0 (poser_commande_en_cours (Some id))
    (modifier_four k0 (poser_statut_four "cuisson") F).

Lemma commande_id_frais : C !! id = None.
Proof.
  destruct (C !! id) as [a|] eqn:H; [|done].
  destruct (co_ids _ _ _ _ _ Hco _ _ H) as (m & Hm & Heq).
  apply commande_id_inj in Heq. lia.
Qed.

Lemma commande_four_libre : f_commande_en_cours f0 = None.
Proof.
  eapply coherent_libre; [done..|]. by destruct Hpret as [-> | ->].
Qed.

Lemma commande_chercher k :
  chercher_four k F' =
  if decide (k0 = k)
  then Some (poser_commande_en_cours (Some id) (poser_statut_four "cuisson" f0))
  else chercher_four k F.
Proof.
  unfold F'. rewrite !chercher_four_modifier. case_decide; [|done].
  subst. by rewrite Hf0.
Qed.

Lemma commande_ancienne id' a : C !! id' = Some a -> id' <> id.
Proof. intros H ->. by rewrite commande_id_frais in H. Qed.

Lemma coherent_commande :
  coherent F' (<[id := length O]> C) (O ++ [o]) (S n)
           (<[i := RFinie]> R ++ [RCuisson id (length O) 0]).
Proof.
  pose proof commande_id_frais as Hfrais.
  pose proof commande_four_libre as Hlibre.
  assert (Hen : en_cours o) by (by eapply (au_rang_en_cours 0); [lia|]).
  split.
  - unfold F'. rewrite !modifier_four_cles. apply Hco.
  - intros k f. rewrite commande_chercher. case_decide as Hk.
    + intros [= <-]. cbn. split; [by eauto|done].
    + apply Hco.
  - intros k f id0. rewrite commande_chercher. case_decide as Hk.
    + intros [= <-] [= <-]. exists (length O), o.
      rewrite lookup_insert_eq, list_lookup_middle by done.
      by split_and!; [| | |congruence].
    + intros Hf Hcec.
      destruct (co_porte _ _ _ _ _ Hco _ _ _ Hf Hcec) as (a & o' & Hc & Ho & Hen' & H4).
      exists a, o'. rewrite lookup_insert_ne by (by eapply not_eq_sym, commande_ancienne).
      rewrite lookup_app_l by (by eapply lookup_lt_Some). done.
  - intros b o' [[Hlt Hb]|[-> <-]]%lookup_snoc_Some.
    + pose proof (co_objets _ _ _ _ _ Hco _ _ Hb) as Hc.
      by rewrite lookup_insert_ne by (by eapply not_eq_sym, commande_ancienne).
    + by rewrite Hid, lookup_insert_eq.
  - intros id0 b [[<- <-]|[Hne Hb]]%lookup_insert_Some.
    + exists o. by rewrite list_lookup_middle.
    + destruct (co_commandes _ _ _ _ _ Hco _ _ Hb) as (o' & Ho' & Hid').
      exists o'. by rewrite lookup_app_l by (by eapply lookup_lt_Some).
  - intros id0 b [[<- <-]|[Hne Hb]]%lookup_insert_Some.
    + by exists (S n).
    + destruct (co_ids _ _ _ _ _ Hco _ _ Hb) as (m & Hm & Hm').
      exists m. split; [lia|done].
  - intros b o' [[Hlt Hb]|[-> <-]]%lookup_snoc_Some.
    + by eapply (co_rang _ _ _ _ _ Hco).
    + by exists 0%nat.
  - intros b o' [[Hlt Hb]|[-> <-]]%lookup_snoc_Some.
    + intros Hen'.
      destruct (co_lie _ _ _ _ _ Hco _ _ Hb Hen') as (f & Hf & Hcec).
      exists f. split; [|done]. rewrite commande_chercher.
      case_decide as Hk; [|done]. rewrite <- Hk, Hf0 in Hf. congruence.
    + intros _. eexists. rewrite commande_chercher, Hfour, decide_True by done.
      by rewrite Hid.
  - pose proof (co_roles _ _ _ _ _ Hco) as HR. rewrite Forall_lookup in HR.
    apply Forall_app. split.
    + apply Forall_lookup. intros j rj Hj.
      apply list_lookup_insert_Some in Hj as [(<- & <- & _)|[Hji Hj]]; [done|].
      specialize (HR _ _ Hj). destruct rj as [| |f'|id' a' k']; try done.
      * destruct HR as (x & Hx & Hxs).
        exists x. split; [|done]. rewrite commande_chercher.
        case_decide as Hk; [|done]. subst f'.
        rewrite Hf0 in Hx. injection Hx as <-.
        destruct Hpret; congruence.
      * destruct HR as (Hk' & Hc' & o' & Ho' & Hr').
        split_and!; [done| |].
        -- by rewrite lookup_insert_ne by (by eapply not_eq_sym, commande_ancienne).
        -- exists o'. by rewrite lookup_app_l by (by eapply lookup_lt_Some).
    + apply Forall_singleton. split_and!; [lia| |].
      * by rewrite lookup_insert_eq.
      * exists o. by rewrite list_lookup_middle.
  - apply roles_distincts_snoc.
    + apply roles_distincts_insert; [apply Hco|]. by intros.
    + intros j rj x Hj Hx [= <-].
      apply list_lookup_insert_Some in Hj as [(_ & <- & _)|[Hji Hj]]; [done|].
      destruct rj as [| |f'|id' a' k']; try done.
      injection Hx as ->.
      pose proof (co_roles _ _ _ _ _ Hco) as HR. rewrite Forall_lookup in HR.
      destruct (HR _ _ Hj) as (_ & Hc' & _). by rewrite Hfrais in Hc'.
Qed.
End commande.

(** ** What a segment of each thread does *)

Lemma reprendre_commander req : reprendre (commander req) = commander req.
Proof. unfold commander. by destruct (recettes !! _). Qed.

Lemma reprendre_prechauffage req : reprendre (prechauffage req) = prechauffage req.
Proof. done. Qed.

Lemma segment_passer_commande recette recette_details portions options four_id c :
  exists c' r o,
    segment (passer_commande recette recette_details portions options four_id) c
    = (c',
       if est_dict options
       then [simuler_cuisson ("CMD-" +:+ format_04d (S (compteur_commandes c)))]
       else [],
       Retour r)
    /\ fours c' =
       modifier_four four_id
         (poser_commande_en_cours
            (Some ("CMD-" +:+ format_04d (S (compteur_commandes c)))))
         (modifier_four four_id (poser_statut_four "cuisson") (fours c))
    /\ commandes c' =
       <["CMD-" +:+ format_04d (S (compteur_commandes c)) := length (objets c)]>
         (commandes c)
    /\ objets c' = objets c ++ [o]
    /\ compteur_commandes c' = S (compteur_commandes c)
    /\ c_id o = "CMD-" +:+ format_04d (S (compteur_commandes c))
    /\ c_four_id o = four_id
    /\ au_rang 0 o.
Proof.
  unfold passer_commande. rewrite segment_appel_nouvelle_commande_id.
  destruct options as [| | | |d| |];
    cbn -[ajouter_event format_04d];
    rewrite ?segment_appel_ajouter_event; cbn -[ajouter_event format_04d];
    do 3 eexists; (split; [reflexivity|]);
    rewrite ?ajouter_event_fours, ?ajouter_event_commandes, ?ajouter_event_objets,
      ?ajouter_event_compteur;
    cbn -[format_04d]; (split_and!; try done);
    (split_and!; [lia|done..]).
Qed.

(** For a known recipe [commander] either refuses and leaves the state as
    it is, or places the order on an oven that is ready or free. *)
Lemma commander_issue req recette_details c :
  NoDup (fours c).*1 ->
  recettes !! recette_demandee req = Some recette_details ->
  (exists r, segment (commander req) c = (c, [], Retour r))
  \/ (exists four_id f,
        chercher_four four_id (fours c) = Some f
        /\ (f_statut f = "pret" \/ f_statut f = "disponible")
        /\ segment (commander req) c =
           segment (passer_commande (recette_demandee req) recette_details
                      (default (VInt 1) (rq_portions req))
                      (default (VDict []) (rq_options req)) four_id) c).
Proof.
  intros Hnd Hr. rewrite (segment_commander_connue _ _ _ Hr). cbn zeta.
  assert (Hv : forall four_id,
            (exists r, segment (verifier_four (recette_demandee req) recette_details
                         (default (VInt 1) (rq_portions req))
                         (default (VDict []) (rq_options req)) four_id) c = (c, [], Retour r))
            \/ (exists f, chercher_four four_id (fours c) = Some f
                  /\ (f_statut f = "pret" \/ f_statut f = "disponible")
                  /\ segment (verifier_four (recette_demandee req) recette_details
                         (default (VInt 1) (rq_portions req))
                         (default (VDict []) (rq_options req)) four_id) c
                     = segment (passer_commande (recette_demandee req) recette_details
                         (default (VInt 1) (rq_portions req))
                         (default (VDict []) (rq_options req)) four_id) c)).
  { intros four_id. rewrite segment_verifier_four.
    unfold four_pret, statut_du_four.
    destruct (chercher_four four_id (fours c)) as [f|] eqn:Hf; [|left; by eexists].
    destruct (String.eqb_spec (f_statut f) "pret") as [Hs|Hs];
      [right; exists f; by eauto|].
    destruct (String.eqb_spec (f_statut f) "disponible") as [Hs'|Hs'];
      [right; exists f; by eauto|].
    left. by eexists. }
  destruct (four_nomme req c).
  - destruct (Hv (default "" (rq_four_id req))) as [?|(f & ? & ? & ?)]; [by left|].
    right. by exists (default "" (rq_four_id req)), f.
  - destruct (premier_disponible (fours c)) as [k|]; [|left; by eexists].
    destruct (String.eqb k ""); [left; by eexists|].
    destruct (Hv k) as [?|(f & ? & ? & ?)]; [by left|].
    right. by exists k, f.
Qed.

Lemma segment_prechauffage req c :
  cles_fours c ->
  segment (prechauffage req) c =
  match premier_disponible (fours c) with
  | Some four_id =>
      (publier_prechauffage req four_id
         (ecrire_four four_id (poser_temperature (default 180 (rp_temperature req)))
            (ecrire_four four_id (poser_statut_four "prechauffage") c)),
       [], Sommeil 300 (prechauffage_fin four_id (default 180 (rp_temperature req))))
  | None =>
      (ajouter_event "erreur"
         [("phase", VStr "prechauffage");
          ("erreur", VStr "Tous les fours sont occupés")] c,
       [],
       Retour (Reponse
         (creer_reponse_flan FOUR_OCCUPE None
            (Some "🔥 Tous les fours sont occupés, veuillez patienter")) 302))
  end.
Proof.
  intros Hk. unfold prechauffage.
  rewrite segment_appel_trouver_four_disponible. cbn [trouver_four_disponible fst].
  destruct (premier_disponible (fours c)) as [k|] eqn:Hp;
    [|cbn [vrai negb]; by rewrite segment_appel_ajouter_event].
  destruct (premier_disponible_Some _ _ (cles_fours_NoDup _ Hk) Hp) as (f & Hf & _).
  rewrite vrai_Some.
  { cbn -[ajouter_event publier_prechauffage].
    by rewrite segment_appel_ajouter_event. }
  eapply cles_fours_non_vide; [done|].
  apply list_elem_of_fmap. exists (k, f). split; [done|by apply chercher_four_Some].
Qed.

Lemma segment_tache_cuisson id a k c :
  commandes c !! id = Some a -> (k <= 7)%nat ->
  segment (reprendre (tache_cuisson id a k)) c =
  match etapes_cuisson !! k with
  | Some e => (appliquer_etape id a e c, [], tache_cuisson id a (S k))
  | None => (terminer id a c, [], Retour Fin)
  end.
Proof.
  intros Hc Hk.
  destruct k as [|k].
  { cbn [tache_cuisson]. unfold simuler_cuisson.
    cbn -[boucle_etapes etapes_cuisson appliquer_etape].
    rewrite (dans_commandes_Some _ _ _ Hc).
    cbn -[boucle_etapes etapes_cuisson appliquer_etape]. rewrite Hc.
    unfold etapes_cuisson at 1.
    by rewrite segment_boucle_etapes, (dans_commandes_Some _ _ _ Hc). }
  do 6 (destruct k as [|k];
    [ cbn -[boucle_etapes appliquer_etape segment];
      by rewrite segment_boucle_etapes, (dans_commandes_Some _ _ _ Hc) |]).
  destruct k as [|k]; [|lia].
  cbn -[terminer segment fin_cuisson]. apply segment_fin_cuisson.
Qed.

Lemma fours_terminer id a c o :
  objets c !! a = Some o ->
  is_Some (chercher_four (c_four_id o) (fours c)) ->
  fours (terminer id a c) =
  modifier_four (c_four_id o) (poser_commande_en_cours None)
    (modifier_four (c_four_id o) (poser_statut_four "disponible") (fours c)).
Proof.
  intros Ho Hf. unfold terminer. rewrite ajouter_event_fours.
  assert (H4 : c_four_id (objet a
                 (ecrire_objet a (poser_fin (horloge c))
                    (ecrire_objet a (poser_progression 100)
                       (ecrire_objet a (poser_statut "termine") c))))
               = c_four_id o).
  { unfold objet. cbn. rewrite !list_alter_alter_eq.
    rewrite list_lookup_total_alter_eq by (by eapply lookup_lt_Some).
    by rewrite (list_lookup_total_correct _ _ _ Ho). }
  cbn [horloge ecrire_objet avec_objets] in *. rewrite H4.
  unfold dans_fours. cbn [fours]. by rewrite bool_decide_eq_true_2.
Qed.

(** ** The invariant holds along the serialised executions *)

Lemma progres_meme c c' : objets c' = objets c -> progres c c'.
Proof. intros H a o Ho. exists o. rewrite H. by split; [|left]. Qed.

Lemma progres_snoc c c' o0 : objets c' = objets c ++ [o0] -> progres c c'.
Proof.
  intros H a o Ho. exists o. rewrite H.
  rewrite lookup_app_l by (by eapply lookup_lt_Some). by split; [|left].
Qed.

Lemma coherent_meme c c' R :
  fours c' = fours c -> commandes c' = commandes c -> objets c' = objets c ->
  compteur_commandes c' = compteur_commandes c ->
  coherent (fours c) (commandes c) (objets c) (compteur_commandes c) R ->
  coherent (fours c') (commandes c') (objets c') (compteur_commandes c') R.
Proof. by intros -> -> -> ->. Qed.

Lemma coherent_debut F C O n R extra :
  coherent F C O n (R ++ extra) -> coherent F C O n R.
Proof.
  intros H. split; try apply H.
  - by apply (Forall_app (role_fonde F C O) R extra), H.
  - intros i j ri rj x Hi Hj.
    apply (co_distincts _ _ _ _ _ H i j ri rj x); by apply lookup_app_l_Some.
Qed.

Lemma avancer_invariant s i p R c' nouvelles p' r' extra :
  taches s !! i = Some p ->
  Forall2 joue (taches s) R ->
  segment (reprendre p) (etat s) = (c', nouvelles, p') ->
  joue p' r' -> Forall2 joue nouvelles extra ->
  coherent (fours c') (commandes c') (objets c') (compteur_commandes c')
           (<[i := r']> R ++ extra) ->
  invariant (avancer (fun p => segment (reprendre p)) i s)
  /\ etat (avancer (fun p => segment (reprendre p)) i s) = c'.
Proof.
  intros Hp HJ Hseg Hj' Hextra Hco. unfold avancer. rewrite Hp, Hseg.
  split; [|done]. exists (<[i := r']> R ++ extra). split; [|done].
  cbn [taches]. apply Forall2_app; [|done]. by apply Forall2_insert.
Qed.

Lemma invariant_segment i s :
  invariant s ->
  invariant (pas_seq (Segment i) s)
  /\ progres (etat s) (etat (pas_seq (Segment i) s)).
Proof.
  intros (R & HJ & Hco). cbn [pas_seq].
  destruct (taches s !! i) as [p|] eqn:Hp;
    [|unfold avancer; rewrite Hp; split; [by exists R|by apply progres_meme]].
  destruct (Forall2_lookup_l _ _ _ _ _ HJ Hp) as (r & Hr & Hj).
  set (c := etat s) in *.
  assert (Hcles : cles_fours c) by apply Hco.
  assert (Hfini : forall c' x,
            fours c' = fours c -> commandes c' = commandes c ->
            objets c' = objets c -> compteur_commandes c' = compteur_commandes c ->
            segment (reprendre p) c = (c', [], Retour x) ->
            invariant (avancer (fun p => segment (reprendre p)) i s)
            /\ progres c (etat (avancer (fun p => segment (reprendre p)) i s))).
  { intros c' x H1 H2 H3 H4 Hseg.
    destruct (avancer_invariant s i p R c' [] (Retour x) RFinie [] Hp HJ Hseg)
      as [Hinv ->]; [by eexists|done| |by split; [|apply progres_meme]].
    rewrite app_nil_r. apply (coherent_meme c); [done..|]. by apply coherent_fini. }
  destruct r as [| |k0|id a k].
  - (* a request that starts *)
    destruct Hj as [[req ->]|[req ->]].
    + rewrite reprendre_commander in *.
      destruct (recettes !! recette_demandee req) as [rd|] eqn:Hrd.
      * destruct (commander_issue req rd c (cles_fours_NoDup _ Hcles) Hrd)
          as [[x Hx]|(k0 & f0 & Hf0 & Hpret & Hseg)]; [by eapply Hfini|].
        destruct (segment_passer_commande (recette_demandee req) rd
                    (default (VInt 1) (rq_portions req))
                    (default (VDict []) (rq_options req)) k0 c)
          as (c' & x & o & Hseg' & H1 & H2 & H3 & H4 & Hid & H4' & Hrg).
        rewrite <- Hseg in Hseg'.
        assert (Hcom : coherent (fours c') (commandes c') (objets c')
                         (compteur_commandes c')
                         (<[i := RFinie]> R
                          ++ [RCuisson ("CMD-" +:+ format_04d (S (compteur_commandes c)))
                                (length (objets c)) 0])).
        { rewrite H1, H2, H3, H4. by eapply coherent_commande. }
        destruct (est_dict (default (VDict []) (rq_options req))).
        -- destruct (avancer_invariant s i _ R c'
                    [simuler_cuisson ("CMD-" +:+ format_04d (S (compteur_commandes c)))]
                    (Retour x) RFinie
                    [RCuisson ("CMD-" +:+ format_04d (S (compteur_commandes c)))
                       (length (objets c)) 0]
                    Hp HJ) as [Hinv ->].
           { by rewrite reprendre_commander. }
           { by eexists. }
           { by apply Forall2_cons. }
           { done. }
           split; [done|]. by eapply progres_snoc.
        -- destruct (avancer_invariant s i _ R c' [] (Retour x) RFinie [] Hp HJ)
             as [Hinv ->].
           { by rewrite reprendre_commander. }
           { by eexists. }
           { done. }
           { rewrite app_nil_r. by eapply coherent_debut. }
           split; [done|]. by eapply progres_snoc.
      * eapply Hfini; [..|by apply segment_commander_inconnue].
        -- apply ajouter_event_fours.
        -- apply ajouter_event_commandes.
        -- apply ajouter_event_objets.
        -- apply ajouter_event_compteur.
    + rewrite reprendre_prechauffage in *.
      pose proof (segment_prechauffage req c Hcles) as Hseg.
      destruct (premier_disponible (fours c)) as [k0|] eqn:Hk0.
      * destruct (avancer_invariant s i _ R _ _ _ (RPrechauffe k0) [] Hp HJ Hseg)
          as [Hinv ->]; [by eexists|done| |].
        { rewrite app_nil_r. unfold publier_prechauffage.
          rewrite ajouter_event_fours, ajouter_event_commandes,
            ajouter_event_objets, ajouter_event_compteur.
          by apply coherent_prechauffage_debut. }
        split; [done|]. apply progres_meme. unfold publier_prechauffage.
        by rewrite ajouter_event_objets.
      * eapply Hfini; [..|exact Hseg].
        -- apply ajouter_event_fours.
        -- apply ajouter_event_commandes.
        -- apply ajouter_event_objets.
        -- apply ajouter_event_compteur.
  - (* a thread that has ended *)
    destruct Hj as [x ->]. by eapply Hfini.
  - (* the end of a preheating *)
    destruct Hj as [t ->].
    destruct (avancer_invariant s i _ R
                (ecrire_four k0 (poser_statut_four "pret") c) [] _ RFinie [] Hp HJ
                eq_refl) as [Hinv ->]; [by eexists|done| |].
    { rewrite app_nil_r. by apply coherent_prechauffage_fin. }
    split; [done|]. by apply progres_meme.
  - (* a stage of a task, or its last statements *)
    cbn [joue] in Hj. subst p.
    pose proof (co_roles _ _ _ _ _ Hco) as HR. rewrite Forall_lookup in HR.
    destruct (HR _ _ Hr) as (Hk & Hc & o & Ho & Hrg).
    pose proof (segment_tache_cuisson id a k c Hc Hk) as Hseg.
    destruct (etapes_cuisson !! k) as [e|] eqn:He.
    + destruct e as [[[etape_id description] progression] duree].
      destruct (avancer_invariant s i _ R _ _ _ (RCuisson id a (S k)) [] Hp HJ Hseg)
        as [Hinv ->]; [done|done| |].
      { rewrite app_nil_r, fours_appliquer_etape, commandes_appliquer_etape,
          objets_appliquer_etape, compteur_appliquer_etape.
        by apply (coherent_etape _ _ _ _ _ Hco i id a k
                    (etape_id, description, progression, duree)). }
      split; [done|]. intros b ob Hb. rewrite objets_appliquer_etape.
      by apply (progres_etape _ _ _ _ _ Hco i id a k
                  (etape_id, description, progression, duree)).
    + assert (k = 7%nat) as ->.
      { apply lookup_ge_None in He. cbn in He. lia. }
      assert (Hf : is_Some (chercher_four (c_four_id o) (fours c))).
      { destruct (terminer_four _ _ _ _ _ Hco i id a o Hr Ho) as (f & Hf & _).
        by eexists. }
      destruct (avancer_invariant s i _ R _ _ _ RFinie [] Hp HJ Hseg)
        as [Hinv ->]; [by eexists|done| |].
      { rewrite app_nil_r, (fours_terminer _ _ _ _ Ho Hf), commandes_terminer,
          objets_terminer, compteur_terminer.
        by apply (coherent_terminer _ _ _ _ _ Hco i id a o). }
      split; [done|]. intros b ob Hb. rewrite objets_terminer.
      by apply (progres_terminer _ _ _ _ _ Hco i id a o).
Qed.

Lemma invariant_pas_seq a s :
  invariant s -> invariant (pas_seq a s) /\ progres (etat s) (etat (pas_seq a s)).
Proof.
  destruct a as [e|i]; [|apply invariant_segment].
  intros (R & HJ & Hco). destruct e as [req|req|dt|]; cbn.
  - split; [|by apply progres_meme]. exists (R ++ [RNeuve]). split.
    + apply Forall2_app; [done|]. constructor; [|constructor]. left. by eexists.
    + by apply coherent_neuve.
  - split; [|by apply progres_meme]. exists (R ++ [RNeuve]). split.
    + apply Forall2_app; [done|]. constructor; [|constructor]. right. by eexists.
    + by apply coherent_neuve.
  - split; [|by apply progres_meme]. by exists R.
  - unfold generate. destruct (events_queue (etat s)); cbn.
    + split; [|by apply progres_meme]. by exists R.
    + split; [|by apply progres_meme]. by exists R.
Qed.

Lemma executer_seq_snoc l a s :
  executer_seq (l ++ [a]) s = pas_seq a (executer_seq l s).
Proof. unfold executer_seq. by rewrite foldl_app. Qed.

Lemma invariant_init : invariant serveur_init.
Proof.
  exists []. split; [done|]. split; try done.
  - intros k f H. assert (Hs : f_statut f = "disponible"
                               /\ f_commande_en_cours f = None).
    { cbn in H. repeat (case_match; [by injection H as <-|]). done. }
    destruct Hs as [-> ->]. split; [done|by intros [? ?]].
  - intros k f id H. assert (Hs : f_commande_en_cours f = None).
    { cbn in H. repeat (case_match; [by injection H as <-|]). done. }
    by rewrite Hs.
Qed.

Lemma invariant_executer_seq l : invariant (executer_seq l serveur_init).
Proof.
  induction l as [|a l IH] using rev_ind; [apply invariant_init|].
  rewrite executer_seq_snoc. by apply invariant_pas_seq.
Qed.

(** ** Ovens and orders *)

(** [commander] writes the status of the oven (line 395), then the order
    it holds (line 396): between the two statements the oven is cooking
    and holds no order.  And two requests for the same oven that both
    read its status before either writes it are both served: two orders
    in progress name the oven ["four_1"]. *)
Lemma four_occupe_sans_commande :
  ~ four_occupe_ssi_lie_partout
  /\ (let s := executer (Ext (PostCommander requete_vanille) :: replicate 9 (Pas 0))
                 serveur_init in
      chercher_four "four_1" (fours (etat s)) =
      Some {| f_id := "four_1"; f_statut := "cuisson"; f_temperature := 0;
              f_commande_en_cours := None |})
  /\ (let s := executer
                 ([Ext (PostCommander requete_four_1); Ext (PostCommander requete_four_1);
                   Pas 0; Pas 0; Pas 1; Pas 1]
                  ++ replicate 6 (Pas 0) ++ replicate 6 (Pas 1)) serveur_init in
      (fun o => (c_id o, c_four_id o, c_statut o)) <$> objets (etat s) =
      [("CMD-0001", "four_1", "en_preparation");
       ("CMD-0002", "four_1", "en_preparation")]).
Proof.
  split; [|by vm_compute].
  intros H.
  specialize (H (Ext (PostCommander requete_vanille) :: replicate 9 (Pas 0)) "four_1"
                {| f_id := "four_1"; f_statut := "cuisson"; f_temperature := 0;
                   f_commande_en_cours := None |}).
  destruct H as [H _]; [vm_compute; left|]. by apply H.
Qed.

(** C1, amended: in the executions where a scheduled thread runs alone
    up to its next sleep, between any two such runs every oven has the
    status ["cuisson"] if and only if [commande_en_cours] is set; the
    order it names is recorded, in progress and placed on this oven; and
    two orders in progress are never placed on the same oven. *)
Theorem four_occupe_ssi_lie (l : list action_seq) :
  let c := etat (executer_seq l serveur_init) in
  (forall k f, (k, f) ∈ fours c ->
     (f_statut f = "cuisson" <-> f_commande_en_cours f <> None))
  /\ (forall k f commande_id,
        (k, f) ∈ fours c -> f_commande_en_cours f = Some commande_id ->
        exists a o, commandes c !! commande_id = Some a /\ objets c !! a = Some o
                    /\ c_statut o <> "termine" /\ c_four_id o = k)
  /\ (forall a1 a2 o1 o2,
        objets c !! a1 = Some o1 -> objets c !! a2 = Some o2 ->
        c_statut o1 <> "termine" -> c_statut o2 <> "termine" ->
        c_four_id o1 = c_four_id o2 -> a1 = a2).
Proof.
  cbn zeta. destruct (invariant_executer_seq l) as (R & _ & Hco).
  set (c := etat (executer_seq l serveur_init)) in *.
  pose proof (coherent_NoDup _ _ _ _ _ Hco) as Hnd.
  split_and!.
  - intros k f Hin. apply (chercher_four_elem_of _ _ _ Hnd) in Hin.
    rewrite (co_fours _ _ _ _ _ Hco _ _ Hin), <- not_eq_None_Some. done.
  - intros k f id Hin. apply (chercher_four_elem_of _ _ _ Hnd) in Hin.
    by apply (co_porte _ _ _ _ _ Hco).
  - intros a1 a2 o1 o2 H1 H2 He1 He2 H4.
    destruct (co_lie _ _ _ _ _ Hco _ _ H1 He1) as (f1 & Hf1 & Hc1).
    destruct (co_lie _ _ _ _ _ Hco _ _ H2 He2) as (f2 & Hf2 & Hc2).
    pose proof (co_objets _ _ _ _ _ Hco _ _ H1) as Ha1.
    pose proof (co_objets _ _ _ _ _ Hco _ _ H2) as Ha2.
    rewrite H4, Hf2 in Hf1. injection Hf1 as <-. congruence.
Qed.

(** ** The stages of an order in the serialised executions *)

Lemma au_rang_unique k k' o : au_rang k o -> au_rang k' o -> k = k'.
Proof.
  intros (Hk & Hs & _) (Hk' & Hs' & _). rewrite Hs in Hs'. clear Hs.
  do 9 (destruct k as [|k];
        [do 9 (destruct k' as [|k']; [done|]); lia|]).
  lia.
Qed.

(** The stages an order lists are always the first ones of the fixed
    list, its status and its progress are those of the last one listed,
    and a step of the server leaves the order as it is or moves it to
    the next stage: no stage is skipped or done twice. *)
Lemma etapes_dans_l_ordre (l : list action_seq) (x : action_seq)
    (a : nat) (o : commande) :
  objets (etat (executer_seq l serveur_init)) !! a = Some o ->
  exists k, au_rang k o
    /\ exists o', objets (etat (executer_seq (l ++ [x]) serveur_init)) !! a = Some o'
                  /\ (o' = o \/ au_rang (S k) o').
Proof.
  intros Ho. rewrite executer_seq_snoc.
  pose proof (invariant_executer_seq l) as Hinv.
  destruct (invariant_pas_seq x _ Hinv) as [_ Hp].
  destruct Hinv as (R & _ & Hco).
  destruct (co_rang _ _ _ _ _ Hco _ _ Ho) as (k & Hk).
  exists k. split; [done|].
  destruct (Hp _ _ Ho) as (o' & Ho' & [->|(k' & Hk1 & Hk2)]).
  - exists o. by split; [|left].
  - exists o'. split; [done|]. right.
    by rewrite (au_rang_unique _ _ _ Hk Hk1).
Qed.

(** The status and the progress at each rank of the pipeline. *)
Lemma rangs_du_pipeline :
  etat_au_rang <$> seq 0 9 =
  [("en_preparation", 0); ("rassemblement_ingredients", 10); ("caramelisation", 25);
   ("melange_appareil", 50); ("versement", 60); ("cuisson", 85);
   ("refroidissement", 95); ("demoulage", 100); ("termine", 100)].
Proof. reflexivity. Qed.

(** ** Serialised executions are interleaved executions *)

Lemma executer_app l1 l2 s : executer (l1 ++ l2) s = executer l2 (executer l1 s).
Proof. unfold executer. by rewrite foldl_app. Qed.

Lemma avancer_segment_pas p : forall i s,
  taches s !! i = Some p ->
  exists m, executer (replicate m (Pas i)) s = avancer segment i s.
Proof.
  induction p as [r|A op k IH|d k _|t _ k IH]; intros i s Hp.
  - exists 0%nat. unfold avancer. rewrite Hp. cbn.
    rewrite app_nil_r, list_insert_id by done. by destruct s.
  - destruct (op (etat s)) as [x c'] eqn:Hop.
    set (s1 := {| etat := c'; taches := <[i := k x]> (taches s) |}).
    destruct (IH x i s1) as [m Hm].
    { cbn. apply list_lookup_insert_eq. by eapply lookup_lt_Some. }
    exists (S m). cbn [replicate]. change (Pas i :: ?l) with ([Pas i] ++ l).
    rewrite executer_app.
    assert (H1 : executer [Pas i] s = s1).
    { cbn. unfold avancer. rewrite Hp. cbn. rewrite Hop. cbn.
      by rewrite app_nil_r. }
    rewrite H1, Hm. unfold avancer. rewrite Hp. cbn.
    rewrite list_lookup_insert_eq by (by eapply lookup_lt_Some).
    rewrite Hop. destruct (segment (k x) c') as [[c2 l2] p2].
    by rewrite list_insert_insert_eq.
  - exists 0%nat. unfold avancer. rewrite Hp. cbn.
    rewrite app_nil_r, list_insert_id by done. by destruct s.
  - set (s1 := {| etat := etat s; taches := <[i := k]> (taches s) ++ [t] |}).
    assert (Hlt : (i < length (taches s))%nat) by (by eapply lookup_lt_Some).
    destruct (IH i s1) as [m Hm].
    { cbn. rewrite lookup_app_l by (by rewrite length_insert).
      by apply list_lookup_insert_eq. }
    exists (S m). cbn [replicate]. change (Pas i :: ?l) with ([Pas i] ++ l).
    rewrite executer_app.
    assert (H1 : executer [Pas i] s = s1).
    { cbn. unfold avancer. by rewrite Hp. }
    rewrite H1, Hm. unfold avancer. rewrite Hp. cbn.
    rewrite lookup_app_l by (by rewrite length_insert).
    rewrite list_lookup_insert_eq by done.
    destruct (segment k (etat s)) as [[c2 l2] p2]. f_equal.
    rewrite insert_app_l by (by rewrite length_insert).
    by rewrite list_insert_insert_eq, <- (assoc_L (++)).
Qed.

Lemma pas_seq_entrelace a s : exists l, pas_seq a s = executer l s.
Proof.
  destruct a as [e|i]; [by exists [Ext e]|]. cbn [pas_seq].
  destruct (taches s !! i) as [p|] eqn:Hp;
    [|exists []; unfold avancer; by rewrite Hp].
  assert (Hseg : forall q, reprendre p = p -> q = p ->
            exists l, avancer (fun p => segment (reprendre p)) i s = executer l s).
  { intros q Hq _. destruct (avancer_segment_pas p i s Hp) as [m Hm].
    exists (replicate m (Pas i)). rewrite Hm. unfold avancer. by rewrite Hp, Hq. }
  destruct p as [r|A op k|d k|t k]; try (by eapply Hseg).
  set (s1 := {| etat := etat s; taches := <[i := k]> (taches s) |}).
  assert (Hlt : (i < length (taches s))%nat) by (by eapply lookup_lt_Some).
  destruct (avancer_segment_pas k i s1) as [m Hm].
  { cbn. by apply list_lookup_insert_eq. }
  exists ([Pas i] ++ replicate m (Pas i)). rewrite executer_app.
  assert (H1 : executer [Pas i] s = s1).
  { cbn. unfold avancer. rewrite Hp. cbn. by rewrite app_nil_r. }
  rewrite H1, Hm. unfold avancer. rewrite Hp. cbn.
  rewrite list_lookup_insert_eq by done.
  destruct (segment k (etat s)) as [[c2 l2] p2].
  by rewrite list_insert_insert_eq.
Qed.

(** Every state of a serialised execution is a state of an interleaved
    execution. *)
Lemma executer_seq_entrelace l s : exists l', executer_seq l s = executer l' s.
Proof.
  induction l as [|a l IH] using rev_ind; [by exists []|].
  rewrite executer_seq_snoc. destruct IH as [l1 ->].
  destruct (pas_seq_entrelace a (executer l1 s)) as [l2 ->].
  exists (l1 ++ l2). by rewrite executer_app.
Qed.

Lemma executer_snoc l a s : executer (l ++ [a]) s = pas a (executer l s).
Proof. unfold executer. by rewrite foldl_app. Qed.

(** ** The progress of an order *)

Lemma au_rang_bornes k o :
  au_rang k o ->
  0 <= c_progression o <= 100
  /\ (c_statut o = "termine" -> c_progression o = 100)
  /\ (c_progression o = 100 -> c_statut o = "demoulage" \/ c_statut o = "termine").
Proof.
  intros (Hk & Hs & _).
  do 9 (destruct k as [|k];
        [injection Hs as -> ->; split_and!; solve [lia|done|auto]|]).
  lia.
Qed.

Lemma au_rang_croissant k o o' :
  au_rang k o -> au_rang (S k) o' -> c_progression o <= c_progression o'.
Proof.
  intros (Hk & Hs & _) (Hk' & Hs' & _).
  do 8 (destruct k as [|k];
        [injection Hs as _ ->; injection Hs' as _ ->; lia|]).
  lia.
Qed.

(** After the write of the progress of the seventh stage the order has
    the status ["demoulage"] and the progress 100, and keeps them while
    the task publishes the event and sleeps; the status query shows it in
    progress at 100.  And two requests that both run line 219 before
    either runs line 220 draw the same id ["CMD-0002"]: the table keeps
    the second order, the two tasks write it, and its progress goes from
    25 back to 10. *)
Lemma cent_avant_termine :
  ~ cent_ssi_termine
  /\ ~ progression_jamais_decroissante
  /\ (let s := executer
                 (Ext (PostCommander requete_vanille) :: replicate 16 (Pas 0)
                  ++ replicate 59 (Pas 1)) serveur_init in
      (fun o => (c_statut o, c_progression o)) <$> objets (etat s) !! 0%nat
        = Some ("demoulage", 100)
      /\ exists e, statut_commande "CMD-0001" (etat s) = EnCours 100 e)
  /\ (let l := [Ext (PostCommander requete_vanille); Ext (PostCommander requete_vanille)]
               ++ replicate 5 (Pas 0) ++ replicate 5 (Pas 1)
               ++ replicate 11 (Pas 0) ++ replicate 11 (Pas 1)
               ++ replicate 14 (Pas 2) in
      let s := executer l serveur_init in
      let s' := executer (l ++ replicate 5 (Pas 3)) serveur_init in
      commandes (etat s) = {[ "CMD-0002" := 1%nat ]}
      /\ (fun o => (c_id o, c_progression o)) <$> objets (etat s) !! 1%nat
         = Some ("CMD-0002", 25)
      /\ (fun o => (c_id o, c_progression o)) <$> objets (etat s') !! 1%nat
         = Some ("CMD-0002", 10)).
Proof.
  split_and!.
  - intros H.
    set (l := Ext (PostCommander requete_vanille) :: replicate 16 (Pas 0)
              ++ replicate 59 (Pas 1)).
    destruct (objets (etat (executer l serveur_init)) !! 0%nat) as [o|] eqn:Ho;
      [|by vm_compute in Ho].
    destruct (H l 0%nat o Ho) as [H1 _].
    vm_compute in Ho. injection Ho as <-. by specialize (H1 eq_refl).
  - intros H.
    set (l := [Ext (PostCommander requete_vanille); Ext (PostCommander requete_vanille)]
              ++ replicate 5 (Pas 0) ++ replicate 5 (Pas 1)
              ++ replicate 11 (Pas 0) ++ replicate 11 (Pas 1)
              ++ replicate 14 (Pas 2)).
    destruct (objets (etat (executer l serveur_init)) !! 1%nat) as [o|] eqn:Ho;
      [|by vm_compute in Ho].
    destruct (objets (etat (executer (l ++ replicate 5 (Pas 3)) serveur_init)) !! 1%nat)
      as [o'|] eqn:Ho'; [|by vm_compute in Ho'].
    specialize (H l (replicate 5 (Pas 3)) 1%nat o o' Ho Ho').
    vm_compute in Ho, Ho'. injection Ho as <-. injection Ho' as <-.
    by vm_compute in H.
  - split; [by vm_compute|vm_compute; by eexists].
  - cbn zeta. split_and!; [|by vm_compute..].
    apply map_eq. intros i. vm_compute. reflexivity.
Qed.

(** C2, amended: in the executions where a scheduled thread runs alone
    up to its next sleep, the progress of an order stays within 0 and
    100 and is never smaller in a later state than in an earlier one; it
    is 100 when the status is ["termine"], and it is 100 only for the
    statuses ["demoulage"] (the last stage) and ["termine"]. *)
Theorem progression_croissante (l l' : list action_seq) (a : nat) (o : commande) :
  objets (etat (executer_seq l serveur_init)) !! a = Some o ->
  0 <= c_progression o <= 100
  /\ (c_statut o = "termine" -> c_progression o = 100)
  /\ (c_progression o = 100 -> c_statut o = "demoulage" \/ c_statut o = "termine")
  /\ exists o', objets (etat (executer_seq (l ++ l') serveur_init)) !! a = Some o'
                /\ c_progression o <= c_progression o'.
Proof.
  intros Ho.
  destruct (invariant_executer_seq l) as (R & _ & Hco).
  destruct (co_rang _ _ _ _ _ Hco _ _ Ho) as (k & Hk).
  destruct (au_rang_bornes _ _ Hk) as (H1 & H2 & H3).
  split; [done|]. split; [done|]. split; [done|].
  clear R Hco k Hk H1 H2 H3.
  induction l' as [|x l' IH] using rev_ind.
  - rewrite app_nil_r. exists o. by split.
  - destruct IH as (o1 & Ho1 & Hle).
    rewrite (assoc_L (++)), executer_seq_snoc.
    destruct (invariant_pas_seq x _ (invariant_executer_seq (l ++ l'))) as [_ Hp].
    destruct (Hp _ _ Ho1) as (o' & Ho' & [->|(k & Hk & Hk')]).
    + by exists o1.
    + exists o'. split; [done|].
      pose proof (au_rang_croissant _ _ _ Hk Hk'). lia.
Qed.

Lemma progression_croissante_witness :
  objets (etat (executer_seq [ExtS (PostCommander requete_vanille); Segment 0; Segment 1]
                  serveur_init)) !! 0%nat
  = Some (objet 0 (etat (executer_seq
                           [ExtS (PostCommander requete_vanille); Segment 0; Segment 1]
                           serveur_init)))
  /\ exists o',
       objets (etat (executer_seq
                       ([ExtS (PostCommander requete_vanille); Segment 0; Segment 1]
                        ++ [Segment 1; Segment 1]) serveur_init)) !! 0%nat = Some o'
       /\ c_progression (objet 0 (etat (executer_seq
                            [ExtS (PostCommander requete_vanille); Segment 0; Segment 1]
                            serveur_init)))
          <= c_progression o'.
Proof.
  assert (H : objets (etat (executer_seq
                              [ExtS (PostCommander requete_vanille); Segment 0; Segment 1]
                              serveur_init)) !! 0%nat
              = Some (objet 0 (etat (executer_seq
                           [ExtS (PostCommander requete_vanille); Segment 0; Segment 1]
                           serveur_init))))
    by (vm_compute; reflexivity).
  split; [exact H|].
  exact (proj2 (proj2 (proj2
           (progression_croissante
              [ExtS (PostCommander requete_vanille); Segment 0; Segment 1]
              [Segment 1; Segment 1] 0 _ H)))).
Defined.

(** * Further properties of the server *)

(** ** Order ids *)

Lemma longueur_string_of_uint d :
  String.length (NilEmpty.string_of_uint d) = nb_digits d.
Proof. induction d; cbn; congruence. Qed.

Lemma nb_digits_zeros k d : nb_digits (zeros k d) = (k + nb_digits d)%nat.
Proof. induction k as [|k IH]; cbn; congruence. Qed.

Lemma longueur_format_04d n :
  String.length (format_04d n) = Nat.max 4 (nb_digits (Nat.to_uint n)).
Proof.
  unfold format_04d. rewrite longueur_string_of_uint, nb_digits_zeros. lia.
Qed.

Lemma quatre_chiffres n :
  Z.of_nat n < 10000 -> String.length (format_04d n) = 4%nat.
Proof.
  intros Hn.
  assert (H : forallb (fun n => Nat.eqb (String.length (format_04d n)) 4)
                (seq 0 (Z.to_nat 10000)) = true) by (vm_compute; reflexivity).
  rewrite forallb_forall in H.
  apply Nat.eqb_eq, H, in_seq. lia.
Qed.

Lemma longueur_commande_id n :
  String.length ("CMD-" +:+ format_04d n) = (4 + String.length (format_04d n))%nat.
Proof. reflexivity. Qed.

(** [nouvelle_commande_id] adds one to the counter and touches nothing
    else; the id it returns has at least 8 characters, exactly 8 up to
    the order 9999, and two ids are equal only when they were drawn at
    the same value of the counter. *)
Theorem nouvelle_commande_id_distincts (c c' : CuisineFlan) :
  let '(commande_id, c1) := nouvelle_commande_id c in
  c1 = avec_compteur (S (compteur_commandes c)) c
  /\ (8 <= String.length commande_id)%nat
  /\ (Z.of_nat (compteur_commandes c) < 9999 -> String.length commande_id = 8%nat)
  /\ (commande_id = (nouvelle_commande_id c').1
      <-> compteur_commandes c = compteur_commandes c').
Proof.
  unfold nouvelle_commande_id. cbn [fst]. split_and!.
  - done.
  - rewrite longueur_commande_id, longueur_format_04d. lia.
  - intros H. rewrite longueur_commande_id, quatre_chiffres; [done|lia].
  - split.
    + intros H. apply commande_id_inj in H. lia.
    + by intros ->.
Qed.

(** ** The choice of an oven *)

(** [trouver_four_disponible] leaves the state as it is and returns the
    first oven, in the order of the pool, whose status is
    ["disponible"]: no oven before it has this status; it returns
    [None] exactly when no oven has it. *)
Theorem trouver_four_disponible_premier (c : CuisineFlan) :
  (trouver_four_disponible c).2 = c
  /\ match (trouver_four_disponible c).1 with
     | Some four_id =>
         exists avant f apres,
           fours c = avant ++ (four_id, f) :: apres
           /\ f_statut f = "disponible"
           /\ Forall (fun kf => f_statut kf.2 <> "disponible") avant
     | None => Forall (fun kf => f_statut kf.2 <> "disponible") (fours c)
     end.
Proof.
  split; [done|]. cbn. induction (fours c) as [|[k f] l IH]; cbn; [done|].
  destruct (String.eqb_spec (f_statut f) "disponible") as [Hs|Hs].
  - by exists [], f, l.
  - destruct (premier_disponible l) as [k'|].
    + destruct IH as (avant & f' & apres & -> & Hf' & Havant).
      exists ((k, f) :: avant), f', apres. split_and!; [done..|].
      by constructor.
    + by constructor.
Qed.

(** [GET /api/flan/fours] counts no free oven exactly when
    [trouver_four_disponible] finds none, and never counts more free
    ovens than ovens. *)
Theorem liste_fours_disponibles (c : CuisineFlan) :
  let '(_, disponibles, total) := liste_fours c in
  (disponibles <= total)%nat
  /\ total = length (fours c)
  /\ (disponibles = 0%nat <-> (trouver_four_disponible c).1 = None).
Proof.
  unfold liste_fours, trouver_four_disponible. cbn [fst].
  split_and!; [apply length_filter|done|].
  induction (fours c) as [|[k f] l IH]; [done|].
  rewrite filter_cons. cbn [premier_disponible snd].
  destruct (String.eqb_spec (f_statut f) "disponible") as [Hs|Hs].
  - rewrite decide_True by done. cbn [length]. split; [lia|done].
  - by rewrite decide_False by done.
Qed.

(** ** [prechauffage] *)

(** When no oven is free, [prechauffage] answers 302 FOUR_OCCUPE without
    sleeping; it publishes one event ["erreur"] of phase
    ["prechauffage"] and leaves the ovens and the orders as they are. *)
Theorem prechauffage_sans_four_libre (req : requete_prechauffage) (c : CuisineFlan) :
  (trouver_four_disponible c).1 = None ->
  let '(r, c') := resultat (prechauffage req) c in
  (exists rep, r = Reponse rep 302 /\ rep_statut rep = FOUR_OCCUPE)
  /\ (derouler (prechauffage req) c).1 = []
  /\ fours c' = fours c /\ commandes c' = commandes c /\ objets c' = objets c
  /\ events_queue c' = events_queue c ++
       [{| e_type := "erreur";
           e_data := [("phase", VStr "prechauffage");
                      ("erreur", VStr "Tous les fours sont occupés")];
           e_timestamp := horloge c |}].
Proof.
  intros H. unfold prechauffage. appels. rewrite H. cbn [vrai negb]. appels.
  cbn -[ajouter_event].
  rewrite ajouter_event_fours, ajouter_event_commandes, ajouter_event_objets,
    ajouter_event_events_queue.
  split_and!; try done. by eexists.
Qed.

Lemma prechauffage_sans_four_libre_witness :
  (trouver_four_disponible cuisine_sans_four_libre).1 = None
  /\ let '(r, c') := resultat (prechauffage requete_200_degres) cuisine_sans_four_libre in
     (exists rep, r = Reponse rep 302 /\ rep_statut rep = FOUR_OCCUPE)
     /\ (derouler (prechauffage requete_200_degres) cuisine_sans_four_libre).1 = []
     /\ fours c' = fours cuisine_sans_four_libre
     /\ commandes c' = commandes cuisine_sans_four_libre
     /\ objets c' = objets cuisine_sans_four_libre
     /\ events_queue c' = events_queue cuisine_sans_four_libre ++
       [{| e_type := "erreur";
           e_data := [("phase", VStr "prechauffage");
                      ("erreur", VStr "Tous les fours sont occupés")];
           e_timestamp := horloge cuisine_sans_four_libre |}].
Proof.
  assert (H : (trouver_four_disponible cuisine_sans_four_libre).1 = None)
    by (vm_compute; reflexivity).
  split; [exact H|].
  exact (prechauffage_sans_four_libre requete_200_degres cuisine_sans_four_libre H).
Defined.

(** When an oven is free, [prechauffage] reserves the first one: during
    its sleep of 0.3 s the oven has the status ["prechauffage"] and the
    requested temperature (180 by default), and an order that names it
    would be refused; after the sleep the oven is ["pret"], an order can
    name it, and the answer is 200 FLAN_PARFAIT.  The order it holds,
    the other ovens and the orders are left as they are. *)
Theorem prechauffage_reserve (req : requete_prechauffage) (c : CuisineFlan)
    (four_id : string) :
  cles_fours c ->
  (trouver_four_disponible c).1 = Some four_id ->
  exists f c1 c2 rep,
    chercher_four four_id (fours c) = Some f
    /\ derouler (prechauffage req) c = ([(c1, 300)], c2)
    /\ resultat (prechauffage req) c = (Reponse rep 200, c2)
    /\ rep_statut rep = FLAN_PARFAIT
    /\ chercher_four four_id (fours c1) =
       Some (poser_temperature (default 180 (rp_temperature req))
               (poser_statut_four "prechauffage" f))
    /\ four_pret four_id c1 = false
    /\ chercher_four four_id (fours c2) =
       Some (poser_statut_four "pret"
               (poser_temperature (default 180 (rp_temperature req)) f))
    /\ four_pret four_id c2 = true
    /\ (forall k, k <> four_id ->
          chercher_four k (fours c1) = chercher_four k (fours c)
          /\ chercher_four k (fours c2) = chercher_four k (fours c))
    /\ commandes c2 = commandes c /\ objets c2 = objets c.
Proof.
  cbn [trouver_four_disponible fst]. intros Hk Hp.
  destruct (premier_disponible_Some _ _ (cles_fours_NoDup _ Hk) Hp) as (f & Hf & Hs).
  assert (Hv : vrai (Some four_id) = true).
  { apply vrai_Some. eapply cles_fours_non_vide; [done|].
    apply list_elem_of_fmap. exists (four_id, f).
    split; [done|by apply chercher_four_Some]. }
  exists f. unfold prechauffage. appels.
  cbn [trouver_four_disponible fst]. rewrite Hp, Hv.
  cbn -[ajouter_event vrai four_pret]. appels.
  cbn -[ajouter_event vrai four_pret]. do 3 eexists.
  split; [done|]. split; [reflexivity|]. split; [reflexivity|].
  split; [reflexivity|].
  unfold four_pret, statut_du_four, ecrire_four.
  cbn -[ajouter_event].
  rewrite ?ajouter_event_fours, ?ajouter_event_commandes, ?ajouter_event_objets.
  cbn -[ajouter_event].
  rewrite !chercher_four_modifier_eq, Hf. cbn -[ajouter_event].
  split_and!; try done.
  intros k Hne. by rewrite !chercher_four_modifier_ne.
Qed.

Lemma prechauffage_reserve_witness :
  cles_fours cuisine_init
  /\ (trouver_four_disponible cuisine_init).1 = Some "four_1"
  /\ exists c1 c2,
       derouler (prechauffage requete_200_degres) cuisine_init = ([(c1, 300)], c2)
       /\ four_pret "four_1" c1 = false
       /\ four_pret "four_1" c2 = true.
Proof.
  assert (H1 : cles_fours cuisine_init) by reflexivity.
  assert (H2 : (trouver_four_disponible cuisine_init).1 = Some "four_1")
    by reflexivity.
  split; [exact H1|]. split; [exact H2|].
  destruct (prechauffage_reserve requete_200_degres cuisine_init "four_1" H1 H2)
    as (f & c1 & c2 & rep & _ & H3 & _ & _ & _ & H4 & _ & H5 & _).
  exists c1, c2. split; [exact H3|]. split; [exact H4|exact H5].
Defined.

(** ** The answers of the handlers *)

Ltac dans_liste :=
  cbn; solve [repeat first [apply list_elem_of_here | apply list_elem_of_further]].

(** For a request whose keys [recette] and [four_id] are strings or are
    missing, whatever its other keys hold, every answer of [commander],
    [prechauffage] and [statut_commande] carries as HTTP code the code
    of the FLAN status of its body:
    [commander] answers 201, 302, 404 or 503, and 201 only when the
    options are a dict or are missing; [prechauffage] answers 200 or
    302; [statut_commande] answers 200 or 404.  The handlers raise in two
    cases only: [commander] raises [AttributeError] at line 412 when
    the options are not a dict, after it has recorded the order; and
    [statut_commande] raises [KeyError] for an order marked ["termine"]
    whose key ["fin"] is not yet written. *)
Theorem codes_http_coherents (c : CuisineFlan) (req : requete_commander)
    (reqp : requete_prechauffage) (commande_id : string) :
  ((exists r http, (resultat (commander req) c).1 = Reponse r http
                   /\ http = code (rep_statut r)
                   /\ rep_statut r ∈ [FLAN_CREE; FOUR_OCCUPE; FLAN_INTROUVABLE;
                                     CUISINE_FERMEE]
                   /\ (rep_statut r = FLAN_CREE ->
                       est_dict (default (VDict []) (rq_options req)) = true))
   \/ ((resultat (commander req) c).1 = Exception "AttributeError"
       /\ est_dict (default (VDict []) (rq_options req)) = false
       /\ length (objets (resultat (commander req) c).2) = S (length (objets c))))
  /\ (exists r http, (resultat (prechauffage reqp) c).1 = Reponse r http
                /\ http = code (rep_statut r)
                /\ rep_statut r ∈ [FLAN_PARFAIT; FOUR_OCCUPE])
  /\ (statut_commande_reponse commande_id c = Exception "KeyError"
      \/ exists r http, statut_commande_reponse commande_id c = Reponse r http
                   /\ http = code (rep_statut r)
                   /\ rep_statut r ∈ [FLAN_PARFAIT; FLAN_INTROUVABLE]).
Proof.
  assert (Hv : forall recette recette_details portions options four_id c0,
             (exists r http,
                 (resultat (verifier_four recette recette_details portions
                              options four_id) c0).1 = Reponse r http
                 /\ http = code (rep_statut r)
                 /\ rep_statut r ∈ [FLAN_CREE; FOUR_OCCUPE; FLAN_INTROUVABLE;
                                   CUISINE_FERMEE]
                 /\ (rep_statut r = FLAN_CREE -> est_dict options = true))
             \/ ((resultat (verifier_four recette recette_details portions
                              options four_id) c0).1 = Exception "AttributeError"
                 /\ est_dict options = false
                 /\ length (objets (resultat (verifier_four recette recette_details
                                               portions options four_id) c0).2)
                    = S (length (objets c0)))).
  { intros. unfold verifier_four. rewrite resultat_instr. unfold lire.
    cbn [fst snd]. destruct (negb _).
    { left. do 2 eexists. cbn. split_and!; [reflexivity|reflexivity|dans_liste|done]. }
    unfold passer_commande. appels.
    destruct options as [| | | |d| |]; cbn -[ajouter_event]; appels;
      cbn -[ajouter_event];
      first [ left; do 2 eexists;
              split_and!; [reflexivity|reflexivity|dans_liste|done]
            | right; split_and!; [done|done|];
              rewrite length_app; cbn; lia ]. }
  split_and!.
  - unfold commander. destruct (recettes !! _) as [recette_details|].
    + rewrite resultat_instr. unfold lire. cbn [fst snd]. destruct (_ || _); [|apply Hv].
      appels. destruct (negb _); [|apply Hv].
      left. do 2 eexists. cbn.
      split_and!; [reflexivity|reflexivity|dans_liste|done].
    + appels. left. do 2 eexists. cbn -[ajouter_event].
      split_and!; [reflexivity|reflexivity|dans_liste|done].
  - unfold prechauffage, prechauffage_fin. appels.
    destruct (negb _); appels; cbn -[ajouter_event]; appels; cbn -[ajouter_event];
      do 2 eexists; (split_and!; [reflexivity|reflexivity|dans_liste]).
  - unfold statut_commande_reponse. destruct (commandes c !! _) as [a|].
    + cbn zeta. destruct (String.eqb _ _); [destruct (c_fin _)|].
      * right. do 2 eexists. split; [reflexivity|]. split; [reflexivity|]. cbn.
        dans_liste.
      * by left.
      * right. do 2 eexists. split; [reflexivity|]. split; [reflexivity|]. cbn.
        dans_liste.
    + right. do 2 eexists. split; [reflexivity|]. split; [reflexivity|]. cbn.
      dans_liste.
Qed.

(** ** What every execution keeps *)

Lemma four_sain_modifier k g l :
  (forall f, f_id (g f) = f_id f) ->
  (forall f, f_statut (g f) = f_statut f \/ f_statut (g f) ∈ statuts_four) ->
  Forall four_sain l -> Forall four_sain (modifier_four k g l).
Proof.
  intros Hid Hst. induction 1 as [|[k0 f] l [H1 H2] Hl IH]; cbn; [done|].
  destruct (String.eqb k0 k).
  - constructor; [|done]. split; cbn in *; [by rewrite Hid|].
    by destruct (Hst f) as [->|?].
  - by constructor.
Qed.

Lemma saine_egal c c' :
  fours c' = fours c -> commandes c' = commandes c -> objets c' = objets c ->
  compteur_commandes c' = compteur_commandes c ->
  cuisine_saine c -> cuisine_saine c'.
Proof. unfold cuisine_saine, cles_fours. by intros -> -> -> ->. Qed.

Lemma saine_ecrire_four k g c :
  (forall f, f_id (g f) = f_id f) ->
  (forall f, f_statut (g f) = f_statut f \/ f_statut (g f) ∈ statuts_four) ->
  cuisine_saine c -> cuisine_saine (ecrire_four k g c).
Proof.
  intros Hid Hst (H1 & H2 & H3 & H4 & H5). split_and!; cbn; try done.
  - unfold cles_fours. cbn. by rewrite modifier_four_cles.
  - by apply four_sain_modifier.
Qed.

Lemma saine_ecrire_objet a g c :
  (forall o, c_id (g o) = c_id o /\ c_recette (g o) = c_recette o
             /\ c_details (g o) = c_details o /\ c_four_id (g o) = c_four_id o) ->
  cuisine_saine c -> cuisine_saine (ecrire_objet a g c).
Proof.
  intros Hg (H1 & H2 & H3 & H4 & H5). split_and!; cbn; try done.
  - apply Forall_alter; [done|]. intros o _ [Ha Hb]. unfold commande_saine.
    by destruct (Hg o) as (_ & -> & -> & ->).
  - intros commande_id b Hb. destruct (H4 _ _ Hb) as (o & Ho & Hid).
    rewrite list_lookup_alter. case_decide as Hab.
    + subst b. rewrite Ho. exists (g o). split; [reflexivity|].
      by destruct (Hg o) as (-> & _).
    + by exists o.
Qed.

Lemma saine_ajouter_event event_type data c :
  cuisine_saine c -> cuisine_saine (ajouter_event event_type data c).
Proof.
  apply saine_egal.
  - apply ajouter_event_fours.
  - apply ajouter_event_commandes.
  - apply ajouter_event_objets.
  - apply ajouter_event_compteur.
Qed.

Lemma saine_compteur c :
  cuisine_saine c -> cuisine_saine (avec_compteur (S (compteur_commandes c)) c).
Proof.
  intros (H1 & H2 & H3 & H4 & H5). split_and!; cbn; try done.
  intros commande_id a Ha. destruct (H5 _ _ Ha) as (m & Hm & ->).
  exists m. split; [lia|done].
Qed.

Lemma saine_creer_commande m recette recette_details portions options
    four_id debut c :
  recettes !! recette = Some recette_details ->
  four_id ∈ ["four_1"; "four_2"; "four_3"] ->
  (m <= compteur_commandes c)%nat ->
  cuisine_saine c ->
  cuisine_saine (creer_commande ("CMD-" +:+ format_04d m) recette recette_details
                   portions options four_id debut c).2.
Proof.
  intros Hr Hf Hm (H1 & H2 & H3 & H4 & H5). split_and!; cbn; try done.
  - apply Forall_app. split; [done|]. apply Forall_singleton. by split.
  - intros commande_id a. rewrite lookup_insert_Some. intros [[<- <-]|[Hne Ha]].
    + eexists. split; [apply list_lookup_middle; done|done].
    + destruct (H4 _ _ Ha) as (o & Ho & Hid). exists o. split; [|done].
      rewrite lookup_app_l; [done|]. by eapply lookup_lt_Some.
  - intros commande_id a. rewrite lookup_insert_Some. intros [[<- <-]|[Hne Ha]].
    + by exists m.
    + by apply (H5 _ a).
Qed.

Lemma saine_statut_four k s c :
  s ∈ statuts_four -> cuisine_saine c ->
  cuisine_saine (ecrire_four k (poser_statut_four s) c).
Proof. intros Hs. apply saine_ecrire_four; cbn; auto. Qed.

Lemma saine_champ_four k g c :
  (forall f, f_id (g f) = f_id f) -> (forall f, f_statut (g f) = f_statut f) ->
  cuisine_saine c -> cuisine_saine (ecrire_four k g c).
Proof. intros Hi Hs. apply saine_ecrire_four; auto. Qed.

Lemma preserve_mono I n n' p :
  (n <= n')%nat -> preserve I n p -> preserve I n' p.
Proof.
  revert n n'. induction p as [r|A op k IH|d k IH|t IHt k IHk]; intros n n' Hn; cbn.
  - done.
  - intros H c Hc Hc'. apply H; [done|lia].
  - by apply IH.
  - intros [Ht Hk]. split; [by eapply IHt|by eapply IHk].
Qed.

(** A statement whose continuation is checked at the same bound. *)
Lemma preserve_instr I n {A} (op : CuisineFlan -> A * CuisineFlan) (k : A -> prog) :
  (forall c, I c -> (n <= compteur_commandes c)%nat ->
     I (op c).2
     /\ (compteur_commandes c <= compteur_commandes (op c).2)%nat
     /\ preserve I n (k (op c).1)) ->
  preserve I n (Instr op k).
Proof.
  intros H c Hc Hn. destruct (H c Hc Hn) as (H1 & H2 & H3).
  split_and!; [done..|]. eapply preserve_mono; [|done]. lia.
Qed.

(** One statement of a thread keeps [cuisine_saine]. *)
Ltac instr_saine :=
  let c := fresh "c" in
  let Hc := fresh "Hc" in
  let Hn := fresh "Hn" in
  apply preserve_instr; intros c Hc Hn; unfold lire; cbn [fst snd];
  split_and!;
  [ first [ exact Hc
          | by apply saine_ecrire_objet
          | by apply saine_statut_four; [compute_done|]
          | by apply saine_champ_four
          | by (eapply saine_egal; [..|exact Hc]) ]
  | first [ done | cbn; lia ]
  | ].

Lemma preserve_appel_ajouter_event event_type data k n :
  preserve cuisine_saine n k ->
  preserve cuisine_saine n (appel_ajouter_event event_type data k).
Proof.
  intros Hk. unfold appel_ajouter_event. do 4 instr_saine.
  case_match; [|done]. by instr_saine.
Qed.

Lemma preserve_appel_nouvelle_commande_id k n :
  (forall m, preserve cuisine_saine m (k ("CMD-" +:+ format_04d m))) ->
  preserve cuisine_saine n (appel_nouvelle_commande_id k).
Proof.
  intros Hk c Hc Hn. cbn [fst snd]. split_and!.
  - by apply saine_compteur.
  - cbn. lia.
  - intros c' Hc' Hn'. unfold lire. cbn [fst snd]. split_and!; [done..|]. apply Hk.
Qed.

Lemma preserve_parcourir_fours indices k n :
  (forall four_id, default "four_1" four_id ∈ ["four_1"; "four_2"; "four_3"] ->
     preserve cuisine_saine n (k four_id)) ->
  preserve cuisine_saine n (parcourir_fours indices k).
Proof.
  intros Hk. induction indices as [|i reste IH]; cbn [parcourir_fours].
  { apply Hk. cbn. compute_done. }
  apply preserve_instr. intros c Hc Hn. unfold lire. cbn [fst snd].
  split_and!; [done..|].
  destruct (fours c !! i) as [[four_id four]|] eqn:Hi; [|apply Hk; cbn; compute_done].
  destruct (String.eqb _ _); [|done].
  apply Hk. cbn. destruct Hc as (<- & _).
  apply list_elem_of_fmap. exists (four_id, four). split; [done|].
  by eapply list_elem_of_lookup_2.
Qed.

Lemma preserve_appel_trouver_four_disponible k n :
  (forall four_id, default "four_1" four_id ∈ ["four_1"; "four_2"; "four_3"] ->
     preserve cuisine_saine n (k four_id)) ->
  preserve cuisine_saine n (appel_trouver_four_disponible k).
Proof.
  intros Hk. unfold appel_trouver_four_disponible. instr_saine.
  by apply preserve_parcourir_fours.
Qed.

Lemma preserve_publier_termine commande_id commande n :
  preserve cuisine_saine n (publier_termine commande_id commande).
Proof.
  unfold publier_termine. instr_saine. by apply preserve_appel_ajouter_event.
Qed.

Lemma preserve_fin_cuisson commande_id commande n :
  preserve cuisine_saine n (fin_cuisson commande_id commande).
Proof.
  unfold fin_cuisson. do 5 instr_saine.
  case_match; [|apply preserve_publier_termine].
  do 2 instr_saine. apply preserve_publier_termine.
Qed.

Lemma preserve_boucle_etapes commande_id commande etapes n :
  preserve cuisine_saine n (boucle_etapes commande_id commande etapes).
Proof.
  induction etapes as [|[[[etape_id description] progression] duree] reste IH];
    cbn [boucle_etapes].
  { apply preserve_fin_cuisson. }
  instr_saine. case_match; [done|].
  do 3 instr_saine. by apply preserve_appel_ajouter_event.
Qed.

Lemma preserve_simuler_cuisson commande_id n :
  preserve cuisine_saine n (simuler_cuisson commande_id).
Proof.
  unfold simuler_cuisson. instr_saine. case_match; [done|].
  instr_saine. case_match; [|done].
  apply preserve_boucle_etapes.
Qed.

Lemma preserve_prechauffage req n : preserve cuisine_saine n (prechauffage req).
Proof.
  unfold prechauffage. apply preserve_appel_trouver_four_disponible.
  intros four_id Hf. case_match.
  - by apply preserve_appel_ajouter_event.
  - do 3 instr_saine. apply preserve_appel_ajouter_event.
    cbn [preserve]. unfold prechauffage_fin. by instr_saine.
Qed.

Lemma preserve_passer_commande recette recette_details portions options four_id n :
  recettes !! recette = Some recette_details ->
  four_id ∈ ["four_1"; "four_2"; "four_3"] ->
  preserve cuisine_saine n
    (passer_commande recette recette_details portions options four_id).
Proof.
  intros Hr Hf. unfold passer_commande.
  apply preserve_appel_nouvelle_commande_id. intros m.
  instr_saine.
  apply preserve_instr. intros c0 Hc0 Hn0.
  split_and!; [by apply saine_creer_commande|done|]. cbn [fst snd].
  do 2 instr_saine.
  destruct options as [| | | |d| |]; try done.
  instr_saine. apply preserve_appel_ajouter_event.
  split; [apply preserve_simuler_cuisson|done].
Qed.

Lemma preserve_verifier_four recette recette_details portions options four_id n :
  recettes !! recette = Some recette_details ->
  four_id ∈ ["four_1"; "four_2"; "four_3"] ->
  preserve cuisine_saine n
    (verifier_four recette recette_details portions options four_id).
Proof.
  intros Hr Hf. unfold verifier_four. instr_saine.
  case_match; [done|]. by apply preserve_passer_commande.
Qed.

Lemma preserve_commander req n : preserve cuisine_saine n (commander req).
Proof.
  unfold commander. destruct (recettes !! _) as [recette_details|] eqn:Hr;
    [|by apply preserve_appel_ajouter_event].
  apply preserve_instr. intros c Hc Hn. unfold lire. cbn [fst snd].
  split_and!; [done..|].
  destruct (negb (vrai (rq_four_id req)) || _) eqn:Habs.
  - apply preserve_appel_trouver_four_disponible. intros four_id Hf.
    destruct four_id as [four_id|]; [|done].
    destruct (negb (vrai (Some four_id))); [done|].
    by apply preserve_verifier_four.
  - apply preserve_verifier_four; [done|].
    apply orb_false_iff in Habs as [_ Hd]. apply negb_false_iff in Hd.
    unfold dans_fours in Hd. apply bool_decide_eq_true in Hd as [f Hf].
    apply chercher_four_Some in Hf. destruct Hc as (Hk & _).
    rewrite <- Hk. apply list_elem_of_fmap. by eexists (_, f).
Qed.

Lemma cuisine_saine_init : cuisine_saine cuisine_init.
Proof.
  split_and!; cbn; try done.
  repeat constructor; cbn; compute_done.
Qed.

(** What holds along the interleaved executions: the state is sound and
    every thread keeps it so from the present value of the counter. *)
Lemma cuisine_saine_pas a s :
  cuisine_saine (etat s)
  /\ Forall (preserve cuisine_saine (compteur_commandes (etat s))) (taches s) ->
  cuisine_saine (etat (pas a s))
  /\ Forall (preserve cuisine_saine (compteur_commandes (etat (pas a s))))
       (taches (pas a s)).
Proof.
  intros [Hc Ht]. destruct a as [[req|req|dt|]|i]; cbn.
  - split; [done|]. apply Forall_app. split; [done|].
    apply Forall_singleton, preserve_commander.
  - split; [done|]. apply Forall_app. split; [done|].
    apply Forall_singleton, preserve_prechauffage.
  - split; [|done]. by eapply saine_egal; [..|exact Hc].
  - unfold generate. destruct (events_queue (etat s)); [done|].
    split; [|done]. by eapply saine_egal; [..|exact Hc].
  - unfold avancer. destruct (taches s !! i) as [p|] eqn:Hi; [|done].
    pose proof (Forall_lookup_1 _ _ _ _ Ht Hi) as Hp.
    destruct p as [r|A op k|d k|t k]; cbn.
    + rewrite app_nil_r. split; [done|]. by apply Forall_insert.
    + destruct (Hp _ Hc (Nat.le_refl _)) as (H1 & H2 & H3).
      destruct (op (etat s)) as [x c']. cbn in *.
      rewrite app_nil_r. split; [done|]. apply Forall_insert; [|done].
      eapply Forall_impl; [exact Ht|]. intros q. by apply preserve_mono.
    + rewrite app_nil_r. split; [done|]. by apply Forall_insert.
    + destruct Hp as [Hpt Hpk]. split; [done|]. apply Forall_app. split.
      * by apply Forall_insert.
      * by apply Forall_singleton.
Qed.

Lemma cuisine_saine_executer l :
  cuisine_saine (etat (executer l serveur_init))
  /\ Forall (preserve cuisine_saine
               (compteur_commandes (etat (executer l serveur_init))))
       (taches (executer l serveur_init)).
Proof.
  induction l as [|a l IH] using rev_ind.
  - split; [apply cuisine_saine_init|constructor].
  - rewrite executer_snoc. by apply cuisine_saine_pas.
Qed.

(** In every execution of the server, threads interleaved statement by
    statement, the pool is made of the three ovens ["four_1"],
    ["four_2"], ["four_3"] in this order; the field ["id"] of an oven is
    its key and its status is one of ["disponible"], ["prechauffage"],
    ["pret"], ["cuisson"]; [liste_fours] reports a total of 3. *)
Theorem fours_toujours_trois (l : list action) :
  let c := etat (executer l serveur_init) in
  (fours c).*1 = ["four_1"; "four_2"; "four_3"]
  /\ (forall four_id f, chercher_four four_id (fours c) = Some f ->
        f_id f = four_id /\ f_statut f ∈ statuts_four)
  /\ (liste_fours c).2 = 3%nat.
Proof.
  destruct (cuisine_saine_executer l) as [(Hk & Hf & _) _]. cbn zeta.
  split_and!.
  - exact Hk.
  - intros four_id f H%chercher_four_Some.
    rewrite Forall_forall in Hf. apply (Hf _ H).
  - cbn. by rewrite <- (length_fmap fst), Hk.
Qed.

(** In every execution of the server, threads interleaved statement by
    statement, an id of [cuisine.commandes] refers to an order whose
    field ["id"] is that id, whose recipe is in the book with the
    details the order carries, and whose oven is in the pool; the id is
    ["CMD-"] followed by a number up to the counter, and no other id
    refers to the same order. *)
Theorem commandes_bien_formees (l : list action) (commande_id : string) (a : nat) :
  let c := etat (executer l serveur_init) in
  commandes c !! commande_id = Some a ->
  exists o,
    objets c !! a = Some o
    /\ c_id o = commande_id
    /\ recettes !! c_recette o = Some (c_details o)
    /\ dans_fours (c_four_id o) c = true
    /\ (exists m, (m <= compteur_commandes c)%nat
                  /\ commande_id = "CMD-" +:+ format_04d m)
    /\ (forall autre, commandes c !! autre = Some a -> autre = commande_id).
Proof.
  cbn zeta. intros Ha.
  destruct (cuisine_saine_executer l) as [(Hk & _ & Ho & Ht & Hi) _].
  destruct (Ht _ _ Ha) as (o & Hoa & Hid).
  exists o. split_and!; try done.
  - by destruct (Forall_lookup_1 _ _ _ _ Ho Hoa).
  - destruct (Forall_lookup_1 _ _ _ _ Ho Hoa) as [_ Hf].
    unfold dans_fours. apply bool_decide_eq_true.
    destruct (chercher_four (c_four_id o) (fours (etat (executer l serveur_init))))
      eqn:E; [by eexists|].
    apply chercher_four_None in E. by rewrite Hk in E.
  - by apply (Hi _ a).
  - intros autre H. destruct (Ht _ _ H) as (o' & Ho' & <-). congruence.
Qed.

Lemma commandes_bien_formees_witness :
  commandes (etat (executer ordonnancement_une_commande serveur_init)) !! "CMD-0001"
  = Some 0%nat
  /\ exists o,
       objets (etat (executer ordonnancement_une_commande serveur_init)) !! 0%nat
       = Some o
       /\ c_id o = "CMD-0001"
       /\ recettes !! c_recette o = Some (c_details o)
       /\ dans_fours (c_four_id o)
            (etat (executer ordonnancement_une_commande serveur_init)) = true
       /\ (exists m,
             (m <= compteur_commandes
                     (etat (executer ordonnancement_une_commande serveur_init)))%nat
             /\ "CMD-0001" = "CMD-" +:+ format_04d m)
       /\ (forall autre,
             commandes (etat (executer ordonnancement_une_commande serveur_init))
               !! autre = Some 0%nat -> autre = "CMD-0001").
Proof.
  assert (H : commandes (etat (executer ordonnancement_une_commande serveur_init))
                !! "CMD-0001" = Some 0%nat) by (vm_compute; reflexivity).
  split; [exact H|].
  exact (commandes_bien_formees ordonnancement_une_commande "CMD-0001" 0 H).
Defined.

(** ** Between the runs of the threads: the key ["fin"] and the history *)

Lemma garde_segment I p c :
  garde I p c ->
  I (segment p c).1.1
  /\ Forall (fun t => forall c', I c' -> garde I (reprendre t) c') (segment p c).1.2
  /\ (forall c', I c' -> garde I (reprendre (segment p c).2) c').
Proof.
  revert c. induction p as [r|A op k IH|d k IH|t _ k IH]; intros c; cbn.
  - intros Hc. by split_and!.
  - intros Hg. destruct (op c) as [x c1]. by apply IH.
  - intros [Hc Hk]. by split_and!.
  - intros [Ht Hk]. destruct (IH c Hk) as (H1 & H2 & H3).
    destruct (segment k c) as [[c1 l] p1]. cbn in *.
    split_and!; [done| |done]. by constructor.
Qed.

Lemma garde_appel_ajouter_event I event_type data k c :
  garde I (appel_ajouter_event event_type data k) c
  = garde I k (ajouter_event event_type data c).
Proof. by apply appel_ajouter_event_seul. Qed.

Lemma garde_appel_nouvelle_commande_id I k c :
  garde I (appel_nouvelle_commande_id k) c
  = garde I (k (nouvelle_commande_id c).1) (nouvelle_commande_id c).2.
Proof. by apply appel_nouvelle_commande_id_seul. Qed.

Lemma garde_appel_trouver_four_disponible I k c :
  garde I (appel_trouver_four_disponible k) c
  = garde I (k (trouver_four_disponible c).1) c.
Proof. by apply appel_trouver_four_disponible_seul. Qed.

Lemma au_repos_egal c c' :
  objets c' = objets c -> historique c' = historique c -> au_repos c -> au_repos c'.
Proof. unfold au_repos, fin_ecrite. by intros -> ->. Qed.

Lemma au_repos_ajouter_event event_type data c :
  fin_ecrite c -> au_repos (ajouter_event event_type data c).
Proof.
  intros H. split; [|apply ajouter_event_borne].
  unfold fin_ecrite. by rewrite ajouter_event_objets.
Qed.

Lemma garde_publier_termine id a c :
  fin_ecrite c -> garde au_repos (publier_termine id a) c.
Proof.
  intros H. unfold publier_termine. cbn [garde lire fst snd].
  rewrite garde_appel_ajouter_event. by apply au_repos_ajouter_event.
Qed.

Lemma garde_fin_cuisson id a c :
  au_repos c -> garde au_repos (fin_cuisson id a) c.
Proof.
  intros [Hc Hh]. unfold fin_cuisson. cbn [garde lire fst snd].
  assert (H : fin_ecrite
                (ecrire_objet a (poser_fin (horloge c))
                   (ecrire_objet a (poser_progression 100)
                      (ecrire_objet a (poser_statut "termine") c)))).
  { unfold fin_ecrite. cbn. rewrite !list_alter_alter_eq.
    apply Forall_alter; [done|]. intros o _ _ _. by eexists. }
  case_match; cbn [garde lire fst snd]; by apply garde_publier_termine.
Qed.

Lemma garde_boucle_etapes id a etapes c :
  Forall (fun e => e.1.1.1 <> "termine") etapes ->
  au_repos c -> garde au_repos (boucle_etapes id a etapes) c.
Proof.
  intros He. revert c.
  induction He as [|[[[etape_id description] progression] duree] reste He _ IH];
    intros c Hc; cbn [boucle_etapes].
  { by apply garde_fin_cuisson. }
  cbn [garde lire fst snd]. case_match; [done|].
  cbn [garde lire fst snd]. rewrite garde_appel_ajouter_event.
  split; [|exact IH].
  apply au_repos_ajouter_event. destruct Hc as [Hc _].
  unfold fin_ecrite. cbn. rewrite !list_alter_alter_eq.
  apply Forall_alter; [done|]. by intros o _ _ Ho.
Qed.

Lemma garde_simuler_cuisson id c :
  au_repos c -> garde au_repos (simuler_cuisson id) c.
Proof.
  intros Hc. unfold simuler_cuisson. cbn [garde lire fst snd].
  case_match; [done|]. cbn [garde lire fst snd].
  case_match; [|done].
  apply garde_boucle_etapes; [|done]. by repeat constructor.
Qed.

Lemma garde_prechauffage req c :
  au_repos c -> garde au_repos (prechauffage req) c.
Proof.
  intros Hc. unfold prechauffage. rewrite garde_appel_trouver_four_disponible.
  case_match.
  - rewrite garde_appel_ajouter_event. apply au_repos_ajouter_event, Hc.
  - cbn [garde lire fst snd]. rewrite garde_appel_ajouter_event.
    split; [apply au_repos_ajouter_event, Hc|].
    intros c' Hc'. unfold prechauffage_fin. cbn [garde fst snd].
    by eapply au_repos_egal; [..|exact Hc'].
Qed.

Lemma garde_verifier_four recette recette_details portions options four_id c :
  au_repos c ->
  garde au_repos (verifier_four recette recette_details portions options four_id) c.
Proof.
  intros Hc. unfold verifier_four. cbn [garde lire fst snd].
  case_match; [done|]. unfold passer_commande.
  rewrite garde_appel_nouvelle_commande_id. cbn [garde lire fst snd].
  assert (Hf : forall debut c0, objets c0 = objets c ->
            fin_ecrite
              (creer_commande (nouvelle_commande_id c).1 recette recette_details
                 portions options four_id debut c0).2).
  { intros debut c0 H0. unfold fin_ecrite. cbn. rewrite H0.
    apply Forall_app. split; [apply Hc|]. by apply Forall_singleton. }
  destruct options as [| | | |d| |]; cbn [garde lire fst snd];
    rewrite ?garde_appel_ajouter_event;
    try (split; [by apply Hf|apply Hc]).
  split; [intros c' Hc'; by apply garde_simuler_cuisson|].
  cbn [garde]. apply au_repos_ajouter_event. by apply Hf.
Qed.

Lemma garde_commander req c : au_repos c -> garde au_repos (commander req) c.
Proof.
  intros Hc. unfold commander. destruct (recettes !! _) as [recette_details|].
  - cbn [garde lire fst snd]. case_match; [|by apply garde_verifier_four].
    rewrite garde_appel_trouver_four_disponible.
    case_match; [done|by apply garde_verifier_four].
  - rewrite garde_appel_ajouter_event. apply au_repos_ajouter_event, Hc.
Qed.

Lemma au_repos_pas_seq a s :
  au_repos (etat s)
  /\ Forall (fun t => forall c, au_repos c -> garde au_repos (reprendre t) c)
       (taches s) ->
  au_repos (etat (pas_seq a s))
  /\ Forall (fun t => forall c, au_repos c -> garde au_repos (reprendre t) c)
       (taches (pas_seq a s)).
Proof.
  intros [Hc Ht]. destruct a as [[req|req|dt|]|i]; cbn.
  - split; [done|]. apply Forall_app. split; [done|].
    apply Forall_singleton. intros c Hc0. rewrite reprendre_commander.
    by apply garde_commander.
  - split; [done|]. apply Forall_app. split; [done|].
    apply Forall_singleton. intros c Hc0. rewrite reprendre_prechauffage.
    by apply garde_prechauffage.
  - done.
  - split; [|done]. unfold generate. by destruct (events_queue (etat s)).
  - unfold avancer. destruct (taches s !! i) as [p|] eqn:Hi; [|done].
    pose proof (Forall_lookup_1 _ _ _ _ Ht Hi (etat s) Hc) as Hp.
    destruct (garde_segment _ _ _ Hp) as (H1 & H2 & H3).
    destruct (segment (reprendre p) (etat s)) as [[c' nouvelles] p']. cbn in *.
    split; [done|]. apply Forall_app. split; [|done].
    by apply Forall_insert.
Qed.

Lemma au_repos_executer_seq l :
  au_repos (etat (executer_seq l serveur_init))
  /\ Forall (fun t => forall c, au_repos c -> garde au_repos (reprendre t) c)
       (taches (executer_seq l serveur_init)).
Proof.
  induction l as [|a l IH] using rev_ind.
  - split; [split; [constructor|cbn; lia]|constructor].
  - rewrite executer_seq_snoc. by apply au_repos_pas_seq.
Qed.

(** In the executions where a scheduled thread runs alone up to its next
    sleep, the status query never raises: every order marked ["termine"]
    has its key ["fin"], and the query answers with a response for every
    id.  In the interleaved executions it can raise [KeyError]: the task
    writes ["statut"] = ["termine"] two statements before ["fin"]. *)
Theorem statut_commande_sans_exception :
  (forall (l : list action_seq) (commande_id : string),
      exists r http,
        statut_commande_reponse commande_id (etat (executer_seq l serveur_init))
        = Reponse r http)
  /\ (exists (l : list action) (commande_id : string),
        statut_commande_reponse commande_id (etat (executer l serveur_init))
        = Exception "KeyError").
Proof.
  split.
  - intros l commande_id. destruct (au_repos_executer_seq l) as [[H _] _].
    unfold statut_commande_reponse.
    destruct (commandes _ !! commande_id) as [a|]; [|by do 2 eexists].
    cbn zeta. destruct (String.eqb_spec (c_statut (objet a (etat (executer_seq l serveur_init)))) "termine") as [Ht|Ht];
      [|by do 2 eexists].
    unfold objet in *.
    destruct (objets (etat (executer_seq l serveur_init)) !! a) as [o|] eqn:Ho.
    + rewrite (list_lookup_total_correct _ _ _ Ho) in *.
      destruct (Forall_lookup_1 _ _ _ _ H Ho Ht) as [fin ->]. by do 2 eexists.
    + rewrite list_lookup_total_alt, Ho in Ht. done.
  - exists ordonnancement_entre_termine_et_fin, "CMD-0001".
    vm_compute. reflexivity.
Qed.

(** In the executions where a scheduled thread runs alone up to its next
    sleep, the history holds at most 100 events between the runs, so the
    history query returns at most 100 events and a total of at most 100
    for every [limit], missing, zero or negative included.  In the
    interleaved executions the history can hold 101 events, between the
    append of line 235 and the test of line 237, and the query then
    returns 101 events and a total of 101. *)
Theorem historique_serveur_borne :
  (forall (l : list action_seq) (limit : option Z),
      let c := etat (executer_seq l serveur_init) in
      (length (historique c) <= 100)%nat
      /\ (length (historique_api limit c).1 <= 100)%nat
      /\ ((historique_api limit c).2 <= 100)%nat)
  /\ (exists l : list action,
        let c := etat (executer l serveur_init) in
        length (historique c) = 101%nat
        /\ length (historique_api (Some 200) c).1 = 101%nat
        /\ (historique_api None c).2 = 101%nat).
Proof.
  split.
  - intros l limit. destruct (au_repos_executer_seq l) as [[_ Hh] _]. cbn zeta.
    split_and!; [done| |done]. cbn. unfold evenements_recents, tranche_depuis.
    destruct (_ <? _); rewrite length_drop; lia.
  - exists ordonnancement_101_evenements. by vm_compute.
Qed.

(** ** An order from its submission to the flan *)

Lemma derouler_boucle_fin id a reste c o :
  commandes c !! id = Some a -> objets c !! a = Some o ->
  let cf := (derouler (boucle_etapes id a reste) c).2 in
  fours cf =
    (if dans_fours (c_four_id o) c
     then modifier_four (c_four_id o) (poser_commande_en_cours None)
            (modifier_four (c_four_id o) (poser_statut_four "disponible") (fours c))
     else fours c)
  /\ commandes cf = commandes c
  /\ compteur_commandes cf = compteur_commandes c
  /\ length (objets cf) = length (objets c)
  /\ is_Some (c_fin (objet a cf))
  /\ exists nouveaux,
       events_queue cf = events_queue c ++ nouveaux
       /\ vue_event <$> nouveaux =
          progressions_attendues id reste
          ++ [("termine", Some (VStr id), None, None)].
Proof.
  revert c o. induction reste as [|[[[etape_id description] progression] duree] reste IH];
    intros c o Hid Ho; cbn zeta.
  - rewrite derouler_segment. cbn [boucle_etapes]. rewrite segment_fin_cuisson.
    cbn [snd fst].
    assert (Ha : (a < length (objets c))%nat) by by eapply lookup_lt_Some.
    split_and!.
    + unfold terminer. rewrite ajouter_event_fours. unfold objet, dans_fours. cbn.
      rewrite !list_alter_alter_eq, list_lookup_total_alter_eq by done.
      rewrite (list_lookup_total_correct _ _ _ Ho). cbn.
      by destruct (bool_decide _).
    + apply commandes_terminer.
    + apply compteur_terminer.
    + by rewrite objets_terminer, length_alter.
    + unfold objet. rewrite objets_terminer, list_lookup_total_alter_eq by done.
      by eexists.
    + eexists. unfold terminer. rewrite ajouter_event_events_queue.
      split; [by destruct (dans_fours _ _)|]. reflexivity.
  - rewrite derouler_segment, segment_boucle_etapes, (dans_commandes_Some _ _ _ Hid).
    set (e := (etape_id, description, progression, duree)).
    set (c1 := appliquer_etape id a e c).
    assert (Ho1 : objets c1 !! a =
                  Some (ajouter_etape {| et_id := etape_id; et_description := description;
                                         et_timestamp := horloge c |}
                          (poser_progression progression (poser_statut etape_id o)))).
    { unfold c1, e. rewrite objets_appliquer_etape, list_lookup_alter, Ho.
      by rewrite decide_True. }
    assert (Hid1 : commandes c1 !! id = Some a).
    { unfold c1. by rewrite commandes_appliquer_etape. }
    specialize (IH c1 _ Hid1 Ho1). cbn zeta in IH.
    destruct (derouler (boucle_etapes id a reste) c1) as [l cf].
    cbn [snd fst] in *.
    destruct IH as (H1 & H2 & H3 & H4 & H5 & nouveaux & H6 & H7).
    assert (Hd : dans_fours (c_four_id o) c1 = dans_fours (c_four_id o) c).
    { unfold dans_fours, c1. by rewrite fours_appliquer_etape. }
    cbn [c_four_id ajouter_etape poser_progression poser_statut] in H1.
    rewrite Hd in H1. unfold c1 in H1 at 1 2. rewrite !fours_appliquer_etape in H1.
    split_and!; try done.
    + rewrite H2. apply commandes_appliquer_etape.
    + rewrite H3. apply compteur_appliquer_etape.
    + rewrite H4. unfold c1, e. by rewrite objets_appliquer_etape, length_alter.
    + eexists (_ :: nouveaux). split.
      * rewrite H6. unfold c1, e, appliquer_etape.
        rewrite ajouter_event_events_queue. cbn.
        by rewrite <- (assoc_L (++)).
      * cbn [fmap list_fmap]. cbn [fmap list_fmap] in H7. rewrite H7.
        unfold progressions_attendues. cbn. done.
Qed.

Lemma derouler_simuler_cuisson id a c :
  commandes c !! id = Some a ->
  derouler (simuler_cuisson id) c = derouler (boucle_etapes id a etapes_cuisson) c.
Proof.
  intros H. unfold simuler_cuisson. cbn -[boucle_etapes etapes_cuisson].
  rewrite (dans_commandes_Some _ _ _ H). cbn -[boucle_etapes etapes_cuisson].
  by rewrite H.
Qed.

(** The task of a recorded order, run alone to its end, publishes eight
    events in this order: one ["progression"] for each of the seven
    stages, with the stage and its checkpoint, then ["termine"]; all of
    them name the order and are appended to the queue after the events
    that were waiting. *)
Theorem evenements_d_une_cuisson (commande_id : string) (a : nat) (o : commande)
    (c : CuisineFlan) :
  commandes c !! commande_id = Some a ->
  objets c !! a = Some o ->
  exists nouveaux,
    events_queue (derouler (simuler_cuisson commande_id) c).2
    = events_queue c ++ nouveaux
    /\ vue_event <$> nouveaux =
       [ ("progression", Some (VStr commande_id),
          Some (VStr "rassemblement_ingredients"), Some (VInt 10));
         ("progression", Some (VStr commande_id),
          Some (VStr "caramelisation"), Some (VInt 25));
         ("progression", Some (VStr commande_id),
          Some (VStr "melange_appareil"), Some (VInt 50));
         ("progression", Some (VStr commande_id),
          Some (VStr "versement"), Some (VInt 60));
         ("progression", Some (VStr commande_id),
          Some (VStr "cuisson"), Some (VInt 85));
         ("progression", Some (VStr commande_id),
          Some (VStr "refroidissement"), Some (VInt 95));
         ("progression", Some (VStr commande_id),
          Some (VStr "demoulage"), Some (VInt 100));
         ("termine", Some (VStr commande_id), None, None) ].
Proof.
  intros Hid Ho. rewrite (derouler_simuler_cuisson _ _ _ Hid).
  destruct (derouler_boucle_fin commande_id a etapes_cuisson c o Hid Ho)
    as (_ & _ & _ & _ & _ & nouveaux & H1 & H2).
  by exists nouveaux.
Qed.

Lemma evenements_d_une_cuisson_witness :
  commandes cuisine_une_commande !! "CMD-0001" = Some 0%nat
  /\ objets cuisine_une_commande !! 0%nat = Some (objet 0 cuisine_une_commande)
  /\ exists nouveaux,
       events_queue (derouler (simuler_cuisson "CMD-0001") cuisine_une_commande).2
       = events_queue cuisine_une_commande ++ nouveaux
       /\ vue_event <$> nouveaux =
       [ ("progression", Some (VStr "CMD-0001"),
          Some (VStr "rassemblement_ingredients"), Some (VInt 10));
         ("progression", Some (VStr "CMD-0001"),
          Some (VStr "caramelisation"), Some (VInt 25));
         ("progression", Some (VStr "CMD-0001"),
          Some (VStr "melange_appareil"), Some (VInt 50));
         ("progression", Some (VStr "CMD-0001"),
          Some (VStr "versement"), Some (VInt 60));
         ("progression", Some (VStr "CMD-0001"),
          Some (VStr "cuisson"), Some (VInt 85));
         ("progression", Some (VStr "CMD-0001"),
          Some (VStr "refroidissement"), Some (VInt 95));
         ("progression", Some (VStr "CMD-0001"),
          Some (VStr "demoulage"), Some (VInt 100));
         ("termine", Some (VStr "CMD-0001"), None, None) ].
Proof.
  assert (H1 : commandes cuisine_une_commande !! "CMD-0001" = Some 0%nat)
    by (vm_compute; reflexivity).
  assert (H2 : objets cuisine_une_commande !! 0%nat
               = Some (objet 0 cuisine_une_commande))
    by (vm_compute; reflexivity).
  split; [exact H1|]. split; [exact H2|].
  exact (evenements_d_une_cuisson "CMD-0001" 0 _ cuisine_une_commande H1 H2).
Defined.

Lemma modifier_four_modifier k g h l :
  modifier_four k g (modifier_four k h l) = modifier_four k (g ∘ h) l.
Proof.
  induction l as [|[k0 f] l IH]; [done|]. cbn.
  destruct (String.eqb k0 k) eqn:E; cbn; rewrite E; [done|]. by rewrite IH.
Qed.

Lemma modifier_four_ext k g h l f :
  chercher_four k l = Some f -> g f = h f ->
  modifier_four k g l = modifier_four k h l.
Proof.
  induction l as [|[k0 f0] l IH]; [done|]. cbn.
  destruct (String.eqb k0 k).
  - intros [= ->] ->. done.
  - intros H1 H2. by rewrite IH.
Qed.

(** An order for a known recipe that names no oven and whose options
    are a dict or are missing, submitted when an oven is free, is placed
    on the first free oven and answered 201; it
    can be queried at once (in progress at 0 %, no stage yet) while its
    oven is neither ready nor free.  Once its task has run alone to its
    end the query answers that the flan is ready with seven stages
    completed, and the ovens are as they were before the order, the
    oven that cooked holding no order. *)
Theorem commande_puis_cuisson (req : requete_commander) (recette_details : Recette)
    (four_id : string) (c : CuisineFlan) :
  cles_fours c ->
  recettes !! recette_demandee req = Some recette_details ->
  rq_four_id req = None ->
  est_dict (default (VDict []) (rq_options req)) = true ->
  (trouver_four_disponible c).1 = Some four_id ->
  let commande_id := (nouvelle_commande_id c).1 in
  let '(c1, nouvelles, p) := segment (commander req) c in
  let c2 := (derouler (simuler_cuisson commande_id) c1).2 in
  (exists r, p = Retour (Reponse r 201))
  /\ nouvelles = [simuler_cuisson commande_id]
  /\ statut_commande commande_id c1 = EnCours 0 None
  /\ four_pret four_id c1 = false
  /\ statut_commande commande_id c2 = FlanPret 7
  /\ (exists r, statut_commande_reponse commande_id c2 = Reponse r 200)
  /\ fours c2 = modifier_four four_id (poser_commande_en_cours None) (fours c).
Proof.
  cbn [trouver_four_disponible fst]. intros Hk Hr Hn Hd Hp.
  destruct (premier_disponible_Some _ _ (cles_fours_NoDup _ Hk) Hp) as (f & Hf & Hs).
  destruct (default (VDict []) (rq_options req)) as [| | | |d| |] eqn:Hopt;
    try discriminate Hd.
  assert (Hne : four_id <> "").
  { eapply cles_fours_non_vide; [done|].
    apply list_elem_of_fmap. exists (four_id, f).
    split; [done|by apply chercher_four_Some]. }
  rewrite (segment_commander_connue _ _ _ Hr). cbn zeta. rewrite Hopt.
  unfold four_nomme. rewrite Hn, Hp. cbn [vrai andb].
  destruct (String.eqb_spec four_id "") as [|_]; [done|].
  rewrite segment_verifier_four.
  assert (Hpret : four_pret four_id c = true).
  { unfold four_pret, statut_du_four. rewrite Hf, Hs. done. }
  rewrite Hpret.
  pose proof (passer_commande_passee (recette_demandee req) recette_details
                (default (VInt 1) (rq_portions req)) d four_id c f Hf) as Hpas.
  destruct (segment_passer_commande (recette_demandee req) recette_details
              (default (VInt 1) (rq_portions req)) (VDict d) four_id c)
    as (c1 & r & o & Hseg & Hfo & Hco & Hob & Hcp & Hid & Hfid & _ & Hst & Het).
  rewrite Hseg in *. destruct Hpas as [(r' & Hr' & _) _].
  set (commande_id := "CMD-" +:+ format_04d (S (compteur_commandes c))) in *.
  change (nouvelle_commande_id c).1 with commande_id.
  set (a := length (objets c)) in *.
  assert (Ha : commandes c1 !! commande_id = Some a).
  { rewrite Hco. apply lookup_insert_eq. }
  assert (Hoa : objets c1 !! a = Some o).
  { rewrite Hob. apply list_lookup_middle. done. }
  assert (Hlt : (a < length (objets c1))%nat) by by eapply lookup_lt_Some.
  injection Hst as Hst Hpr. cbn in Het. apply fmap_nil_inv in Het.
  assert (Hf1 : chercher_four four_id (fours c1) =
                Some (poser_commande_en_cours (Some commande_id)
                        (poser_statut_four "cuisson" f))).
  { by rewrite Hfo, !chercher_four_modifier_eq, Hf. }
  pose proof (derouler_boucle_etapes commande_id a etapes_cuisson c1 Ha Hlt) as H1.
  pose proof (derouler_boucle_fin commande_id a etapes_cuisson c1 o Ha Hoa) as H2.
  cbn zeta in H2.
  rewrite (derouler_simuler_cuisson _ _ _ Ha).
  destruct (derouler (boucle_etapes commande_id a etapes_cuisson) c1) as [l c2].
  cbn [snd] in *.
  destruct H1 as (_ & Hs2 & _ & He2).
  destruct H2 as (Hf2 & Hc2 & _ & _ & [fin Hfin] & _).
  assert (Hl2 : length (c_etapes (objet a c2)) = 7%nat).
  { rewrite <- (length_fmap et_id), He2. unfold objet.
    rewrite (list_lookup_total_correct _ _ _ Hoa), Het. done. }
  split_and!.
  - by exists r'.
  - done.
  - unfold statut_commande, objet. rewrite Ha.
    rewrite (list_lookup_total_correct _ _ _ Hoa), Hst, Hpr, Het. done.
  - unfold four_pret, statut_du_four. by rewrite Hf1.
  - unfold statut_commande. by rewrite Hc2, Ha, Hs2, Hl2.
  - unfold statut_commande_reponse. rewrite Hc2, Ha. cbn zeta.
    rewrite Hs2, Hfin. cbn. by eexists.
  - rewrite Hf2, Hfid. unfold dans_fours. rewrite Hf1.
    rewrite bool_decide_eq_true_2 by by eexists.
    rewrite Hfo, !modifier_four_modifier.
    apply (modifier_four_ext _ _ _ _ f Hf). clear -Hs.
    destruct f as [? ? ? ?]. cbn in *. by rewrite Hs.
Qed.

Lemma commande_puis_cuisson_witness :
  cles_fours cuisine_init
  /\ recettes !! recette_demandee requete_vanille
     = Some (c_details (objet 0 cuisine_une_commande))
  /\ rq_four_id requete_vanille = None
  /\ est_dict (default (VDict []) (rq_options requete_vanille)) = true
  /\ (trouver_four_disponible cuisine_init).1 = Some "four_1"
  /\ let commande_id := (nouvelle_commande_id cuisine_init).1 in
     let '(c1, nouvelles, p) := segment (commander requete_vanille) cuisine_init in
     let c2 := (derouler (simuler_cuisson commande_id) c1).2 in
     (exists r, p = Retour (Reponse r 201))
     /\ nouvelles = [simuler_cuisson commande_id]
     /\ statut_commande commande_id c1 = EnCours 0 None
     /\ four_pret "four_1" c1 = false
     /\ statut_commande commande_id c2 = FlanPret 7
     /\ (exists r, statut_commande_reponse commande_id c2 = Reponse r 200)
     /\ fours c2
        = modifier_four "four_1" (poser_commande_en_cours None) (fours cuisine_init).
Proof.
  assert (H1 : cles_fours cuisine_init) by reflexivity.
  assert (H2 : recettes !! recette_demandee requete_vanille
               = Some (c_details (objet 0 cuisine_une_commande)))
    by (vm_compute; reflexivity).
  assert (H3 : rq_four_id requete_vanille = None) by reflexivity.
  assert (H4 : est_dict (default (VDict []) (rq_options requete_vanille)) = true)
    by reflexivity.
  assert (H5 : (trouver_four_disponible cuisine_init).1 = Some "four_1")
    by reflexivity.
  split; [exact H1|]. split; [exact H2|]. split; [exact H3|]. split; [exact H4|].
  split; [exact H5|].
  exact (commande_puis_cuisson requete_vanille _ "four_1" cuisine_init
           H1 H2 H3 H4 H5).
Defined.

(** ** What the status query shows between the runs of the threads *)

(** In the executions where a scheduled thread runs alone up to its next
    sleep, the status query of an id shows an unknown order exactly when
    the id is not recorded, a flan that is ready with seven stages
    completed, or an order in progress whose progress and current stage
    are 0 and no stage, or one of the seven stages with its checkpoint. *)
Theorem statut_commande_coherent (l : list action_seq) (commande_id : string) :
  let c := etat (executer_seq l serveur_init) in
  match statut_commande commande_id c with
  | Introuvable => commandes c !! commande_id = None
  | FlanPret etapes_completees => etapes_completees = 7%nat
  | EnCours progression etape_actuelle =>
      (progression, et_id <$> etape_actuelle) ∈
        [ (0, None);
          (10, Some "rassemblement_ingredients");
          (25, Some "caramelisation");
          (50, Some "melange_appareil");
          (60, Some "versement");
          (85, Some "cuisson");
          (95, Some "refroidissement");
          (100, Some "demoulage") ]
  end.
Proof.
  cbn zeta. destruct (invariant_executer_seq l) as (R & _ & Hco).
  set (c := etat (executer_seq l serveur_init)) in *.
  unfold statut_commande.
  destruct (commandes c !! commande_id) as [a|] eqn:Ha; [|done].
  destruct (co_commandes _ _ _ _ _ Hco _ _ Ha) as (o & Ho & _).
  unfold objet. rewrite (list_lookup_total_correct _ _ _ Ho).
  destruct (co_rang _ _ _ _ _ Hco _ _ Ho) as (k & Hk & Hs & He).
  assert (Hl : length (c_etapes o) = length (take k ids_etapes)).
  { by rewrite <- He, length_fmap. }
  do 9 (destruct k as [|k];
        [injection Hs as Hs Hp; rewrite Hs, Hp; cbn;
         rewrite <- ?fmap_last, ?He, ?Hl; cbn;
         first [done | compute_done]|]).
  lia.
Qed.

(** In the executions where a scheduled thread runs alone up to its next
    sleep, at most three orders are in progress at any time, one for
    each oven of the pool. *)
Theorem au_plus_trois_en_cours (l : list action_seq) :
  let c := etat (executer_seq l serveur_init) in
  (length (filter (fun o => c_statut o <> "termine") (objets c)) <= 3)%nat.
Proof.
  cbn zeta. destruct (invariant_executer_seq l) as (R & _ & Hco).
  set (c := etat (executer_seq l serveur_init)) in *.
  set (L := filter (fun o => c_statut o <> "termine") (objets c)).
  assert (Hnd : NoDup (objets c)).
  { apply NoDup_alt. intros i j o Hi Hj.
    pose proof (co_objets _ _ _ _ _ Hco _ _ Hi) as H1.
    pose proof (co_objets _ _ _ _ _ Hco _ _ Hj) as H2. congruence. }
  assert (Hinj : NoDup (c_four_id <$> L)).
  { apply NoDup_fmap_2_strong; [|by apply NoDup_filter].
    intros o1 o2 [Hs1 [a1 H1]%list_elem_of_lookup]%list_elem_of_filter
      [Hs2 [a2 H2]%list_elem_of_lookup]%list_elem_of_filter Heq.
    destruct (co_lie _ _ _ _ _ Hco _ _ H1 Hs1) as (f1 & Hf1 & Hc1).
    destruct (co_lie _ _ _ _ _ Hco _ _ H2 Hs2) as (f2 & Hf2 & Hc2).
    rewrite Heq in Hf1. assert (c_id o1 = c_id o2) as Hid by congruence.
    pose proof (co_objets _ _ _ _ _ Hco _ _ H1) as H1'.
    pose proof (co_objets _ _ _ _ _ Hco _ _ H2) as H2'.
    rewrite Hid in H1'. congruence. }
  assert (Hsub : c_four_id <$> L ⊆+ (fours c).*1).
  { apply NoDup_submseteq; [done|].
    intros k (o & -> & [Hs [a Ha]%list_elem_of_lookup]%list_elem_of_filter)%list_elem_of_fmap.
    destruct (co_lie _ _ _ _ _ Hco _ _ Ha Hs) as (f & Hf & _).
    apply chercher_four_Some in Hf. apply list_elem_of_fmap. by exists (c_four_id o, f). }
  apply submseteq_length in Hsub.
  rewrite length_fmap, (co_cles _ _ _ _ _ Hco) in Hsub. exact Hsub.
Qed.
